(** * websocket-chat-system-demo: presence directory, connection registry,
      inter-gateway router and connection handler

    A shallow embedding of the Go packages [internal/presence],
    [internal/gateway] and [internal/router], and the properties of the
    specification that are settled against them, followed by further
    properties of the same code and of the test client.

    Conventions.  Go strings are Rocq strings (sequences of bytes).  A
    [time.Time] is the number of nanoseconds since the Unix epoch, a
    [time.Duration] a number of nanoseconds.  A Go [error] is a value of
    the inductive type [error]; [nil] is [None].  Shared mutable objects
    (the Redis server, the two [sync.Map]s, the [*Connection] objects,
    the sockets) live in explicit stores that are threaded through the
    operations. *)

From Stdlib Require Import ZArith Zbitwise Ascii String List Lia.
From Stdlib Require Import DecimalString DecimalZ DecimalPos DecimalFacts.
From stdpp Require Import base option gmap strings list fin_maps.

#[local] Set Warnings "-clear-no-such-hyp".

Local Open Scope string_scope.
Local Open Scope Z_scope.

(* ===================================================================== *)
(** * Go runtime: time, integer formatting and scanning, errors *)
(* ===================================================================== *)

Module Go.

Definition Time := Z.
Definition Duration := Z.

Definition Second : Duration := 1000000000.
Definition minDuration : Duration := - 2 ^ 63.
Definition maxDuration : Duration := 2 ^ 63 - 1.

(** [t.Sub(u)]: the difference, saturated to the range of a Duration. *)
Definition Sub (t u : Time) : Duration :=
  Z.max minDuration (Z.min maxDuration (t - u)).

(** [t.Unix()]: whole seconds since the epoch. *)
Definition Unix (t : Time) : Z := t `div` Second.

(** [int(d.Seconds())]: the conversion to int truncates toward zero. *)
Definition SecondsInt (d : Duration) : Z := d `quot` Second.

(** Decimal rendering of an integer, as [strconv] and the Redis client
    produce it when an [int64] is sent as a command argument. *)
Definition FormatInt (z : Z) : string :=
  NilZero.string_of_int (Z.to_int z).

Definition is_digit (c : ascii) : bool :=
  (48 <=? nat_of_ascii c)%nat && (nat_of_ascii c <=? 57)%nat.

Definition digit_val (c : ascii) : Z := Z.of_nat (nat_of_ascii c) - 48.

Fixpoint scan_digits (s : string) (acc : Z) (seen : bool) : option Z :=
  match s with
  | String c s' =>
      if is_digit c then scan_digits s' (10 * acc + digit_val c) true
      else if seen then Some acc else None
  | EmptyString => if seen then Some acc else None
  end.

Fixpoint skip_blanks (s : string) : string :=
  match s with
  | String c s' =>
      if (Ascii.eqb c " " || Ascii.eqb c "009")%bool then skip_blanks s' else s
  | EmptyString => s
  end.

(** [fmt.Sscanf(s, "%d", &x)] on an [int64]: leading blanks, an optional
    sign, the longest run of decimal digits; bytes after the digits are
    left unread.  [None] when there is no digit or the value does not
    fit in 64 bits (the target is then left as it was). *)
Definition Sscanf_d (s : string) : option Z :=
  let s := skip_blanks s in
  let '(neg, s) :=
    match s with
    | String "-" s' => (true, s')
    | String "+" s' => (false, s')
    | _ => (false, s)
    end in
  match scan_digits s 0 false with
  | Some v =>
      let v := if neg : bool then - v else v in
      if (- 2 ^ 63 <=? v) && (v <=? 2 ^ 63 - 1) then Some v else None
  | None => None
  end.

(** The errors the packages build with [fmt.Errorf].  The text of a
    wrapped transport error is not kept, only the operation that failed. *)
Inductive error :=
| ErrIO (op : string)           (* "failed to <op>: %w" *)
| ErrStale (userID : string)    (* "stale update rejected for user %s" *)
| ErrOffline (userID : string). (* "user %s is offline" *)

End Go.

(* ===================================================================== *)
(** * The Redis server as the presence package uses it *)
(* ===================================================================== *)

Module Redis.

(** A key holding a hash, with its optional expiry instant (server
    clock, milliseconds). *)
Record entry := Entry {
  fields : gmap string string;
  expireAt : option Z
}.

(** The server: its clock, its keyspace, the messages published so far
    (channel and payload, oldest first), and whether a command sent by
    the client reaches it ([false]: every command fails with a transport
    error and changes nothing). *)
Record server := Server {
  reachable : bool;
  clock : Z;
  db : gmap string entry;
  published : list (string * string)
}.

Definition with_db (r : server) (d : gmap string entry) : server :=
  Server (reachable r) (clock r) d (published r).

Definition live (r : server) (e : entry) : bool :=
  match expireAt e with
  | None => true
  | Some t => bool_decide (clock r < t)
  end.

(** The live entry under a key: an expired key reads as absent. *)
Definition get (r : server) (key : string) : option entry :=
  match db r !! key with
  | Some e => if live r e then Some e else None
  | None => None
  end.

Definition HGET (r : server) (key field : string) : option string :=
  match get r key with
  | Some e => fields e !! field
  | None => None
  end.

Definition HGETALL (r : server) (key : string) : gmap string string :=
  match get r key with
  | Some e => fields e
  | None => ∅
  end.

Fixpoint set_fields (fvs : list (string * string)) (h : gmap string string)
  : gmap string string :=
  match fvs with
  | [] => h
  | (f, v) :: rest => set_fields rest (<[f := v]> h)
  end.

(** HSET creates the hash when the key is absent (or expired) and keeps
    the expiry of a live key. *)
Definition HSET (r : server) (key : string) (fvs : list (string * string))
  : server :=
  match get r key with
  | Some e => with_db r (<[key := Entry (set_fields fvs (fields e)) (expireAt e)]> (db r))
  | None => with_db r (<[key := Entry (set_fields fvs ∅) None]> (db r))
  end.

(** EXPIRE key seconds: no effect on an absent key; a timeout that is
    not positive deletes the key. *)
Definition EXPIRE (r : server) (key : string) (seconds : Z) : server :=
  match get r key with
  | Some e =>
      if seconds <=? 0 then with_db r (delete key (db r))
      else with_db r (<[key := Entry (fields e) (Some (clock r + seconds * 1000))]> (db r))
  | None => r
  end.

Definition DEL (r : server) (key : string) : server :=
  with_db r (delete key (db r)).

Definition EXISTS (r : server) (key : string) : Z :=
  match get r key with Some _ => 1 | None => 0 end.

Definition PUBLISH (r : server) (channel payload : string) : server :=
  Server (reachable r) (clock r) (db r) (published r ++ [(channel, payload)]).

(** Remaining time to live of a key, in milliseconds. *)
Definition PTTL (r : server) (key : string) : option Z :=
  match get r key with
  | Some e => (λ t, t - clock r) <$> expireAt e
  | None => None
  end.

(** Lua's [tonumber] on the decimal integers the scripts handle; [None]
    is Lua's [nil]. *)
Definition tonumber (s : string) : option Z :=
  Z.of_int <$> NilZero.int_of_string s.

(** A number handed to [redis.call] is stored as its decimal text. *)
Definition tostring (z : Z) : string := Go.FormatInt z.

End Redis.

(* ===================================================================== *)
(** * package presence *)
(* ===================================================================== *)

Module presence.
Import Go.

Definition presenceKeyPrefix : string := "presence:".
Definition presenceTTL : Duration := 90 * Second.

Record Info := mkInfo {
  UserID : string;
  GatewayID : string;
  ConnID : string;
  Timestamp : Z
}.

(** The Lua script of [Register], run atomically by the server.
    [inl tt] is a script error (comparing [nil] with a number), [inr n]
    the integer reply. *)
Definition register_script (keys argv : list string) (r : Redis.server)
  : (unit + Z) * Redis.server :=
  let key := default "" (keys !! 0%nat) in
  let new_gw := default "" (argv !! 0%nat) in
  let new_conn := default "" (argv !! 1%nat) in
  match Redis.tonumber (default "" (argv !! 2%nat)),
        Redis.tonumber (default "" (argv !! 3%nat)) with
  | Some new_ts, Some ttl =>
      let write :=
        let r1 := Redis.HSET r key
                    [("gwId", new_gw); ("connId", new_conn);
                     ("ts", Redis.tostring new_ts)] in
        (inr 1, Redis.EXPIRE r1 key ttl) in
      match Redis.HGET r key "ts" with
      | Some current_ts =>
          match Redis.tonumber current_ts with
          | Some cur => if new_ts <? cur then (inr 0, r) else write
          | None => (inl tt, r)
          end
      | None => write
      end
  | _, _ => (inl tt, r)
  end.

(** [redis.Eval(...).Result()] *)
Definition Eval (r : Redis.server) (keys argv : list string)
  : (unit + Z) * Redis.server :=
  if Redis.reachable r then register_script keys argv r else (inl tt, r).

(** [Manager.Register]; [now] is the value [time.Now()] returns. *)
Definition Register (r : Redis.server) (now : Time)
    (userID gatewayID connID : string) : option error * Redis.server :=
  let key := presenceKeyPrefix +:+ userID in
  let timestamp := Unix now in
  let '(result, r') :=
    Eval r [key]
      [gatewayID; connID; FormatInt timestamp;
       FormatInt (SecondsInt presenceTTL)] in
  match result with
  | inl _ => (Some (ErrIO "register presence"), r')
  | inr n =>
      if n =? 0 then (Some (ErrStale userID), r') else (None, r')
  end.

(** [Manager.Refresh]: a pipeline of HSET and EXPIRE. *)
Definition Refresh (r : Redis.server) (now : Time) (userID : string)
  : option error * Redis.server :=
  let key := presenceKeyPrefix +:+ userID in
  let timestamp := Unix now in
  if Redis.reachable r then
    let r1 := Redis.HSET r key [("ts", FormatInt timestamp)] in
    let r2 := Redis.EXPIRE r1 key (SecondsInt presenceTTL) in
    (None, r2)
  else (Some (ErrIO "refresh presence"), r).

(** [Manager.Get] *)
Definition Get (r : Redis.server) (userID : string) : error + Info :=
  let key := presenceKeyPrefix +:+ userID in
  if Redis.reachable r then
    let result := Redis.HGETALL r key in
    if bool_decide (size result = 0%nat) then inl (ErrOffline userID)
    else
      let timestamp :=
        match result !! "ts" with
        | Some ts => default 0 (Sscanf_d ts)
        | None => 0
        end in
      inr (mkInfo userID (default "" (result !! "gwId"))
                  (default "" (result !! "connId")) timestamp)
  else inl (ErrIO "get presence").

(** [Manager.Remove] *)
Definition Remove (r : Redis.server) (userID : string)
  : option error * Redis.server :=
  let key := presenceKeyPrefix +:+ userID in
  if Redis.reachable r then (None, Redis.DEL r key)
  else (Some (ErrIO "remove presence"), r).

(** [Manager.IsOnline] *)
Definition IsOnline (r : Redis.server) (userID : string) : error + bool :=
  let key := presenceKeyPrefix +:+ userID in
  if Redis.reachable r then inr (0 <? Redis.EXISTS r key)
  else inl (ErrIO "check presence").

End presence.

(* ===================================================================== *)
(** * Go's unicode/utf8, as encoding/json uses it *)
(* ===================================================================== *)

Module utf8.

Definition byte_val (c : ascii) : Z := Z.of_N (N_of_ascii c).
Definition byte_of (z : Z) : ascii := ascii_of_N (Z.to_N (z `mod` 256)).

Definition RuneError : Z := 65533.   (* U+FFFD *)
Definition MaxRune : Z := 1114111.   (* U+10FFFF *)
Definition RuneSelf : Z := 128.

Definition in_range (lo hi : Z) (c : ascii) : bool :=
  (lo <=? byte_val c) && (byte_val c <=? hi).

(** Continuation byte, [locb]..[hicb]. *)
Definition is_cont (c : ascii) : bool := in_range 128 191 c.

(** The size announced by a lead byte and the range accepted for the
    second byte (the tables [first] and [acceptRanges]); [None] for a byte
    that cannot start a multi-byte sequence. *)
Definition lead (c : ascii) : option (nat * Z * Z) :=
  let b := byte_val c in
  if (194 <=? b) && (b <=? 223) then Some (2%nat, 128, 191)
  else if b =? 224 then Some (3%nat, 160, 191)
  else if (225 <=? b) && (b <=? 236) then Some (3%nat, 128, 191)
  else if b =? 237 then Some (3%nat, 128, 159)
  else if (238 <=? b) && (b <=? 239) then Some (3%nat, 128, 191)
  else if b =? 240 then Some (4%nat, 144, 191)
  else if (241 <=? b) && (b <=? 243) then Some (4%nat, 128, 191)
  else if b =? 244 then Some (4%nat, 128, 143)
  else None.

(** [utf8.DecodeRuneInString]: the first rune of [s] and its width in
    bytes; [(RuneError, 1)] on an invalid or truncated encoding and
    [(RuneError, 0)] on the empty string. *)
Definition DecodeRune (s : string) : Z * nat :=
  match s with
  | EmptyString => (RuneError, 0%nat)
  | String s0 t =>
      if byte_val s0 <? RuneSelf then (byte_val s0, 1%nat)
      else
        match lead s0 with
        | None => (RuneError, 1%nat)
        | Some (sz, lo, hi) =>
            match t with
            | String s1 t1 =>
                if negb (in_range lo hi s1) then (RuneError, 1%nat)
                else if (sz <=? 2)%nat then
                  (Z.lor (Z.shiftl (Z.land (byte_val s0) 31) 6)
                         (Z.land (byte_val s1) 63), 2%nat)
                else
                  match t1 with
                  | String s2 t2 =>
                      if negb (is_cont s2) then (RuneError, 1%nat)
                      else if (sz <=? 3)%nat then
                        (Z.lor (Z.lor (Z.shiftl (Z.land (byte_val s0) 15) 12)
                                      (Z.shiftl (Z.land (byte_val s1) 63) 6))
                               (Z.land (byte_val s2) 63), 3%nat)
                      else
                        match t2 with
                        | String s3 _ =>
                            if negb (is_cont s3) then (RuneError, 1%nat)
                            else
                              (Z.lor (Z.lor (Z.lor
                                 (Z.shiftl (Z.land (byte_val s0) 7) 18)
                                 (Z.shiftl (Z.land (byte_val s1) 63) 12))
                                 (Z.shiftl (Z.land (byte_val s2) 63) 6))
                                 (Z.land (byte_val s3) 63), 4%nat)
                        | EmptyString => (RuneError, 1%nat)
                        end
                  | EmptyString => (RuneError, 1%nat)
                  end
            | EmptyString => (RuneError, 1%nat)
            end
        end
  end.

Definition enc3 (r : Z) : string :=
  String (byte_of (Z.lor 224 (Z.shiftr r 12)))
    (String (byte_of (Z.lor 128 (Z.land (Z.shiftr r 6) 63)))
       (String (byte_of (Z.lor 128 (Z.land r 63))) EmptyString)).

(** [utf8.EncodeRune] (as [utf8.AppendRune]): the UTF-8 bytes of a rune;
    a surrogate or out-of-range value is written as U+FFFD. *)
Definition EncodeRune (r : Z) : string :=
  if (0 <=? r) && (r <=? 127) then String (byte_of r) EmptyString
  else if (0 <=? r) && (r <=? 2047) then
    String (byte_of (Z.lor 192 (Z.shiftr r 6)))
      (String (byte_of (Z.lor 128 (Z.land r 63))) EmptyString)
  else if (r <? 0) || (MaxRune <? r) || ((55296 <=? r) && (r <=? 57343))
  then enc3 RuneError
  else if r <=? 65535 then enc3 r
  else
    String (byte_of (Z.lor 240 (Z.shiftr r 18)))
      (String (byte_of (Z.lor 128 (Z.land (Z.shiftr r 12) 63)))
         (String (byte_of (Z.lor 128 (Z.land (Z.shiftr r 6) 63)))
            (String (byte_of (Z.lor 128 (Z.land r 63))) EmptyString))).

Fixpoint drop (n : nat) (s : string) : string :=
  match n, s with
  | S n', String _ t => drop n' t
  | _, _ => s
  end.

Fixpoint take (n : nat) (s : string) : string :=
  match n, s with
  | S n', String c t => String c (take n' t)
  | _, _ => EmptyString
  end.

(** [utf8.ValidString], iterated with a bound on the number of runes. *)
Fixpoint valid_go (fuel : nat) (s : string) : bool :=
  match fuel with
  | O => match s with EmptyString => true | _ => false end
  | S fuel' =>
      match s with
      | EmptyString => true
      | _ =>
          let '(r, size) := DecodeRune s in
          if (r =? RuneError) && (size =? 1)%nat then false
          else valid_go fuel' (drop size s)
      end
  end.

Definition ValidString (s : string) : bool := valid_go (String.length s) s.

End utf8.

(* ===================================================================== *)
(** * Go's encoding/json on the structs of the gateway *)
(* ===================================================================== *)

Module json.
Import utf8.

Definition dq : ascii := "034".   (* the double quote *)
Definition bs : ascii := "\".     (* the backslash *)

Definition chr (c : ascii) : string := String c EmptyString.

(** ** Encoding of a string ([appendString] with HTML escaping on) *)

Definition hex_digit (z : Z) : ascii :=
  default "0"%char (String.get (Z.to_nat z) "0123456789abcdef").

(** [htmlSafeSet]: printable ASCII but the quote, the backslash and the
    three characters [<], [>], [&]. *)
Definition htmlSafe (b : ascii) : bool :=
  (32 <=? byte_val b) && (byte_val b <? 128)
  && negb (Ascii.eqb b dq) && negb (Ascii.eqb b bs)
  && negb (Ascii.eqb b "<") && negb (Ascii.eqb b ">")
  && negb (Ascii.eqb b "&").

Definition escape_ascii (b : ascii) : string :=
  if Ascii.eqb b bs || Ascii.eqb b dq then String bs (chr b)
  else if Ascii.eqb b "008" then String bs "b"
  else if Ascii.eqb b "012" then String bs "f"
  else if Ascii.eqb b "010" then String bs "n"
  else if Ascii.eqb b "013" then String bs "r"
  else if Ascii.eqb b "009" then String bs "t"
  else
    String bs (String "u" (String "0" (String "0"
      (String (hex_digit (Z.shiftr (byte_val b) 4))
         (chr (hex_digit (Z.land (byte_val b) 15))))))).

Fixpoint appendString_go (fuel : nat) (src : string) : string :=
  match fuel with
  | O => EmptyString
  | S fuel' =>
      match src with
      | EmptyString => EmptyString
      | String b t =>
          if byte_val b <? RuneSelf then
            if htmlSafe b then String b (appendString_go fuel' t)
            else escape_ascii b +:+ appendString_go fuel' t
          else
            let '(c, size) := DecodeRune src in
            if (c =? RuneError) && (size =? 1)%nat then
              String bs "ufffd" +:+ appendString_go fuel' (drop size src)
            else if (c =? 8232) || (c =? 8233) then
              String bs "u202" +:+ chr (hex_digit (Z.land c 15))
                +:+ appendString_go fuel' (drop size src)
            else take size src +:+ appendString_go fuel' (drop size src)
      end
  end.

Definition appendString (src : string) : string :=
  String dq (appendString_go (String.length src) src +:+ chr dq).

(** ** Decoding *)

#[local] Set Warnings "-register-all".
Inductive value :=
| Null
| Bool (b : bool)
| Number (lit : string)
| Str (s : string)
| Array (vs : list value)
| Object (ms : list (string * value)).

Definition is_space (c : ascii) : bool :=
  Ascii.eqb c " " || Ascii.eqb c "009" || Ascii.eqb c "013" || Ascii.eqb c "010".

Fixpoint skip_ws (s : string) : string :=
  match s with
  | String c t => if is_space c then skip_ws t else s
  | EmptyString => s
  end.

Definition hexval (c : ascii) : option Z :=
  let b := byte_val c in
  if (48 <=? b) && (b <=? 57) then Some (b - 48)
  else if (97 <=? b) && (b <=? 102) then Some (b - 87)
  else if (65 <=? b) && (b <=? 70) then Some (b - 55)
  else None.

(** Four hexadecimal digits at the head of [s]. *)
Definition hex4 (s : string) : option Z :=
  match s with
  | String a (String b (String c (String d _))) =>
      match hexval a, hexval b, hexval c, hexval d with
      | Some x, Some y, Some z, Some w => Some (((x * 16 + y) * 16 + z) * 16 + w)
      | _, _, _, _ => None
      end
  | _ => None
  end.

(** [getu4]: the code unit of a [\uXXXX] escape at the head of [s]. *)
Definition getu4 (s : string) : option Z :=
  match s with
  | String b (String u t) =>
      if Ascii.eqb b bs && Ascii.eqb u "u" then hex4 t else None
  | _ => None
  end.

Definition IsSurrogate (r : Z) : bool := (55296 <=? r) && (r <? 57344).

(** [utf16.DecodeRune] *)
Definition utf16_DecodeRune (r1 r2 : Z) : Z :=
  if (55296 <=? r1) && (r1 <? 56320) && (56320 <=? r2) && (r2 <? 57344)
  then Z.lor (Z.shiftl (r1 - 55296) 10) (r2 - 56320) + 65536
  else RuneError.

Definition simple_escape (e : ascii) : option ascii :=
  if Ascii.eqb e dq || Ascii.eqb e bs || Ascii.eqb e "/" then Some e
  else if Ascii.eqb e "b" then Some "008"%char
  else if Ascii.eqb e "f" then Some "012"%char
  else if Ascii.eqb e "n" then Some "010"%char
  else if Ascii.eqb e "r" then Some "013"%char
  else if Ascii.eqb e "t" then Some "009"%char
  else None.

Definition emit (pre : string) (k : option (string * string))
  : option (string * string) :=
  match k with
  | Some (t, rest) => Some (pre +:+ t, rest)
  | None => None
  end.

(** A string literal after its opening quote: the decoded text and the
    input after the closing quote.  This is the scanner's check of the
    literal followed by [unquote]: escapes are resolved, surrogate pairs
    combined, and bytes that are not valid UTF-8 replaced by U+FFFD. *)
Fixpoint string_lit (fuel : nat) (s : string) : option (string * string) :=
  match fuel with
  | O => None
  | S fuel' =>
      match s with
      | EmptyString => None
      | String c t =>
          if Ascii.eqb c dq then Some (EmptyString, t)
          else if Ascii.eqb c bs then
            match t with
            | EmptyString => None
            | String e t' =>
                match simple_escape e with
                | Some ch => emit (chr ch) (string_lit fuel' t')
                | None =>
                    if Ascii.eqb e "u" then
                      match hex4 t' with
                      | None => None
                      | Some rr =>
                          let t4 := drop 4 t' in
                          if IsSurrogate rr then
                            match getu4 t4 with
                            | Some rr1 =>
                                let dec := utf16_DecodeRune rr rr1 in
                                if dec =? RuneError
                                then emit (EncodeRune RuneError) (string_lit fuel' t4)
                                else emit (EncodeRune dec) (string_lit fuel' (drop 6 t4))
                            | None => emit (EncodeRune RuneError) (string_lit fuel' t4)
                            end
                          else emit (EncodeRune rr) (string_lit fuel' t4)
                      end
                    else None
                end
            end
          else if byte_val c <? 32 then None
          else if byte_val c <? RuneSelf then emit (chr c) (string_lit fuel' t)
          else
            let '(rr, size) := DecodeRune s in
            emit (EncodeRune rr) (string_lit fuel' (drop size s))
      end
  end.

Fixpoint span_digits (s : string) : string * string :=
  match s with
  | String c t =>
      if Go.is_digit c then let '(d, r) := span_digits t in (String c d, r)
      else (EmptyString, s)
  | EmptyString => (EmptyString, EmptyString)
  end.

(** A number literal: an optional minus sign, then a single zero or a
    run of digits that does not start with zero, then an optional fraction
    (a dot and digits) and an optional exponent (e or E, an optional sign,
    digits).  The literal text is kept. *)
Definition number_lit (s : string) : option (string * string) :=
  let '(sign, s1) :=
    match s with String "-" t => ("-", t) | _ => (EmptyString, s) end in
  let int_part :=
    match s1 with
    | String "0" t => Some ("0", t)
    | _ => let '(d, r) := span_digits s1 in
           match d with EmptyString => None | _ => Some (d, r) end
    end in
  match int_part with
  | None => None
  | Some (ip, s2) =>
      let frac :=
        match s2 with
        | String "." t =>
            let '(d, r) := span_digits t in
            match d with EmptyString => None | _ => Some (String "." d, r) end
        | _ => Some (EmptyString, s2)
        end in
      match frac with
      | None => None
      | Some (fp, s3) =>
          let expo :=
            match s3 with
            | String e t =>
                if Ascii.eqb e "e" || Ascii.eqb e "E" then
                  let '(sg, t1) :=
                    match t with
                    | String "+" u => ("+", u)
                    | String "-" u => ("-", u)
                    | _ => (EmptyString, t)
                    end in
                  let '(d, r) := span_digits t1 in
                  match d with
                  | EmptyString => None
                  | _ => Some (String e (sg +:+ d), r)
                  end
                else Some (EmptyString, s3)
            | EmptyString => Some (EmptyString, s3)
            end in
          match expo with
          | None => None
          | Some (ep, s4) => Some (sign +:+ ip +:+ fp +:+ ep, s4)
          end
      end
  end.

Definition strip_prefix (p s : string) : option string :=
  if String.prefix p s then Some (drop (String.length p) s) else None.

Definition maxNestingDepth : nat := Z.to_nat 10000.

(** One JSON value at the head of the input (after white space) and the
    input that follows it.  [fuel] bounds the number of nested calls and
    [depth] is the current nesting of arrays and objects. *)
Fixpoint parse_value (fuel depth : nat) (s : string) {struct fuel}
  : option (value * string) :=
  match fuel with
  | O => None
  | S fuel' =>
      match skip_ws s with
      | EmptyString => None
      | String c t as s0 =>
          if Ascii.eqb c "{" then
            if (maxNestingDepth <? S depth)%nat then None
            else
              match skip_ws t with
              | String "}" r => Some (Object [], r)
              | t1 => parse_members fuel' (S depth) t1 []
              end
          else if Ascii.eqb c "[" then
            if (maxNestingDepth <? S depth)%nat then None
            else
              match skip_ws t with
              | String "]" r => Some (Array [], r)
              | t1 => parse_elems fuel' (S depth) t1 []
              end
          else if Ascii.eqb c dq then
            match string_lit (String.length t) t with
            | Some (str, r) => Some (Str str, r)
            | None => None
            end
          else if Ascii.eqb c "t" then
            (λ r, (Bool true, r)) <$> strip_prefix "true" s0
          else if Ascii.eqb c "f" then
            (λ r, (Bool false, r)) <$> strip_prefix "false" s0
          else if Ascii.eqb c "n" then
            (λ r, (Null, r)) <$> strip_prefix "null" s0
          else
            match number_lit s0 with
            | Some (lit, r) => Some (Number lit, r)
            | None => None
            end
      end
  end
with parse_members (fuel depth : nat) (s : string)
       (acc : list (string * value)) {struct fuel}
  : option (value * string) :=
  match fuel with
  | O => None
  | S fuel' =>
      match skip_ws s with
      | String c t =>
          if Ascii.eqb c dq then
            match string_lit (String.length t) t with
            | Some (key, r1) =>
                match skip_ws r1 with
                | String ":" r2 =>
                    match parse_value fuel' depth r2 with
                    | Some (v, r3) =>
                        match skip_ws r3 with
                        | String "," r4 =>
                            parse_members fuel' depth r4 (acc ++ [(key, v)])
                        | String "}" r4 => Some (Object (acc ++ [(key, v)]), r4)
                        | _ => None
                        end
                    | None => None
                    end
                | _ => None
                end
            | None => None
            end
          else None
      | EmptyString => None
      end
  end
with parse_elems (fuel depth : nat) (s : string) (acc : list value)
       {struct fuel} : option (value * string) :=
  match fuel with
  | O => None
  | S fuel' =>
      match parse_value fuel' depth s with
      | Some (v, r1) =>
          match skip_ws r1 with
          | String "," r2 => parse_elems fuel' depth r2 (acc ++ [v])
          | String "]" r2 => Some (Array (acc ++ [v]), r2)
          | _ => None
          end
      | None => None
      end
  end.

(** The whole input as one value ([checkValid]): nothing but white space
    may follow it. *)
Definition parse (data : string) : option value :=
  match parse_value (S (String.length data)) 0 data with
  | Some (v, rest) =>
      match skip_ws rest with EmptyString => Some v | _ => None end
  | None => None
  end.

(** ** Structs whose fields are all strings *)

(** The two characters outside ASCII that fold to an ASCII letter. *)
Definition smallLongEss : Z := 383.   (* U+017F, folds to s *)
Definition kelvin : Z := 8490.        (* U+212A, folds to k *)

Definition caseMask (c : ascii) : Z := Z.land (byte_val c) 223.

(** [equalFold name key] for a field name that is ASCII: whether the key
    equals the name under Unicode simple case folding, which is what the
    decoder's fold functions compute.  ASCII bytes are compared without
    regard to the case of letters; a character of the key outside ASCII
    matches only as U+017F against [s] or [S] and as U+212A against [k]
    or [K]. *)
Fixpoint equalFold (name key : string) : bool :=
  match name with
  | EmptyString => match key with EmptyString => true | _ => false end
  | String sb name' =>
      match key with
      | EmptyString => false
      | String tb key' =>
          if byte_val tb <? RuneSelf then
            if Ascii.eqb sb tb then equalFold name' key'
            else if (65 <=? caseMask sb) && (caseMask sb <=? 90)
                    && (caseMask sb =? caseMask tb)
            then equalFold name' key'
            else false
          else
            let '(tr, size) := DecodeRune key in
            if (Ascii.eqb sb "s" || Ascii.eqb sb "S") && (tr =? smallLongEss)
            then equalFold name' (drop size key)
            else if (Ascii.eqb sb "k" || Ascii.eqb sb "K") && (tr =? kelvin)
            then equalFold name' (drop size key)
            else false
      end
  end.

Fixpoint index_of (p : string → bool) (names : list string) : option nat :=
  match names with
  | [] => None
  | n :: rest => if p n then Some O else S <$> index_of p rest
  end.

(** The field a key names: an exact match of the tag, else the first tag
    the key equals under case folding. *)
Definition find_field (names : list string) (key : string) : option nat :=
  match index_of (String.eqb key) names with
  | Some i => Some i
  | None => index_of (λ name, equalFold name key) names
  end.

(** Assign the members of an object, in order, to the fields of a struct
    (a later duplicate overwrites an earlier one; [null] leaves the field
    as it is; unknown keys are ignored).  [None]: some member holds a
    value that is not a string where a string field is named, and
    Unmarshal returns an UnmarshalTypeError. *)
Fixpoint assign (names : list string) (ms : list (string * value))
    (vals : list string) : option (list string) :=
  match ms with
  | [] => Some vals
  | (k, v) :: rest =>
      match find_field names k with
      | None => assign names rest vals
      | Some i =>
          match v with
          | Str s => assign names rest (<[i := s]> vals)
          | Null => assign names rest vals
          | _ => None
          end
      end
  end.

(** [json.Unmarshal(data, &v)] for [v] a zero-valued struct of string
    fields tagged [names]: the values of the fields, or [None] when
    Unmarshal returns an error. *)
Definition Unmarshal (names : list string) (data : string)
  : option (list string) :=
  match parse data with
  | Some (Object ms) => assign names ms (replicate (length names) EmptyString)
  | Some Null => Some (replicate (length names) EmptyString)
  | _ => None
  end.

Fixpoint members (fs : list (string * string * bool)) (first : bool) : string :=
  match fs with
  | [] => EmptyString
  | (name, v, omitempty) :: rest =>
      if omitempty && String.eqb v EmptyString then members rest first
      else
        (if first then EmptyString else ",")
          +:+ String dq (name +:+ String dq ":") +:+ appendString v
          +:+ members rest false
  end.

(** [json.Marshal] of a struct of string fields: name, value, and
    whether the tag says [omitempty]. *)
Definition Marshal (fs : list (string * string * bool)) : string :=
  "{" +:+ members fs true +:+ "}".

End json.

(* ===================================================================== *)
(** * The Kafka client (sarama) as the router uses it *)
(* ===================================================================== *)

Module sarama.

Record RecordHeader := mkHeader { HKey : string; HValue : string }.

Record ProducerMessage := mkProducerMessage {
  PTopic : string;
  PKey : string;
  PValue : string;
  PHeaders : list RecordHeader
}.

Record ConsumerMessage := mkConsumerMessage {
  Headers : list RecordHeader;
  Key : string;
  Value : string;
  Topic : string;
  Partition : Z;
  Offset : Z
}.

(** The cluster as the producer sees it: whether a send succeeds, and the
    records accepted so far. *)
Record cluster := Cluster {
  up : bool;
  records : list ProducerMessage
}.

(** [SyncProducer.SendMessage]: [None] when the send fails. *)
Definition SendMessage (k : cluster) (m : ProducerMessage) : option cluster :=
  if up k then Some (Cluster (up k) (records k ++ [m])) else None.

End sarama.

(* ===================================================================== *)
(** * package router *)
(* ===================================================================== *)

Module router.
Import Go.

Record Message := mkMessage {
  From : string;
  To : string;
  Content : string;
  Type_ : string      (* Type: "direct", "broadcast" *)
}.

(** The JSON tags of [Message], in the order of its fields. *)
Definition Message_tags : list string := ["from"; "to"; "content"; "type"].

(** [json.Marshal(msg)] *)
Definition Marshal (m : Message) : string :=
  json.Marshal [("from", From m, false); ("to", To m, false);
                ("content", Content m, false); ("type", Type_ m, false)].

(** [json.Unmarshal(data, &routedMsg)] into a fresh [Message]. *)
Definition Unmarshal (data : string) : option Message :=
  match json.Unmarshal Message_tags data with
  | Some [f; t; c; ty] => Some (mkMessage f t c ty)
  | _ => None
  end.

(** The brokers a gateway talks to: the Redis server (shared with the
    presence manager) and the Kafka cluster. *)
Record Brokers := mkBrokers {
  redis : Redis.server;
  kafka : sarama.cluster
}.

Definition with_redis (b : Brokers) (r : Redis.server) : Brokers :=
  mkBrokers r (kafka b).

(** [RouterInterface], the sending half: the two methods a handler
    calls.  ([Start] and [Stop] manage the consumer goroutine; the
    consumer loops are [processMessages] and [ConsumeClaim] below.) *)
Class RouterInterface (R : Type) := {
  RouteToGateway : R → Brokers → Time → string → Message → option error * Brokers;
  BroadcastToAllGateways : R → Brokers → Time → Message → option error * Brokers
}.

(** [MessageHandler]: the callback for local delivery, acting on the
    state [S] of the instance that installed it. *)
Definition MessageHandler (S : Type) := Message → S → S.

(** ** Router: Redis Pub/Sub *)

Record Router := mkRouter { gatewayID : string }.

Definition getGatewayChannel (gatewayID : string) : string :=
  "gateway:" +:+ gatewayID.

Definition Publish (b : Brokers) (channel data : string) (op : string)
  : option error * Brokers :=
  if Redis.reachable (redis b)
  then (None, with_redis b (Redis.PUBLISH (redis b) channel data))
  else (Some (ErrIO op), b).

Definition Router_RouteToGateway (r : Router) (b : Brokers) (now : Time)
    (targetGatewayID : string) (msg : Message) : option error * Brokers :=
  let channel := getGatewayChannel targetGatewayID in
  let data := Marshal msg in
  Publish b channel data "publish message".

Definition Router_BroadcastToAllGateways (r : Router) (b : Brokers)
    (now : Time) (msg : Message) : option error * Brokers :=
  let channel := "gateway:broadcast" in
  let data := Marshal msg in
  Publish b channel data "broadcast message".

#[export] Instance Router_is_RouterInterface : RouterInterface Router := {
  RouteToGateway := Router_RouteToGateway;
  BroadcastToAllGateways := Router_BroadcastToAllGateways
}.

(** One payload received on the subscribed channel, in [processMessages]:
    a payload that does not decode is logged and dropped. *)
Definition processMessage {S : Type} (handler : option (MessageHandler S))
    (payload : string) (st : S) : S :=
  match Unmarshal payload with
  | None => st
  | Some routedMsg =>
      match handler with
      | Some h => h routedMsg st
      | None => st
      end
  end.

(** [processMessages]: the payloads in arrival order, until the channel
    is done. *)
Definition processMessages {S : Type} (handler : option (MessageHandler S))
    (payloads : list string) (st : S) : S :=
  fold_left (λ st p, processMessage handler p st) payloads st.

(** ** KafkaRouter *)

Record KafkaRouter := mkKafkaRouter {
  kgatewayID : string;
  kbrokers : list string
}.

Definition getGatewayTopic (gatewayID : string) : string :=
  "gateway-" +:+ gatewayID.

Definition produce (b : Brokers) (m : sarama.ProducerMessage) (op : string)
  : option error * Brokers :=
  match sarama.SendMessage (kafka b) m with
  | Some k => (None, mkBrokers (redis b) k)
  | None => (Some (ErrIO op), b)
  end.

Definition KafkaRouter_RouteToGateway (r : KafkaRouter) (b : Brokers)
    (now : Time) (targetGatewayID : string) (msg : Message)
  : option error * Brokers :=
  let topic := getGatewayTopic targetGatewayID in
  let data := Marshal msg in
  let kafkaMsg :=
    sarama.mkProducerMessage topic (To msg) data
      [sarama.mkHeader "from_gateway" (kgatewayID r);
       sarama.mkHeader "timestamp" (FormatInt (Unix now))] in
  produce b kafkaMsg "send message to Kafka".

Definition KafkaRouter_BroadcastToAllGateways (r : KafkaRouter) (b : Brokers)
    (now : Time) (msg : Message) : option error * Brokers :=
  let topic := "gateway-broadcast" in
  let data := Marshal msg in
  let kafkaMsg :=
    sarama.mkProducerMessage topic EmptyString data
      [sarama.mkHeader "from_gateway" (kgatewayID r);
       sarama.mkHeader "broadcast" "true"] in
  produce b kafkaMsg "broadcast message to Kafka".

#[export] Instance KafkaRouter_is_RouterInterface : RouterInterface KafkaRouter := {
  RouteToGateway := KafkaRouter_RouteToGateway;
  BroadcastToAllGateways := KafkaRouter_BroadcastToAllGateways
}.

(** [kafkaConsumerHandler] *)
Record kafkaConsumerHandler (S : Type) := mkConsumerHandler {
  handler : option (MessageHandler S);
  krouter : KafkaRouter
}.
Arguments mkConsumerHandler {S} _ _.
Arguments handler {S} _.
Arguments krouter {S} _.

(** The consumer-group session: the messages marked as processed, in the
    order of the [MarkMessage] calls. *)
Definition session := list sarama.ConsumerMessage.

Definition MarkMessage (ss : session) (msg : sarama.ConsumerMessage) : session :=
  (ss ++ [msg])%list.

(** The loop over the headers of a message in [ConsumeClaim].  Its
    [continue] is inside the [for ... range msg.Headers] statement, so it
    resumes that loop with the next header. *)
Fixpoint check_headers (gatewayID : string) (msg : sarama.ConsumerMessage)
    (headers : list sarama.RecordHeader) (ss : session) : session :=
  match headers with
  | [] => ss
  | header :: rest =>
      if String.eqb (sarama.HKey header) "from_gateway"
         && String.eqb (sarama.HValue header) gatewayID
      then check_headers gatewayID msg rest (MarkMessage ss msg)
      else check_headers gatewayID msg rest ss
  end.

(** One message taken from [claim.Messages()]. *)
Definition consume {S : Type} (h : kafkaConsumerHandler S)
    (msg : sarama.ConsumerMessage) (st : session * S) : session * S :=
  let '(ss, s) := st in
  match Unmarshal (sarama.Value msg) with
  | None => (MarkMessage ss msg, s)
  | Some routedMsg =>
      let ss1 := check_headers (kgatewayID (krouter h)) msg (sarama.Headers msg) ss in
      let s1 :=
        match handler h with
        | Some f => f routedMsg s
        | None => s
        end in
      (MarkMessage ss1 msg, s1)
  end.

(** [ConsumeClaim]: the messages of the claim in order, until the channel
    is closed or the session is done. *)
Definition ConsumeClaim {S : Type} (h : kafkaConsumerHandler S)
    (msgs : list sarama.ConsumerMessage) (st : session * S) : session * S :=
  fold_left (λ st msg, consume h msg st) msgs st.

End router.

(* ===================================================================== *)
(** * package gateway *)
(* ===================================================================== *)

Module gateway.
Import Go.
Export router.

Definition heartbeatInterval : Duration := 30 * Second.
Definition heartbeatTimeout : Duration := 90 * Second.

Definition msgTypePing : string := "ping".
Definition msgTypePong : string := "pong".
Definition msgTypeMessage : string := "message".
Definition msgTypeRegister : string := "register".
Definition msgTypeError : string := "error".

(** ** Frames *)

Record ClientMessage := mkClientMessage {
  CType : string;      (* Type    `json:"type"` *)
  CTo : string;        (* To      `json:"to,omitempty"` *)
  CContent : string;   (* Content `json:"content,omitempty"` *)
  CUserID : string     (* UserID  `json:"userId,omitempty"` *)
}.

Definition ClientMessage_tags : list string :=
  ["type"; "to"; "content"; "userId"].

Definition Unmarshal_ClientMessage (data : string) : option ClientMessage :=
  match json.Unmarshal ClientMessage_tags data with
  | Some [ty; to; c; u] => Some (mkClientMessage ty to c u)
  | _ => None
  end.

Record ServerMessage := mkServerMessage {
  SType : string;      (* Type    `json:"type"` *)
  SFrom : string;      (* From    `json:"from,omitempty"` *)
  SContent : string;   (* Content `json:"content,omitempty"` *)
  SError : string      (* Error   `json:"error,omitempty"` *)
}.

Definition Marshal_ServerMessage (m : ServerMessage) : string :=
  json.Marshal [("type", SType m, false); ("from", SFrom m, true);
                ("content", SContent m, true); ("error", SError m, true)].

(** ** Sockets and connections *)

(** A [*websocket.Conn] is a handle; the state behind it is whether it
    has been closed and the text frames written to it, oldest first. *)
Definition sock := nat.

Record Socket := mkSocket {
  closed : bool;
  written : list string
}.

(** [conn.WriteMessage(websocket.TextMessage, data)]: [None] when the
    write fails (the socket is closed). *)
Definition WriteMessage (socks : gmap sock Socket) (conn : sock) (data : string)
  : option (gmap sock Socket) :=
  match socks !! conn with
  | Some s =>
      if closed s then None
      else Some (<[conn := mkSocket false (written s ++ [data])%list]> socks)
  | None => None
  end.

(** [conn.Close()]; closing twice is harmless. *)
Definition CloseSocket (socks : gmap sock Socket) (conn : sock)
  : gmap sock Socket :=
  match socks !! conn with
  | Some s => <[conn := mkSocket true (written s)]> socks
  | None => socks
  end.

(** A [*Connection]: the address of the object together with the fields
    that are set once by [NewConnection].  [LastPing], the one field that
    is written afterwards, is kept in a store under the address, so that
    every holder of the pointer sees the same value. *)
Record Connection := mkConnection {
  addr : nat;
  ID : string;
  UserID : string;
  Conn : sock
}.

(** [NewConnection]: a new object, with [LastPing = time.Now()]. *)
Definition NewConnection (pings : gmap nat Time) (now : Time)
    (id userID : string) (conn : sock) : Connection * gmap nat Time :=
  let a := fresh (dom pings) in
  (mkConnection a id userID conn, <[a := now]> pings).

Definition UpdatePing (pings : gmap nat Time) (now : Time) (c : Connection)
  : gmap nat Time :=
  <[addr c := now]> pings.

Definition GetLastPing (pings : gmap nat Time) (c : Connection) : Time :=
  pings !!! addr c.

(** ** ConnectionManager *)

Record ConnectionManager := mkConnectionManager {
  userToConn : gmap string Connection;   (* userID -> *Connection *)
  connToUser : gmap string Connection    (* connID -> *Connection *)
}.

Definition NewConnectionManager : ConnectionManager :=
  mkConnectionManager ∅ ∅.

Definition Add (cm : ConnectionManager) (conn : Connection) : ConnectionManager :=
  mkConnectionManager (<[UserID conn := conn]> (userToConn cm))
                      (<[ID conn := conn]> (connToUser cm)).

Definition Remove (cm : ConnectionManager) (conn : Connection) : ConnectionManager :=
  mkConnectionManager (delete (UserID conn) (userToConn cm))
                      (delete (ID conn) (connToUser cm)).

Definition GetByUserID (cm : ConnectionManager) (userID : string)
  : option Connection :=
  userToConn cm !! userID.

Definition GetByConnID (cm : ConnectionManager) (connID : string)
  : option Connection :=
  connToUser cm !! connID.

(** [Range] visits the entries of a [sync.Map] in no specified order;
    here, in the order of [map_to_list]. *)
Definition Range (m : gmap string Connection) : list Connection :=
  (map_to_list m).*2.

Definition Count (cm : ConnectionManager) : Z :=
  fold_left (λ count _, count + 1) (Range (userToConn cm)) 0.

Definition ForEach {A : Type} (cm : ConnectionManager)
    (fn : Connection → A → A) (a : A) : A :=
  fold_left (λ a c, fn c a) (Range (userToConn cm)) a.

(** The test of [CheckHealth] on one connection. *)
Definition timed_out (pings : gmap nat Time) (now : Time) (timeout : Duration)
    (conn : Connection) : bool :=
  timeout <? Sub now (GetLastPing pings conn).

(** First loop of [CheckHealth]: the connections to remove. *)
Definition toRemove (cm : ConnectionManager) (pings : gmap nat Time)
    (now : Time) (timeout : Duration) : list Connection :=
  List.filter (timed_out pings now timeout) (Range (userToConn cm)).

(** Second loop of [CheckHealth]: close and remove each one, counting. *)
Definition remove_all (victims : list Connection)
    (st : gmap sock Socket * ConnectionManager * Z)
  : gmap sock Socket * ConnectionManager * Z :=
  fold_left
    (λ '(socks, cm, removed) conn,
       (CloseSocket socks (Conn conn), Remove cm conn, removed + 1))
    victims st.

(** [ConnectionManager.CheckHealth]; [now] is the value of [time.Now()]
    at entry. *)
Definition CheckHealth (cm : ConnectionManager) (pings : gmap nat Time)
    (socks : gmap sock Socket) (now : Time) (timeout : Duration)
  : gmap sock Socket * ConnectionManager * Z :=
  remove_all (toRemove cm pings now timeout) (socks, cm, 0).

(** ** The state of a gateway instance and of the services it uses *)

Record World := mkWorld {
  brokers : Brokers;
  connMgr : ConnectionManager;
  pings : gmap nat Time;
  socks : gmap sock Socket;
  checkers : list Connection;   (* the heartbeatChecker goroutines started *)
  logs : list string            (* the lines printed with log.Printf *)
}.

Definition set_brokers (w : World) (b : Brokers) : World :=
  mkWorld b (connMgr w) (pings w) (socks w) (checkers w) (logs w).
Definition set_redis (w : World) (r : Redis.server) : World :=
  set_brokers w (with_redis (brokers w) r).
Definition set_connMgr (w : World) (cm : ConnectionManager) : World :=
  mkWorld (brokers w) cm (pings w) (socks w) (checkers w) (logs w).
Definition set_pings (w : World) (p : gmap nat Time) : World :=
  mkWorld (brokers w) (connMgr w) p (socks w) (checkers w) (logs w).
Definition set_socks (w : World) (s : gmap sock Socket) : World :=
  mkWorld (brokers w) (connMgr w) (pings w) s (checkers w) (logs w).
Definition spawn_checker (w : World) (c : Connection) : World :=
  mkWorld (brokers w) (connMgr w) (pings w) (socks w)
          (checkers w ++ [c])%list (logs w).
Definition log (w : World) (line : string) : World :=
  mkWorld (brokers w) (connMgr w) (pings w) (socks w) (checkers w)
          (logs w ++ [line])%list.

(** The text [%v] prints for an error. *)
Definition Error (e : error) : string :=
  match e with
  | ErrIO op => "failed to " +:+ op
  | ErrStale u => "stale update rejected for user " +:+ u
  | ErrOffline u => "user " +:+ u +:+ " is offline"
  end.

Record Server (R : Type) := mkServer {
  gatewayID : string;
  port : Z;
  router : R
}.
Arguments mkServer {R} _ _ _.
Arguments gatewayID {R} _.
Arguments port {R} _.
Arguments router {R} _.

(** [Server.sendMessage] *)
Definition sendMessage (conn : sock) (msg : ServerMessage) (w : World) : World :=
  let data := Marshal_ServerMessage msg in
  match WriteMessage (socks w) conn data with
  | Some socks' => set_socks w socks'
  | None => log w "[Handler] Failed to send message"
  end.

(** [Server.sendError] *)
Definition sendError (conn : sock) (errMsg : string) (w : World) : World :=
  sendMessage conn (mkServerMessage msgTypeError EmptyString EmptyString errMsg) w.

(** [Server.deliverMessage]: the callback handed to the router. *)
Definition deliverMessage (msg : Message) (w : World) : World :=
  match GetByUserID (connMgr w) (To msg) with
  | None => log w ("[Handler] User " +:+ To msg +:+ " not found locally")
  | Some conn =>
      let serverMsg :=
        mkServerMessage msgTypeMessage (From msg) (Content msg) EmptyString in
      let w := sendMessage (Conn conn) serverMsg w in
      log w ("[Handler] Message delivered to " +:+ To msg)
  end.

(** One tick of [Server.heartbeatChecker]: [true] when the goroutine
    closes the connection and returns. *)
Definition heartbeatTick (now : Time) (conn : Connection) (w : World)
  : bool * World :=
  if heartbeatTimeout <? Sub now (GetLastPing (pings w) conn) then
    let w := log w ("[Handler] Connection timeout for user " +:+ UserID conn) in
    (true, set_socks w (CloseSocket (socks w) (Conn conn)))
  else (false, w).

(** One round of [Server.healthCheckLoop]. *)
Definition healthCheck (now : Time) (w : World) : World :=
  let '(socks', cm', removed) :=
    CheckHealth (connMgr w) (pings w) (socks w) now heartbeatTimeout in
  let w := set_connMgr (set_socks w socks') cm' in
  if 0 <? removed
  then log w ("[Server] Health check: removed " +:+ FormatInt removed
              +:+ " stale connections")
  else w.

Section Handler.
Context {R : Type} `{!RouterInterface R}.

(** [Server.routeMessage] *)
Definition routeMessage (s : Server R) (now : Time)
    (from to content : string) (w : World) : option error * World :=
  match presence.Get (redis (brokers w)) to with
  | inl err => (Some err, w)
  | inr presence =>
      let msg := mkMessage from to content "direct" in
      let '(err, b) :=
        RouteToGateway (router s) (brokers w) now
                       (presence.GatewayID presence) msg in
      (err, set_brokers w b)
  end.

(** The variables of [handleConnection] that live across iterations. *)
Record locals := mkLocals {
  userID : string;
  wsConn : option Connection     (* nil until a register frame is accepted *)
}.

(** The body of the read loop after a successful [ReadMessage]: one
    frame [message], read at instant [now]. *)
Definition handleFrame (s : Server R) (conn : sock) (connID : string)
    (now : Time) (message : string) (l : locals) (w : World)
  : locals * World :=
  match Unmarshal_ClientMessage message with
  | None =>
      let w := log w "[Handler] Failed to unmarshal message" in
      (l, sendError conn "Invalid message format" w)
  | Some msg =>
      if String.eqb (CType msg) msgTypeRegister then
        if String.eqb (CUserID msg) EmptyString then
          (l, sendError conn "UserID is required for registration" w)
        else
          let userID := CUserID msg in
          let '(wsConn, pings') := NewConnection (pings w) now connID userID conn in
          let w := set_pings w pings' in
          let l := mkLocals userID (Some wsConn) in
          let w := set_connMgr w (Add (connMgr w) wsConn) in
          let '(err, r) :=
            presence.Register (redis (brokers w)) now userID (gatewayID s) connID in
          let w := set_redis w r in
          match err with
          | Some e =>
              let w := log w ("[Handler] Failed to register presence: " +:+ Error e) in
              (l, sendError conn "Failed to register" w)
          | None =>
              let w := log w ("[Handler] User " +:+ userID +:+ " registered on gateway "
                              +:+ gatewayID s +:+ " (connID: " +:+ connID +:+ ")") in
              let w := sendMessage conn
                         (mkServerMessage "registered" EmptyString
                            "Successfully registered" EmptyString) w in
              (l, spawn_checker w wsConn)
          end
      else if String.eqb (CType msg) msgTypePing then
        let w :=
          match wsConn l with
          | Some c =>
              let w := set_pings w (UpdatePing (pings w) now c) in
              let '(err, r) := presence.Refresh (redis (brokers w)) now (userID l) in
              let w := set_redis w r in
              match err with
              | Some e => log w ("[Handler] Failed to refresh presence: " +:+ Error e)
              | None => w
              end
          | None => w
          end in
        (l, sendMessage conn (mkServerMessage msgTypePong EmptyString EmptyString EmptyString) w)
      else if String.eqb (CType msg) msgTypeMessage then
        if String.eqb (userID l) EmptyString then
          (l, sendError conn "Not registered" w)
        else if String.eqb (CTo msg) EmptyString then
          (l, sendError conn "Recipient is required" w)
        else
          let '(err, w) := routeMessage s now (userID l) (CTo msg) (CContent msg) w in
          match err with
          | Some e =>
              let w := log w ("[Handler] Failed to route message: " +:+ Error e) in
              (l, sendError conn "Failed to send message" w)
          | None =>
              (l, log w ("[Handler] Message routed: " +:+ userID l +:+ " -> " +:+ CTo msg))
          end
      else
        (l, sendError conn "Unknown message type" w)
  end.

(** The read loop: the frames read before [ReadMessage] fails, each with
    the instant at which it is handled. *)
Definition readLoop (s : Server R) (conn : sock) (connID : string)
    (frames : list (Time * string)) (l : locals) (w : World) : locals * World :=
  fold_left (λ '(l, w) '(now, message), handleFrame s conn connID now message l w)
            frames (l, w).

(** The statements after the loop ("Cleanup on disconnect"). *)
Definition cleanup (connID : string) (l : locals) (w : World) : World :=
  match wsConn l with
  | Some c =>
      let w := set_connMgr w (Remove (connMgr w) c) in
      let '(err, r) := presence.Remove (redis (brokers w)) (userID l) in
      let w := set_redis w r in
      let w :=
        match err with
        | Some e => log w ("[Handler] Failed to remove presence: " +:+ Error e)
        | None => w
        end in
      log w ("[Handler] User " +:+ userID l +:+ " disconnected (connID: "
             +:+ connID +:+ ")")
  | None => w
  end.

(** [Server.handleConnection]: the loop over the frames received until
    the read that fails, the cleanup, and the deferred [conn.Close()]. *)
Definition handleConnection (s : Server R) (conn : sock) (connID : string)
    (frames : list (Time * string)) (w : World) : World :=
  let '(l, w) := readLoop s conn connID frames (mkLocals EmptyString None) w in
  let w := cleanup connID l w in
  set_socks w (CloseSocket (socks w) conn).

End Handler.

End gateway.

(* ===================================================================== *)
(** * Predicates and notations of the statements *)
(* ===================================================================== *)

Module Properties.
Import Go json gateway.

(** JSON text written with ['] standing for the double quote. *)
Fixpoint text (s : string) : string :=
  match s with
  | String c t => String (if Ascii.eqb c "'" then dq else c) (text t)
  | EmptyString => EmptyString
  end.

(** The text of one member of an object, followed by [rest]. *)
Definition member (key v rest : string) : string :=
  String dq (key +:+ String dq (String ":" (appendString v +:+ rest))).

(** A key made of plain characters reads back as itself. *)
Definition plain_key (key : string) : Prop :=
  ∀ x, string_lit (String.length (key +:+ String dq x)) (key +:+ String dq x)
       = Some (key, x).

(** The timestamp of the stored record of a user, when it has one. *)
Definition stored_ts (r : Redis.server) (userID : string) : option Z :=
  Redis.HGET r (presence.presenceKeyPrefix +:+ userID) "ts" ≫= Redis.tonumber.

(** The timestamp stored for a user, if there is one, is a number. *)
Definition ts_numeric (r : Redis.server) (userID : string) : Prop :=
  ∀ s, Redis.HGET r (presence.presenceKeyPrefix +:+ userID) "ts" = Some s →
       is_Some (Redis.tonumber s).

(** The two indices agree with the fields of the connections they hold:
    an entry is stored under the [UserID], respectively the [ID], of its
    connection, and every connection indexed by user is indexed by
    connection id as well.  (Invariant I1 of the registry.) *)
Definition consistent (cm : ConnectionManager) : Prop :=
  (∀ u c, userToConn cm !! u = Some c →
          UserID c = u ∧ connToUser cm !! ID c = Some c)
  ∧ (∀ k c, connToUser cm !! k = Some c → ID c = k).

(** [conn.Close()] seen on the socket state. *)
Definition close_state (s : Socket) : Socket := mkSocket true (written s).

(** The frame an error is reported with. *)
Definition error_frame (errMsg : string) : string :=
  Marshal_ServerMessage (mkServerMessage msgTypeError EmptyString EmptyString errMsg).

(** The frames that take the register branch past the check of the user
    id: the ones after which [wsConn] is not nil. *)
Definition accepted_register (message : string) : bool :=
  match Unmarshal_ClientMessage message with
  | Some msg =>
      String.eqb (CType msg) msgTypeRegister
      && negb (String.eqb (CUserID msg) EmptyString)
  | None => false
  end.

(** The locals name a connection made by this handler, for the user they
    name. *)
Definition locals_ok (conn : sock) (connID : string) (l : locals) : Prop :=
  ∀ c, wsConn l = Some c → userID l = UserID c ∧ ID c = connID ∧ Conn c = conn.

End Properties.

(* ===================================================================== *)
(** * Further notions used in the statements *)
(* ===================================================================== *)

Module Notions.
Import utf8 json Properties.

(** The Redis server [ms] milliseconds later, no command having reached
    it in between. *)
Definition advance (r : Redis.server) (ms : Z) : Redis.server :=
  Redis.Server (Redis.reachable r) (Redis.clock r + ms) (Redis.db r)
               (Redis.published r).

(** The state the script of [Register] leaves when it writes. *)
Definition registered (r : Redis.server) (now : Go.Time)
    (u gw conn : string) : Redis.server :=
  Redis.EXPIRE
    (Redis.HSET r (presence.presenceKeyPrefix +:+ u)
       [("gwId", gw); ("connId", conn); ("ts", Go.FormatInt (Go.Unix now))])
    (presence.presenceKeyPrefix +:+ u) 90.

(** The user id of a frame that takes the register branch past the check
    of the user id, whatever [Register] answers afterwards. *)
Definition registering (message : string) : option string :=
  match gateway.Unmarshal_ClientMessage message with
  | Some msg =>
      if String.eqb (gateway.CType msg) gateway.msgTypeRegister
         && negb (String.eqb (gateway.CUserID msg) EmptyString)
      then Some (gateway.CUserID msg) else None
  | None => None
  end.

(** The user id of the last such frame among the frames read. *)
Definition last_registering (frames : list (Go.Time * string)) : option string :=
  fold_left (λ acc f, match registering f.2 with Some u => Some u | None => acc end)
            frames None.

(** The members [Marshal] writes for a struct of string fields: the
    fields that are not left out by [omitempty]. *)
Fixpoint present (fs : list (string * string * bool)) : list (string * value) :=
  match fs with
  | [] => []
  | (name, v, omitempty) :: rest =>
      if omitempty && String.eqb v EmptyString then present rest
      else (name, Str v) :: present rest
  end.

(** Field names that need no escaping, values that are valid UTF-8. *)
Definition plain_fields (fs : list (string * string * bool)) : Prop :=
  Forall (λ '(name, v, _), plain_key name ∧ ValidString v = true) fs.

End Notions.

(* ===================================================================== *)
(** * The test client (test-messaging.go) *)
(* ===================================================================== *)

Module testclient.
Import json gateway.

(** The client declares [ClientMessage] and [ServerMessage] with the
    fields and tags of the gateway's; the records of the gateway stand
    for both. *)

Definition Marshal_ClientMessage (m : ClientMessage) : string :=
  json.Marshal [("type", CType m, false); ("to", CTo m, true);
                ("content", CContent m, true); ("userId", CUserID m, true)].

(** [conn.WriteJSON(msg)]: the encoder writes the value and a line feed. *)
Definition WriteJSON (m : ClientMessage) : string :=
  Marshal_ClientMessage m +:+ String "010" EmptyString.

Definition ServerMessage_tags : list string :=
  ["type"; "from"; "content"; "error"].

(** [json.NewDecoder(r).Decode(&v)] on the bytes of a frame, for [v] a
    zero-valued struct of string fields: the first JSON value of the
    input is decoded, what follows it is left unread. *)
Definition Decode (names : list string) (data : string) : option (list string) :=
  match parse_value (S (String.length data)) 0 data with
  | Some (Object ms, _) => assign names ms (replicate (length names) EmptyString)
  | Some (Null, _) => Some (replicate (length names) EmptyString)
  | _ => None
  end.

(** [conn.ReadJSON(&msg)] on a text frame. *)
Definition ReadJSON (data : string) : option ServerMessage :=
  match Decode ServerMessage_tags data with
  | Some [ty; f; c; e] => Some (mkServerMessage ty f c e)
  | _ => None
  end.

End testclient.

(* ===================================================================== *)
(** * Start and Stop *)
(* ===================================================================== *)

Module lifecycle.
Import Go gateway.

(** [NewServer]: a gateway on the Redis router, which is given the id of
    the gateway. *)
Definition NewServer (gatewayID : string) (port : Z) : Server Router :=
  mkServer gatewayID port (mkRouter gatewayID).

(** [Router.Start]: the one channel the router subscribes to. *)
Definition Router_Start (r : Router) : string :=
  getGatewayChannel (router.gatewayID r).


(** Redis Pub/Sub: the payloads a subscriber of [channel] is sent, out of
    the messages published while it is subscribed, oldest first. *)
Definition pushed (channel : string) (published : list (string * string))
  : list string :=
  (filter (λ p, p.1 = channel) published).*2.


(** The loop of [Server.Stop] that closes all connections. *)
Definition Stop_connections (w : World) : World :=
  set_socks w (ForEach (connMgr w)
                 (λ conn socks, CloseSocket socks (Conn conn)) (socks w)).

End lifecycle.

(* ===================================================================== *)
(** * UTF-8 and JSON: decoding inverts encoding *)
(* ===================================================================== *)

Module JsonFacts.
Import utf8 json Properties.

(** ** Runes as sums

    An or of two numbers with no bit in common is their sum. *)
Lemma lor_add (a b n : Z) :
  0 ≤ n → a `mod` 2 ^ n = 0 → 0 ≤ b < 2 ^ n → Z.lor a b = a + b.
Proof.
  intros Hn Ha Hb.
  assert (Z.land a b = 0) as Hdisj.
  { rewrite <- (Z.mod_small b (2 ^ n)) by lia.
    rewrite <- (Z.land_ones b n) by lia.
    rewrite (Z.land_comm b), Z.land_assoc, Z.land_ones by lia.
    rewrite Ha. apply Z.land_0_l. }
  pose proof (Z.add_lor_land a b). lia.
Qed.

(** Masks, shifts to the left and shifts to the right as remainders,
    products and quotients. *)
Ltac bits_to_arith :=
  change 63 with (Z.ones 6) in *; change 31 with (Z.ones 5) in *;
  change 15 with (Z.ones 4) in *; change 7 with (Z.ones 3) in *;
  rewrite ?Z.land_ones, ?Z.shiftl_mul_pow2, ?Z.shiftr_div_pow2 by lia;
  change (2 ^ 3) with 8 in *; change (2 ^ 4) with 16 in *; change (2 ^ 5) with 32 in *;
  change (2 ^ 6) with 64 in *; change (2 ^ 12) with 4096 in *;
  change (2 ^ 18) with 262144 in *.

(** The rune [DecodeRune] computes from two, three and four bytes. *)
Lemma rune2 (z0 z1 : Z) :
  194 ≤ z0 ≤ 223 → 128 ≤ z1 ≤ 191 →
  let c := Z.lor (Z.shiftl (Z.land z0 31) 6) (Z.land z1 63) in
  c = (z0 - 192) * 64 + (z1 - 128).
Proof.
  intros H0 H1 c. subst c. bits_to_arith.
  rewrite (lor_add _ _ 6); change (2 ^ 6) with 64;
    Z.div_mod_to_equations; lia.
Qed.

Lemma rune3 (z0 z1 z2 : Z) :
  224 ≤ z0 ≤ 239 → 128 ≤ z1 ≤ 191 → 128 ≤ z2 ≤ 191 →
  let c := Z.lor (Z.lor (Z.shiftl (Z.land z0 15) 12)
                        (Z.shiftl (Z.land z1 63) 6))
                 (Z.land z2 63) in
  c = (z0 - 224) * 4096 + (z1 - 128) * 64 + (z2 - 128).
Proof.
  intros H0 H1 H2 c. subst c. bits_to_arith.
  rewrite (lor_add _ (_ * 64) 12); change (2 ^ 12) with 4096;
    [| lia | Z.div_mod_to_equations; lia | Z.div_mod_to_equations; lia].
  rewrite (lor_add _ _ 6); change (2 ^ 6) with 64;
    Z.div_mod_to_equations; lia.
Qed.

Lemma rune4 (z0 z1 z2 z3 : Z) :
  240 ≤ z0 ≤ 244 → 128 ≤ z1 ≤ 191 → 128 ≤ z2 ≤ 191 → 128 ≤ z3 ≤ 191 →
  let c := Z.lor (Z.lor (Z.lor (Z.shiftl (Z.land z0 7) 18)
                               (Z.shiftl (Z.land z1 63) 12))
                        (Z.shiftl (Z.land z2 63) 6))
                 (Z.land z3 63) in
  c = (z0 - 240) * 262144 + (z1 - 128) * 4096 + (z2 - 128) * 64 + (z3 - 128).
Proof.
  intros H0 H1 H2 H3 c. subst c. bits_to_arith.
  rewrite (lor_add _ (_ * 4096) 18); change (2 ^ 18) with 262144;
    [| lia | Z.div_mod_to_equations; lia | Z.div_mod_to_equations; lia].
  rewrite (lor_add _ (_ * 64) 12); change (2 ^ 12) with 4096;
    [| lia | Z.div_mod_to_equations; lia | Z.div_mod_to_equations; lia].
  rewrite (lor_add _ _ 6); change (2 ^ 6) with 64;
    Z.div_mod_to_equations; lia.
Qed.

Lemma byte_val_range (a : ascii) : 0 ≤ byte_val a < 256.
Proof.
  unfold byte_val. pose proof (N_ascii_bounded a). lia.
Qed.

Lemma byte_of_val (a : ascii) : byte_of (byte_val a) = a.
Proof.
  unfold byte_of. rewrite Z.mod_small by apply byte_val_range.
  unfold byte_val. rewrite N2Z.id. apply ascii_N_embedding.
Qed.

(** Settles the comparisons of the goal that the context decides. *)
Ltac decide_cmp :=
  repeat match goal with
    | |- context [?a <=? ?b] =>
        first [ rewrite (proj2 (Z.leb_le a b)) by lia
              | rewrite (proj2 (Z.leb_gt a b)) by lia ]
    | |- context [?a <? ?b] =>
        first [ rewrite (proj2 (Z.ltb_lt a b)) by lia
              | rewrite (proj2 (Z.ltb_ge a b)) by lia ]
    end.

(** ** [EncodeRune] gives back the bytes of a valid encoding *)

Lemma EncodeRune2 (z0 z1 : Z) :
  194 ≤ z0 ≤ 223 → 128 ≤ z1 ≤ 191 →
  EncodeRune ((z0 - 192) * 64 + (z1 - 128))
  = String (byte_of z0) (String (byte_of z1) EmptyString).
Proof.
  intros H0 H1. unfold EncodeRune, MaxRune.
  set (c := (z0 - 192) * 64 + (z1 - 128)).
  assert (128 ≤ c ≤ 2047) by (subst c; lia).
  decide_cmp. simpl. bits_to_arith.
  rewrite (lor_add 192 _ 6); change (2 ^ 6) with 64;
    [| lia | reflexivity | subst c; Z.div_mod_to_equations; lia].
  rewrite (lor_add 128 _ 7); change (2 ^ 7) with 128;
    [| lia | reflexivity | subst c; Z.div_mod_to_equations; lia].
  f_equal; [|f_equal]; f_equal; subst c; Z.div_mod_to_equations; lia.
Qed.

Lemma enc3_bytes (z0 z1 z2 : Z) :
  224 ≤ z0 ≤ 239 → 128 ≤ z1 ≤ 191 → 128 ≤ z2 ≤ 191 →
  enc3 ((z0 - 224) * 4096 + (z1 - 128) * 64 + (z2 - 128))
  = String (byte_of z0) (String (byte_of z1) (String (byte_of z2) EmptyString)).
Proof.
  intros H0 H1 H2. unfold enc3.
  set (c := (z0 - 224) * 4096 + (z1 - 128) * 64 + (z2 - 128)).
  bits_to_arith.
  rewrite (lor_add 224 _ 5); change (2 ^ 5) with 32;
    [| lia | reflexivity | subst c; Z.div_mod_to_equations; lia].
  rewrite !(lor_add 128 _ 7); change (2 ^ 7) with 128;
    try reflexivity; try lia; try (subst c; Z.div_mod_to_equations; lia).
  f_equal; [|f_equal; [|f_equal]]; f_equal; subst c; Z.div_mod_to_equations; lia.
Qed.

Lemma EncodeRune3 (z0 z1 z2 : Z) :
  224 ≤ z0 ≤ 239 → 128 ≤ z1 ≤ 191 → 128 ≤ z2 ≤ 191 →
  (z0 = 224 → 160 ≤ z1) → (z0 = 237 → z1 ≤ 159) →
  EncodeRune ((z0 - 224) * 4096 + (z1 - 128) * 64 + (z2 - 128))
  = String (byte_of z0) (String (byte_of z1) (String (byte_of z2) EmptyString)).
Proof.
  intros H0 H1 H2 Hlo Hhi. rewrite <- enc3_bytes by done. unfold EncodeRune.
  set (c := (z0 - 224) * 4096 + (z1 - 128) * 64 + (z2 - 128)).
  assert (2048 ≤ c ≤ 65535) by (subst c; lia).
  assert (¬ (55296 ≤ c ≤ 57343)) by (subst c; lia).
  unfold MaxRune. decide_cmp.
  destruct (Z.leb_spec 55296 c); decide_cmp; done.
Qed.

Lemma EncodeRune4 (z0 z1 z2 z3 : Z) :
  240 ≤ z0 ≤ 244 → 128 ≤ z1 ≤ 191 → 128 ≤ z2 ≤ 191 → 128 ≤ z3 ≤ 191 →
  (z0 = 240 → 144 ≤ z1) → (z0 = 244 → z1 ≤ 143) →
  EncodeRune ((z0 - 240) * 262144 + (z1 - 128) * 4096 + (z2 - 128) * 64 + (z3 - 128))
  = String (byte_of z0) (String (byte_of z1)
      (String (byte_of z2) (String (byte_of z3) EmptyString))).
Proof.
  intros H0 H1 H2 H3 Hlo Hhi. unfold EncodeRune.
  set (c := (z0 - 240) * 262144 + (z1 - 128) * 4096 + (z2 - 128) * 64 + (z3 - 128)).
  assert (65536 ≤ c ≤ 1114111) by (subst c; lia).
  unfold MaxRune. decide_cmp. simpl. bits_to_arith.
  rewrite (lor_add 240 _ 4); change (2 ^ 4) with 16;
    [| lia | reflexivity | subst c; Z.div_mod_to_equations; lia].
  rewrite !(lor_add 128 _ 7); change (2 ^ 7) with 128;
    try reflexivity; try lia; try (subst c; Z.div_mod_to_equations; lia).
  f_equal; [|f_equal; [|f_equal; [|f_equal]]]; f_equal;
    subst c; Z.div_mod_to_equations; lia.
Qed.

Lemma in_range_spec lo hi a :
  in_range lo hi a = true ↔ lo ≤ byte_val a ≤ hi.
Proof. unfold in_range. rewrite andb_true_iff, !Z.leb_le. done. Qed.

Lemma lead_spec (a : ascii) (sz : nat) (lo hi : Z) :
  lead a = Some (sz, lo, hi) →
  128 ≤ lo ∧ hi ≤ 191
  ∧ ((sz = 2%nat ∧ 194 ≤ byte_val a ≤ 223)
     ∨ (sz = 3%nat ∧ 224 ≤ byte_val a ≤ 239
        ∧ (byte_val a = 224 → lo = 160) ∧ (byte_val a = 237 → hi = 159))
     ∨ (sz = 4%nat ∧ 240 ≤ byte_val a ≤ 244
        ∧ (byte_val a = 240 → lo = 144) ∧ (byte_val a = 244 → hi = 143))).
Proof.
  unfold lead. set (b := byte_val a).
  repeat match goal with
    | |- context [?x <=? ?y] => destruct (Z.leb_spec x y)
    | |- context [?x =? ?y] => destruct (Z.eqb_spec x y)
    end; simpl; intros [= <- <- <-]; lia.
Qed.

(** A valid multi-byte encoding at the head of a string: [EncodeRune]
    gives back the bytes [DecodeRune] consumed, and [DecodeRune] looks at
    no byte after them. *)
Lemma DecodeRune_valid (s0 : ascii) (t : string) (c : Z) (size : nat) :
  128 ≤ byte_val s0 →
  DecodeRune (String s0 t) = (c, size) →
  (c =? RuneError) && (size =? 1)%nat = false →
  (2 ≤ size)%nat
  ∧ EncodeRune c = take size (String s0 t)
  ∧ String.length (take size (String s0 t)) = size
  ∧ (∀ x, DecodeRune (take size (String s0 t) +:+ x) = (c, size)).
Proof.
  intros Hhi Hdec Hok. unfold DecodeRune in Hdec.
  destruct (Z.ltb_spec (byte_val s0) RuneSelf) as [Hlt|_];
    [unfold RuneSelf in Hlt; lia|].
  destruct (lead s0) as [[[sz lo] hi]|] eqn:Hlead;
    [|injection Hdec as <- <-; discriminate Hok].
  destruct (lead_spec _ _ _ _ Hlead) as (Hlo & Hhi' & Hcases).
  destruct t as [|s1 t1]; [injection Hdec as <- <-; discriminate Hok|].
  destruct (in_range lo hi s1) eqn:Hr1; simpl in Hdec;
    [|injection Hdec as <- <-; discriminate Hok].
  apply in_range_spec in Hr1 as Hr1'.
  destruct Hcases as [(-> & H0) | [(-> & H0 & Hl & Hh) | (-> & H0 & Hl & Hh)]];
    simpl in Hdec.
  - injection Hdec as <- <-. split; [lia|].
    rewrite rune2 by lia. rewrite EncodeRune2 by lia.
    rewrite !byte_of_val. split; [done|]. split; [done|].
    intros x. simpl. unfold DecodeRune.
    destruct (Z.ltb_spec (byte_val s0) RuneSelf) as [Hlt|_];
      [unfold RuneSelf in Hlt; lia|].
    rewrite Hlead, Hr1. simpl. by rewrite rune2 by lia.
  - destruct t1 as [|s2 t2]; [injection Hdec as <- <-; discriminate Hok|].
    destruct (is_cont s2) eqn:Hr2; simpl in Hdec;
      [|injection Hdec as <- <-; discriminate Hok].
    apply in_range_spec in Hr2 as Hr2'.
    injection Hdec as <- <-. split; [lia|].
    rewrite rune3 by lia. rewrite EncodeRune3 by lia.
    rewrite !byte_of_val. split; [done|]. split; [done|].
    intros x. simpl. unfold DecodeRune.
    destruct (Z.ltb_spec (byte_val s0) RuneSelf) as [Hlt|_];
      [unfold RuneSelf in Hlt; lia|].
    rewrite Hlead, Hr1, Hr2. simpl. by rewrite rune3 by lia.
  - destruct t1 as [|s2 t2]; [injection Hdec as <- <-; discriminate Hok|].
    destruct (is_cont s2) eqn:Hr2; simpl in Hdec;
      [|injection Hdec as <- <-; discriminate Hok].
    apply in_range_spec in Hr2 as Hr2'.
    destruct t2 as [|s3 t3]; [injection Hdec as <- <-; discriminate Hok|].
    destruct (is_cont s3) eqn:Hr3; simpl in Hdec;
      [|injection Hdec as <- <-; discriminate Hok].
    apply in_range_spec in Hr3 as Hr3'.
    injection Hdec as <- <-. split; [lia|].
    rewrite rune4 by lia. rewrite EncodeRune4 by lia.
    rewrite !byte_of_val. split; [done|]. split; [done|].
    intros x. simpl. unfold DecodeRune.
    destruct (Z.ltb_spec (byte_val s0) RuneSelf) as [Hlt|_];
      [unfold RuneSelf in Hlt; lia|].
    rewrite Hlead, Hr1, Hr2, Hr3. simpl. by rewrite rune4 by lia.
Qed.


(** ** String literals *)

Lemma hex4_u00 (b : ascii) (x : string) :
  byte_val b < 128 →
  hex4 (String "0" (String "0"
          (String (hex_digit (Z.shiftr (byte_val b) 4))
             (String (hex_digit (Z.land (byte_val b) 15)) x))))
  = Some (byte_val b).
Proof.
  destruct b as [[] [] [] [] [] [] [] []]; intros H;
    first [ by vm_compute in H | by vm_compute ].
Qed.

Lemma EncodeRune_ascii (b : ascii) :
  byte_val b < 128 → EncodeRune (byte_val b) = chr b.
Proof.
  intros H. pose proof (byte_val_range b). unfold EncodeRune.
  decide_cmp. simpl. by rewrite byte_of_val.
Qed.

Lemma escape_u00 (b : ascii) (f : nat) (x : string) :
  byte_val b < 128 →
  simple_escape b = None →
  string_lit (S f)
    (String bs (String "u" (String "0" (String "0"
       (String (hex_digit (Z.shiftr (byte_val b) 4))
          (chr (hex_digit (Z.land (byte_val b) 15))))))) +:+ x)
  = emit (chr b) (string_lit f x).
Proof.
  intros Hb Hesc. pose proof (byte_val_range b).
  change (String bs (String "u" (String "0" (String "0"
       (String (hex_digit (Z.shiftr (byte_val b) 4))
          (chr (hex_digit (Z.land (byte_val b) 15))))))) +:+ x)
    with (String bs (String "u" (String "0" (String "0"
       (String (hex_digit (Z.shiftr (byte_val b) 4))
          (String (hex_digit (Z.land (byte_val b) 15)) x)))))).
  cbn [string_lit].
  change (Ascii.eqb bs dq) with false. change (Ascii.eqb bs bs) with true.
  change (simple_escape "u") with (@None ascii).
  change (Ascii.eqb "u" "u") with true. cbv iota.
  rewrite hex4_u00 by done. cbn [drop].
  unfold IsSurrogate. decide_cmp. simpl.
  by rewrite EncodeRune_ascii by done.
Qed.

(** One ASCII byte, written raw or escaped, is read back in one step. *)
Lemma lit_ascii (b : ascii) (f : nat) (x : string) :
  byte_val b < 128 →
  string_lit (S f) ((if htmlSafe b then chr b else escape_ascii b) +:+ x)
  = emit (chr b) (string_lit f x).
Proof.
  intros Hb. pose proof (byte_val_range b).
  destruct (htmlSafe b) eqn:Hsafe.
  - unfold htmlSafe in Hsafe.
    repeat (apply andb_true_iff in Hsafe as [Hsafe ?]).
    change (chr b +:+ x) with (String b x). cbn [string_lit].
    destruct (Ascii.eqb b dq); [done|]. destruct (Ascii.eqb b bs); [done|].
    unfold RuneSelf. decide_cmp. done.
  - unfold escape_ascii.
    destruct (Ascii.eqb b bs) eqn:E1.
    { apply Ascii.eqb_eq in E1 as ->. done. }
    destruct (Ascii.eqb b dq) eqn:E2.
    { apply Ascii.eqb_eq in E2 as ->. done. }
    simpl orb. cbv iota.
    destruct (Ascii.eqb b "008") eqn:E3.
    { apply Ascii.eqb_eq in E3 as ->. done. }
    destruct (Ascii.eqb b "012") eqn:E4.
    { apply Ascii.eqb_eq in E4 as ->. done. }
    destruct (Ascii.eqb b "010") eqn:E5.
    { apply Ascii.eqb_eq in E5 as ->. done. }
    destruct (Ascii.eqb b "013") eqn:E6.
    { apply Ascii.eqb_eq in E6 as ->. done. }
    destruct (Ascii.eqb b "009") eqn:E7.
    { apply Ascii.eqb_eq in E7 as ->. done. }
    apply escape_u00; [done|].
    unfold simple_escape. rewrite E2, E1. simpl orb.
    unfold htmlSafe in Hsafe. rewrite E1, E2 in Hsafe.
    destruct (Ascii.eqb b "/") eqn:E8.
    { apply Ascii.eqb_eq in E8 as ->. discriminate Hsafe. }
    destruct (Ascii.eqb b "b") eqn:E9.
    { apply Ascii.eqb_eq in E9 as ->. discriminate Hsafe. }
    destruct (Ascii.eqb b "f") eqn:E10.
    { apply Ascii.eqb_eq in E10 as ->. discriminate Hsafe. }
    destruct (Ascii.eqb b "n") eqn:E11.
    { apply Ascii.eqb_eq in E11 as ->. discriminate Hsafe. }
    destruct (Ascii.eqb b "r") eqn:E12.
    { apply Ascii.eqb_eq in E12 as ->. discriminate Hsafe. }
    destruct (Ascii.eqb b "t") eqn:E13.
    { apply Ascii.eqb_eq in E13 as ->. discriminate Hsafe. }
    done.
Qed.

(** Strings: append, [take] and [drop]. *)
Lemma app_cons_s (x : ascii) (a b : string) :
  String x a +:+ b = String x (a +:+ b).
Proof. reflexivity. Qed.

Lemma app_assoc_s (a b c : string) : (a +:+ b) +:+ c = a +:+ (b +:+ c).
Proof.
  induction a as [|x a IH]; [done|]. by rewrite !app_cons_s, IH.
Qed.

Lemma length_app_s (a b : string) :
  String.length (a +:+ b) = (String.length a + String.length b)%nat.
Proof.
  induction a as [|x a IH]; [done|]. rewrite app_cons_s. simpl. by rewrite IH.
Qed.

Lemma take_drop_s (k : nat) (s : string) : take k s +:+ drop k s = s.
Proof.
  revert s. induction k as [|k IH]; intros [|x s]; try done.
  cbn [take drop]. by rewrite app_cons_s, IH.
Qed.

Lemma length_drop_s (k : nat) (s : string) :
  String.length (drop k s) = (String.length s - k)%nat.
Proof. revert s. induction k as [|k IH]; intros [|x s]; simpl; auto. Qed.

Lemma drop_app_s (a x : string) : drop (String.length a) (a +:+ x) = x.
Proof.
  induction a as [|c a IH]; [by destruct x|]. by rewrite app_cons_s.
Qed.

Lemma high_not_special (b : ascii) :
  128 ≤ byte_val b → Ascii.eqb b dq = false ∧ Ascii.eqb b bs = false.
Proof.
  intros H. split; apply Ascii.eqb_neq; intros ->; vm_compute in H; by apply H.
Qed.

Lemma escape_ascii_nonempty (b : ascii) :
  (1 ≤ String.length (escape_ascii b))%nat.
Proof. unfold escape_ascii. repeat case_match; simpl; lia. Qed.

Lemma lit_separator (c : Z) (f : nat) (x : string) :
  c = 8232 ∨ c = 8233 →
  string_lit (S f) (String bs "u202" +:+ chr (hex_digit (Z.land c 15)) +:+ x)
  = emit (EncodeRune c) (string_lit f x).
Proof. by intros [-> | ->]. Qed.

(** Decoding the encoding of a valid string gives the string back. *)
Lemma string_lit_appendString_go (n : nat) (s : string) :
  (String.length s ≤ n)%nat → valid_go n s = true →
  ∀ f rest, (String.length (appendString_go n s) < f)%nat →
  string_lit f (appendString_go n s +:+ String dq rest) = Some (s, rest).
Proof.
  revert s. induction n as [|n IH]; intros s Hlen Hvalid f rest Hf.
  { destruct s; [|simpl in Hlen; lia]. destruct f; [simpl in Hf; lia|]. done. }
  destruct s as [|b t].
  { destruct f; [simpl in Hf; lia|]. done. }
  cbn [valid_go] in Hvalid. cbn [appendString_go] in Hf |- *.
  simpl in Hlen.
  destruct (DecodeRune (String b t)) as [c size] eqn:Hdec.
  destruct ((c =? RuneError) && (size =? 1)%nat) eqn:Herr; [done|].
  destruct (Z.ltb_spec (byte_val b) RuneSelf) as [Hlo|Hhi].
  - (* one ASCII byte *)
    assert (size = 1%nat) as ->.
    { unfold DecodeRune in Hdec.
      rewrite (proj2 (Z.ltb_lt _ _) Hlo) in Hdec. by injection Hdec. }
    cbn [drop] in Hvalid.
    assert (∀ e, (if htmlSafe b then String b e else escape_ascii b +:+ e)
                 = (if htmlSafe b then chr b else escape_ascii b) +:+ e) as Hshape
      by (intros e; by destruct (htmlSafe b)).
    rewrite Hshape in Hf |- *. rewrite app_assoc_s.
    rewrite length_app_s in Hf.
    assert (1 ≤ String.length (if htmlSafe b then chr b else escape_ascii b))%nat.
    { destruct (htmlSafe b); [simpl; lia | apply escape_ascii_nonempty]. }
    destruct f as [|f]; [lia|].
    rewrite lit_ascii by (unfold RuneSelf in Hlo; lia).
    rewrite IH by (try done; lia). done.
  - (* a multi-byte rune *)
    unfold RuneSelf in Hhi.
    destruct (DecodeRune_valid b t c size ltac:(lia) Hdec Herr)
      as (Hsize & Henc & Htake & Hagain).
    assert (String.length (drop size (String b t)) ≤ n)%nat as Hlen'
      by (rewrite length_drop_s; simpl; lia).
    destruct (high_not_special b ltac:(lia)) as [Hdq Hbs].
    destruct ((c =? 8232) || (c =? 8233)) eqn:Hsep.
    + (* U+2028, U+2029 *)
      rewrite !app_assoc_s. rewrite !length_app_s in Hf. simpl in Hf.
      destruct f as [|f]; [lia|].
      rewrite lit_separator
        by (apply orb_true_iff in Hsep as [Hc|Hc]; apply Z.eqb_eq in Hc; auto).
      rewrite Henc, IH by (try done; lia).
      simpl. by rewrite take_drop_s.
    + rewrite app_assoc_s. rewrite length_app_s in Hf.
      destruct f as [|f]; [lia|].
      destruct size as [|size]; [lia|].
      change (take (S size) (String b t)) with (String b (take size t)) in *.
      change (String b (take size t) +:+ ?x) with (String b (take size t +:+ x)).
      cbn [string_lit]. rewrite Hdq, Hbs.
      rewrite (proj2 (Z.ltb_ge _ _)) by lia.
      rewrite (proj2 (Z.ltb_ge _ _)) by (unfold RuneSelf; lia).
      change (String b (take size t +:+ ?x)) with (String b (take size t) +:+ x).
      rewrite Hagain, Henc.
      rewrite <- Htake at 1. rewrite drop_app_s.
      rewrite IH by (try done; simpl in *; lia).
      unfold emit. cbn [drop]. by rewrite app_cons_s, take_drop_s.
Qed.

(** ** Objects *)

Lemma parse_value_string (s : string) (f depth : nat) (rest : string) :
  ValidString s = true →
  parse_value (S f) depth (appendString s +:+ rest) = Some (Str s, rest).
Proof.
  intros Hvalid. unfold appendString.
  rewrite app_cons_s, app_assoc_s.
  change (chr dq +:+ rest) with (String dq rest).
  cbn [parse_value].
  change (skip_ws (String dq ?x)) with (String dq x). cbv iota.
  change (Ascii.eqb dq "{") with false. change (Ascii.eqb dq "[") with false.
  change (Ascii.eqb dq dq) with true. cbv iota.
  rewrite string_lit_appendString_go; [done | done | done |].
  rewrite length_app_s. simpl. lia.
Qed.

Lemma parse_members_comma (key v : string) (f depth : nat) (rest : string)
    (acc : list (string * value)) :
  plain_key key → ValidString v = true →
  parse_members (S (S f)) depth (member key v (String "," rest)) acc
  = parse_members (S f) depth rest (acc ++ [(key, Str v)]).
Proof.
  intros Hkey Hvalid. unfold member. cbn [parse_members].
  change (skip_ws (String dq ?x)) with (String dq x). cbv iota.
  change (Ascii.eqb dq dq) with true. cbv iota.
  rewrite Hkey.
  change (skip_ws (String ":" ?x)) with (String ":" x). cbv iota.
  rewrite parse_value_string by done.
  change (skip_ws (String "," ?x)) with (String "," x). cbv iota. done.
Qed.

Lemma parse_members_close (key v : string) (f depth : nat) (rest : string)
    (acc : list (string * value)) :
  plain_key key → ValidString v = true →
  parse_members (S (S f)) depth (member key v (String "}" rest)) acc
  = Some (Object (acc ++ [(key, Str v)]), rest).
Proof.
  intros Hkey Hvalid. unfold member. cbn [parse_members].
  change (skip_ws (String dq ?x)) with (String dq x). cbv iota.
  change (Ascii.eqb dq dq) with true. cbv iota.
  rewrite Hkey.
  change (skip_ws (String ":" ?x)) with (String ":" x). cbv iota.
  rewrite parse_value_string by done.
  change (skip_ws (String "}" ?x)) with (String "}" x). cbv iota. done.
Qed.

Lemma parse_value_open (key v x : string) (f : nat) :
  parse_value (S f) 0 (String "{" (member key v x))
  = parse_members f 1 (member key v x) [].
Proof. reflexivity. Qed.

Import router.

(** C9.  For a routed message whose four fields are valid UTF-8,
    decoding the JSON encoding of the message gives the message back. *)
Theorem Message_roundtrip (m : Message) :
  ValidString (From m) = true → ValidString (To m) = true →
  ValidString (Content m) = true → ValidString (Type_ m) = true →
  Unmarshal (Marshal m) = Some m.
Proof.
  intros HF HT HC HTy. destruct m as [F T C Ty].
  cbn [From To Content Type_] in HF, HT, HC, HTy.
  unfold Unmarshal, json.Unmarshal, parse, Marshal, json.Marshal.
  cbn [From To Content Type_].
  assert ("{" +:+ members [("from", F, false); ("to", T, false);
                           ("content", C, false); ("type", Ty, false)] true
              +:+ "}"
          = String "{" (member "from" F (String "," (member "to" T (String ","
              (member "content" C (String "," (member "type" Ty "}")))))))) as ->.
  { unfold member. cbn [members andb]. rewrite !app_assoc_s. reflexivity. }
  set (data := String "{" _).
  assert (∃ f, S (String.length data) = S (S (S (S (S (S f)))))) as [f ->].
  { subst data. unfold member. cbn [String.length].
    rewrite !app_cons_s. cbn [String.length]. eauto. }
  subst data. rewrite parse_value_open.
  rewrite parse_members_comma by done.
  rewrite parse_members_comma by done.
  rewrite parse_members_comma by done.
  rewrite parse_members_close by done.
  done.
Qed.

(** A message with characters that are escaped, multi-byte characters and
    a line separator. *)
Lemma Message_roundtrip_witness :
  let m := mkMessage "alice" "bob"
             (text "say 'hi' <b> & \ é ☃ 😀"
              +:+ String "226" (String "128" (String "168" EmptyString)))
             "direct" in
  Unmarshal (Marshal m) = Some m.
Proof.
  intros m. apply (Message_roundtrip m); reflexivity.
Defined.

(** The hypothesis is needed: a byte that is not UTF-8 is written as
    the escape of U+FFFD and read back as the three bytes of U+FFFD. *)
Lemma Message_roundtrip_invalid_byte :
  let m := mkMessage "alice" "bob" (String "200" EmptyString) "direct" in
  ValidString (Content m) = false
  ∧ Unmarshal (Marshal m)
    = Some (mkMessage "alice" "bob" (EncodeRune RuneError) "direct").
Proof. vm_compute. auto. Qed.

End JsonFacts.

(* ===================================================================== *)
(** * JSON: structs of string fields *)
(* ===================================================================== *)

Module MarshalFacts.
Import utf8 json Properties Notions JsonFacts.

Lemma app_nil_s (x : string) : EmptyString +:+ x = x.
Proof. reflexivity. Qed.

Lemma app_nil_r_s (x : string) : x +:+ EmptyString = x.
Proof. induction x as [|c x IH]; [done|]. by rewrite app_cons_s, IH. Qed.

Lemma members_kept name v o rest first tail :
  (o && String.eqb v EmptyString) = false →
  members ((name, v, o) :: rest) first +:+ tail
  = (if first then EmptyString else ",")
      +:+ member name v (members rest false +:+ tail).
Proof.
  intros Hkept. cbn [members]. rewrite Hkept. unfold member.
  destruct first;
    repeat (rewrite app_cons_s || rewrite app_assoc_s || rewrite app_nil_s);
    reflexivity.
Qed.

Lemma length_members fs first :
  (length (present fs) ≤ String.length (members fs first))%nat.
Proof.
  revert first. induction fs as [|[[name v] o] fs IH]; intros first; [done|].
  cbn [members present]. destruct (o && String.eqb v EmptyString); [apply IH|].
  rewrite !length_app_s. cbn [length String.length]. specialize (IH false). lia.
Qed.

(** The members after the first one. *)
Lemma parse_members_rest fs key v f depth rest acc :
  plain_key key → ValidString v = true → plain_fields fs →
  (length (present fs) ≤ f)%nat →
  parse_members (S (S f)) depth
    (member key v (members fs false +:+ String "}" rest)) acc
  = Some (Object (acc ++ (key, Str v) :: present fs), rest).
Proof.
  revert key v f acc.
  induction fs as [|[[name v'] o] fs IH]; intros key v f acc Hkey Hv Hfs Hlen.
  - cbn [members present]. by rewrite app_nil_s, parse_members_close.
  - apply Forall_cons in Hfs as [[Hname Hv'] Hfs].
    cbn [present] in *.
    destruct (o && String.eqb v' EmptyString) eqn:Hkept.
    + cbn [members]. rewrite Hkept. by apply IH.
    + rewrite members_kept by done. cbn [length] in Hlen.
      rewrite app_cons_s, app_nil_s.
      destruct f as [|f]; [lia|].
      rewrite parse_members_comma by done.
      rewrite IH by (done || lia).
      by rewrite <- app_assoc.
Qed.

Lemma parse_value_brace (f : nat) (x : string) :
  parse_value (S f) 0 (String "{" x)
  = match skip_ws x with
    | String "}" r => Some (Object [], r)
    | t1 => parse_members f 1 t1 []
    end.
Proof. reflexivity. Qed.

Lemma skip_ws_member key v x f :
  match skip_ws (member key v x) with
  | String "}" r => Some (Object [], r)
  | t1 => parse_members f 1 t1 []
  end
  = parse_members f 1 (member key v x) [].
Proof. reflexivity. Qed.

Lemma parse_members_first fs f rest :
  plain_fields fs → (length (present fs) ≤ f)%nat →
  match skip_ws (members fs true +:+ String "}" rest) with
  | String "}" r => Some (Object [], r)
  | t1 => parse_members (S f) 1 t1 []
  end
  = Some (Object (present fs), rest).
Proof.
  induction fs as [|[[name v] o] fs IH]; intros Hfs Hlen; [done|].
  apply Forall_cons in Hfs as [[Hname Hv] Hfs].
  cbn [present] in *.
  destruct (o && String.eqb v EmptyString) eqn:Hkept.
  - cbn [members]. rewrite Hkept. by apply IH.
  - rewrite members_kept by done. cbn [length] in Hlen.
    rewrite app_nil_s, skip_ws_member.
    destruct f as [|f]; [lia|].
    by rewrite parse_members_rest by (done || lia).
Qed.

(** The text [Marshal] writes for a struct of string fields, followed by
    any text, parses as the object of the fields that are present. *)
Lemma parse_value_Marshal fs rest :
  plain_fields fs →
  parse_value (S (String.length (Marshal fs +:+ rest))) 0 (Marshal fs +:+ rest)
  = Some (Object (present fs), rest).
Proof.
  intros Hfs. unfold Marshal.
  change ("{" +:+ members fs true +:+ "}")
    with (String "{" (members fs true +:+ "}")).
  rewrite app_cons_s, app_assoc_s.
  change ("}" +:+ rest) with (String "}" rest).
  rewrite parse_value_brace.
  cbn [String.length]. rewrite length_app_s. cbn [String.length].
  pose proof (length_members fs true).
  replace (S (String.length (members fs true) + S (String.length rest)))
    with (S (String.length (members fs true) + String.length rest + 1)) by lia.
  apply parse_members_first; [done | lia].
Qed.

Lemma Unmarshal_Marshal names fs ws :
  plain_fields fs → skip_ws ws = EmptyString →
  Unmarshal names (Marshal fs +:+ ws)
  = assign names (present fs) (replicate (length names) EmptyString).
Proof.
  intros Hfs Hws. unfold Unmarshal, parse.
  by rewrite parse_value_Marshal, Hws.
Qed.

Lemma Decode_Marshal names fs :
  plain_fields fs →
  testclient.Decode names (Marshal fs)
  = assign names (present fs) (replicate (length names) EmptyString).
Proof.
  intros Hfs. unfold testclient.Decode.
  rewrite <- (app_nil_r_s (Marshal fs)). by rewrite parse_value_Marshal.
Qed.

Lemma Unmarshal_Marshal_exact names fs :
  plain_fields fs →
  Unmarshal names (Marshal fs)
  = assign names (present fs) (replicate (length names) EmptyString).
Proof.
  intros Hfs. rewrite <- (app_nil_r_s (Marshal fs)).
  by apply Unmarshal_Marshal.
Qed.

End MarshalFacts.

(* ===================================================================== *)
(** * The frames of the client protocol *)
(* ===================================================================== *)

Module FrameFacts.
Import utf8 json gateway testclient Properties Notions JsonFacts MarshalFacts.

Lemma plain_fields_4 n1 v1 o1 n2 v2 o2 n3 v3 o3 n4 v4 o4 :
  plain_key n1 → plain_key n2 → plain_key n3 → plain_key n4 →
  ValidString v1 = true → ValidString v2 = true →
  ValidString v3 = true → ValidString v4 = true →
  plain_fields [(n1, v1, o1); (n2, v2, o2); (n3, v3, o3); (n4, v4, o4)].
Proof. intros. unfold plain_fields. repeat constructor; done. Qed.

(** The routed message, through the general lemma. *)
Lemma Unmarshal_Marshal_Message (m : Message) :
  ValidString (From m) = true → ValidString (To m) = true →
  ValidString (Content m) = true → ValidString (Type_ m) = true →
  router.Unmarshal (router.Marshal m) = Some m.
Proof.
  intros. destruct m as [f t c ty]. unfold router.Unmarshal, router.Marshal.
  rewrite Unmarshal_Marshal_exact by (by apply plain_fields_4).
  reflexivity.
Qed.

Lemma Unmarshal_WriteJSON (m : ClientMessage) :
  ValidString (CType m) = true → ValidString (CTo m) = true →
  ValidString (CContent m) = true → ValidString (CUserID m) = true →
  Unmarshal_ClientMessage (WriteJSON m) = Some m.
Proof.
  intros. unfold Unmarshal_ClientMessage, WriteJSON, Marshal_ClientMessage.
  rewrite Unmarshal_Marshal by (done || by apply plain_fields_4).
  destruct m as [ty [|? ?] [|? ?] [|? ?]]; reflexivity.
Qed.

(** X12.  The server decodes what the client writes: for a client
    message whose fields are valid UTF-8, decoding the frame that
    [WriteJSON] produces (fields left out by [omitempty], the line feed
    at the end) gives the message back. *)
Theorem client_frames_decode (m : ClientMessage) :
  ValidString (CType m) = true → ValidString (CTo m) = true →
  ValidString (CContent m) = true → ValidString (CUserID m) = true →
  Unmarshal_ClientMessage (WriteJSON m) = Some m.
Proof. apply Unmarshal_WriteJSON. Qed.

Lemma client_frames_decode_witness :
  let m := mkClientMessage "message" "bob" (text "say 'hi' <b> & é") "" in
  Unmarshal_ClientMessage (WriteJSON m) = Some m.
Proof. intros m. apply (client_frames_decode m); reflexivity. Defined.

Lemma ReadJSON_Marshal (m : ServerMessage) :
  ValidString (SType m) = true → ValidString (SFrom m) = true →
  ValidString (SContent m) = true → ValidString (SError m) = true →
  ReadJSON (Marshal_ServerMessage m) = Some m.
Proof.
  intros. unfold ReadJSON, Marshal_ServerMessage.
  rewrite Decode_Marshal by (by apply plain_fields_4).
  destruct m as [ty [|? ?] [|? ?] [|? ?]]; reflexivity.
Qed.

(** X13.  The client decodes what the server writes: for a server
    message whose fields are valid UTF-8, [ReadJSON] of the frame that
    [sendMessage] marshals gives the message back. *)
Theorem server_frames_decode (m : ServerMessage) :
  ValidString (SType m) = true → ValidString (SFrom m) = true →
  ValidString (SContent m) = true → ValidString (SError m) = true →
  ReadJSON (Marshal_ServerMessage m) = Some m.
Proof. apply ReadJSON_Marshal. Qed.

Lemma server_frames_decode_witness :
  let m := mkServerMessage "message" "alice" (text "say 'hi' <b> & é") "" in
  ReadJSON (Marshal_ServerMessage m) = Some m.
Proof. intros m. apply (server_frames_decode m); reflexivity. Defined.

(** Keys are matched under case folding: a key written in capitals, or
    with U+017F (long s) for the s of [userId], names the field. *)
Lemma folded_keys_name_fields :
  let long_s := String "197" (String "191" EmptyString) in
  Unmarshal_ClientMessage
    (text "{'TYPE':'register','u" +:+ long_s +:+ text "erId':'alice'}")
  = Some (mkClientMessage "register" EmptyString EmptyString "alice")
  ∧ accepted_register
      (text "{'TYPE':'register','u" +:+ long_s +:+ text "erId':'alice'}") = true.
Proof. vm_compute. by split. Qed.

End FrameFacts.

(* ===================================================================== *)
(** * Facts about the Redis commands *)
(* ===================================================================== *)

Module RedisFacts.
Import Redis.

Lemma tonumber_FormatInt (z : Z) : tonumber (Go.FormatInt z) = Some z.
Proof.
  unfold tonumber, Go.FormatInt.
  rewrite NilZero.isi.
  - simpl. by rewrite DecimalZ.of_to.
  - destruct z; simpl; try discriminate.
    intros [= E]. by apply Unsigned.to_uint_nonnil in E.
  - destruct z; simpl; try discriminate.
    intros [= E]. by apply Unsigned.to_uint_nonnil in E.
Qed.

Lemma reachable_HSET r key fvs : reachable (HSET r key fvs) = reachable r.
Proof. unfold HSET. by destruct (get r key). Qed.

Lemma clock_HSET r key fvs : clock (HSET r key fvs) = clock r.
Proof. unfold HSET. by destruct (get r key). Qed.

Lemma reachable_EXPIRE r key n : reachable (EXPIRE r key n) = reachable r.
Proof. unfold EXPIRE. destruct (get r key); [by case_match | done]. Qed.

Lemma clock_EXPIRE r key n : clock (EXPIRE r key n) = clock r.
Proof. unfold EXPIRE. destruct (get r key); [by case_match | done]. Qed.

(** After HSET the key is live and holds the old fields overwritten with
    the new ones; its expiry is the one it had. *)
Lemma get_HSET_eq r key fvs :
  get (HSET r key fvs) key
  = Some (Entry (set_fields fvs (HGETALL r key)) (get r key ≫= expireAt)).
Proof.
  unfold HSET, HGETALL. destruct (get r key) as [e|] eqn:E.
  - unfold get in *. simpl. rewrite lookup_insert_eq.
    destruct (db r !! key) as [e0|] eqn:E0; [|done].
    destruct (live r e0) eqn:L; [|done]. simplify_eq.
    unfold live in *. simpl. by rewrite L.
  - unfold get. simpl. by rewrite lookup_insert_eq.
Qed.

Lemma db_HSET_ne r key fvs key' :
  key' ≠ key → db (HSET r key fvs) !! key' = db r !! key'.
Proof.
  intros Hne. unfold HSET.
  destruct (get r key); simpl; by rewrite lookup_insert_ne.
Qed.

Lemma get_EXPIRE_eq r key e n :
  0 < n → get r key = Some e →
  get (EXPIRE r key n) key = Some (Entry (fields e) (Some (clock r + n * 1000))).
Proof.
  intros Hn E. unfold EXPIRE. rewrite E.
  destruct (n <=? 0) eqn:C; [lia|].
  unfold get. simpl. rewrite lookup_insert_eq.
  unfold live. simpl. rewrite bool_decide_eq_true_2; [done | lia].
Qed.

Lemma db_EXPIRE_ne r key n key' :
  key' ≠ key → db (EXPIRE r key n) !! key' = db r !! key'.
Proof.
  intros Hne. unfold EXPIRE.
  destruct (get r key); [|done].
  case_match; simpl; [by rewrite lookup_delete_ne | by rewrite lookup_insert_ne].
Qed.

(** The state after "HSET key fvs; EXPIRE key n", read back. *)
Lemma get_HSET_EXPIRE r key fvs n :
  0 < n →
  get (EXPIRE (HSET r key fvs) key n) key
  = Some (Entry (set_fields fvs (HGETALL r key)) (Some (clock r + n * 1000))).
Proof.
  intros Hn. erewrite get_EXPIRE_eq; [| done | apply get_HSET_eq].
  simpl. by rewrite clock_HSET.
Qed.

Lemma get_DEL_eq r key : get (DEL r key) key = None.
Proof. unfold get, DEL. simpl. by rewrite lookup_delete_eq. Qed.

End RedisFacts.

(* ===================================================================== *)
(** * The presence directory *)
(* ===================================================================== *)

Module PresenceFacts.
Import Go Redis presence Properties RedisFacts.

(** The fields [Register] writes for a user. *)
Lemma Register_unfold r now userID gw conn :
  reachable r = true →
  Register r now userID gw conn =
    let key := presenceKeyPrefix +:+ userID in
    let written :=
      EXPIRE (HSET r key [("gwId", gw); ("connId", conn);
                          ("ts", FormatInt (Unix now))]) key 90 in
    match HGET r key "ts" with
    | Some current_ts =>
        match tonumber current_ts with
        | Some cur =>
            if Unix now <? cur then (Some (ErrStale userID), r)
            else (None, written)
        | None => (Some (ErrIO "register presence"), r)
        end
    | None => (None, written)
    end.
Proof.
  intros Hup. unfold Register, Eval, register_script. rewrite Hup.
  change (default "" ([presenceKeyPrefix +:+ userID] !! 0%nat))
    with (presenceKeyPrefix +:+ userID).
  change (default "" ([gw; conn; FormatInt (Unix now);
                       FormatInt (SecondsInt presenceTTL)] !! 0%nat)) with gw.
  change (default "" ([gw; conn; FormatInt (Unix now);
                       FormatInt (SecondsInt presenceTTL)] !! 1%nat)) with conn.
  change (default "" ([gw; conn; FormatInt (Unix now);
                       FormatInt (SecondsInt presenceTTL)] !! 2%nat))
    with (FormatInt (Unix now)).
  change (default "" ([gw; conn; FormatInt (Unix now);
                       FormatInt (SecondsInt presenceTTL)] !! 3%nat))
    with (FormatInt 90).
  rewrite !tonumber_FormatInt. unfold tostring. cbv zeta.
  destruct (HGET r (presenceKeyPrefix +:+ userID) "ts") as [s|]; [|done].
  destruct (tonumber s) as [cur|]; [|done].
  by destruct (Unix now <? cur).
Qed.

(** What [Register] leaves under the key when it writes. *)
Lemma written_record r key gw conn ts :
  let r' := EXPIRE (HSET r key [("gwId", gw); ("connId", conn); ("ts", ts)]) key 90 in
  HGET r' key "gwId" = Some gw
  ∧ HGET r' key "connId" = Some conn
  ∧ HGET r' key "ts" = Some ts
  ∧ PTTL r' key = Some 90000
  ∧ (∀ key', key' ≠ key → db r' !! key' = db r !! key').
Proof.
  intros r'. subst r'. unfold HGET, PTTL.
  rewrite get_HSET_EXPIRE by lia. simpl.
  repeat split.
  - rewrite lookup_insert_ne by done. rewrite lookup_insert_ne by done.
    by rewrite lookup_insert_eq.
  - rewrite lookup_insert_ne by done. by rewrite lookup_insert_eq.
  - by rewrite lookup_insert_eq.
  - f_equal. rewrite clock_EXPIRE, clock_HSET. lia.
  - intros key' Hne. by rewrite db_EXPIRE_ne, db_HSET_ne.
Qed.

(** [Refresh] on a reachable server: the two commands of its pipeline. *)
Lemma Refresh_unfold r now userID :
  reachable r = true →
  Refresh r now userID =
    (None, EXPIRE (HSET r (presenceKeyPrefix +:+ userID)
                     [("ts", FormatInt (Unix now))])
                  (presenceKeyPrefix +:+ userID) 90).
Proof. intros Hup. unfold Refresh. by rewrite Hup. Qed.

(** [HGET] reads the entry under the key and the clock only. *)
Lemma HGET_ext r r' key field :
  db r' !! key = db r !! key → clock r' = clock r →
  HGET r' key field = HGET r key field.
Proof.
  intros Hdb Hclock. unfold HGET, get, live. by rewrite Hdb, Hclock.
Qed.

Lemma HGET_written r key key' field fvs :
  key' ≠ key →
  HGET (EXPIRE (HSET r key fvs) key 90) key' field = HGET r key' field.
Proof.
  intros Hne. apply HGET_ext.
  - by rewrite db_EXPIRE_ne, db_HSET_ne.
  - by rewrite clock_EXPIRE, clock_HSET.
Qed.

(** Every write of the package stores a decimal timestamp: [Register]
    and [Refresh] keep the stored timestamps numeric, for every user. *)
Lemma Register_keeps_ts_numeric r now userID gw conn u :
  ts_numeric r u → ts_numeric (Register r now userID gw conn).2 u.
Proof.
  intros Hnum. destruct (reachable r) eqn:Hup.
  - rewrite Register_unfold by done. cbv zeta.
    assert (ts_numeric (EXPIRE (HSET r (presenceKeyPrefix +:+ userID)
                                  [("gwId", gw); ("connId", conn);
                                   ("ts", FormatInt (Unix now))])
                               (presenceKeyPrefix +:+ userID) 90) u) as Hw.
    { intros s. destruct (decide (u = userID)) as [->|Hne].
      - destruct (written_record r (presenceKeyPrefix +:+ userID) gw conn
                    (FormatInt (Unix now))) as (_ & _ & Hts & _).
        rewrite Hts. intros [= <-]. rewrite tonumber_FormatInt. by eexists.
      - rewrite HGET_written; [apply Hnum|].
        intros E. apply Hne. by apply (inj (String.app presenceKeyPrefix)). }
    destruct (HGET r (presenceKeyPrefix +:+ userID) "ts") as [s|]; [|done].
    destruct (tonumber s) as [cur|]; [|done].
    by destruct (Unix now <? cur).
  - unfold Register, Eval. by rewrite Hup.
Qed.

Lemma Refresh_keeps_ts_numeric r now userID u :
  ts_numeric r u → ts_numeric (Refresh r now userID).2 u.
Proof.
  intros Hnum. destruct (reachable r) eqn:Hup.
  - rewrite Refresh_unfold by done. simpl.
    intros s. destruct (decide (u = userID)) as [->|Hne].
    + unfold HGET. rewrite get_HSET_EXPIRE by lia. simpl.
      rewrite lookup_insert_eq. intros [= <-].
      rewrite tonumber_FormatInt. by eexists.
    + rewrite HGET_written; [apply Hnum|].
      intros E. apply Hne. by apply (inj (String.app presenceKeyPrefix)).
  - unfold Refresh. by rewrite Hup.
Qed.

(** C1.  [Register] is a compare-and-set on the timestamp.  On a
    reachable server whose stored [ts] field (if any) is a number: when
    the stored timestamp is strictly greater than the new one, Register
    returns the stale-update error and the server state is the one before
    the call (fields and expiry of the record included); in every other
    case it returns nil and the state is the one the script reaches in
    its single run, with [gwId], [connId] and [ts] written, the time to
    live reset to 90 s, and the other keys as they were. *)
Theorem Register_timestamp_cas (r : server) (now : Time)
    (userID gw conn : string) :
  reachable r = true →
  ts_numeric r userID →
  let key := presenceKeyPrefix +:+ userID in
  let ts_new := Unix now in
  (∀ ts_stored, stored_ts r userID = Some ts_stored → ts_stored > ts_new →
     Register r now userID gw conn = (Some (ErrStale userID), r))
  ∧ ((¬ ∃ ts_stored, stored_ts r userID = Some ts_stored ∧ ts_stored > ts_new) →
     ∃ r', Register r now userID gw conn = (None, r')
       ∧ r' = EXPIRE (HSET r key [("gwId", gw); ("connId", conn);
                                  ("ts", FormatInt ts_new)]) key 90
       ∧ HGET r' key "gwId" = Some gw
       ∧ HGET r' key "connId" = Some conn
       ∧ HGET r' key "ts" = Some (FormatInt ts_new)
       ∧ PTTL r' key = Some 90000
       ∧ (∀ key', key' ≠ key → db r' !! key' = db r !! key')).
Proof.
  intros Hup Hnum key ts_new.
  rewrite Register_unfold by done. fold key. cbv zeta.
  unfold stored_ts. fold key.
  destruct (HGET r key "ts") as [s|] eqn:Hts; simpl.
  - destruct (Hnum s Hts) as [cur Hcur]. rewrite Hcur.
    split.
    + intros ts_stored [= <-] Hgt. fold ts_new.
      destruct (ts_new <? cur) eqn:C; [done | lia].
    + intros Hno. fold ts_new.
      destruct (ts_new <? cur) eqn:C.
      * exfalso. apply Hno. exists cur. split; [done | lia].
      * eexists. split; [done|]. split; [done|]. apply written_record.
  - split; [done|]. intros _.
    eexists. split; [done|]. split; [done|]. apply written_record.
Qed.

(** A record written at second 200 and a registration at second 100. *)
Lemma Register_timestamp_cas_witness :
  let r := Server true 0
             {[ "presence:alice" :=
                  Entry {[ "gwId" := "gw1"; "connId" := "c1"; "ts" := "200" ]} None ]}
             [] in
  Register r (100 * Second) "alice" "gw2" "c2" = (Some (ErrStale "alice"), r).
Proof.
  intros r.
  refine (proj1 (Register_timestamp_cas r (100 * Second) "alice" "gw2" "c2" _ _)
                200 _ _).
  - reflexivity.
  - intros s Hs. vm_compute in Hs. injection Hs as <-. exists 200. reflexivity.
  - reflexivity.
  - vm_compute. reflexivity.
Defined.

(** [Refresh] has no guard on the existence of the record, and no
    outcome other than nil and the transport error. *)
Lemma Refresh_absent_counterexample :
  let r := Server true 0 ∅ [] in
  let now := 1700000000 * Second in
  Get r "alice" = inl (ErrOffline "alice")
  ∧ fst (Refresh r now "alice") = None
  ∧ Get (snd (Refresh r now "alice")) "alice"
    = inr (mkInfo "alice" EmptyString EmptyString 1700000000)
  ∧ ¬ (∃ e r', Refresh r now "alice" = (Some e, r')
               ∧ Get r' "alice" = inl (ErrOffline "alice")).
Proof.
  intros r now.
  assert (Refresh r now "alice"
          = (None, EXPIRE (HSET r "presence:alice" [("ts", FormatInt (Unix now))])
                          "presence:alice" 90)) as E by reflexivity.
  split; [by vm_compute|]. split; [by rewrite E|]. split.
  - rewrite E. by vm_compute.
  - intros (e & r' & H & _). rewrite E in H. discriminate H.
Qed.

(** What [Refresh] does today for a user with no stored record: it
    creates a record that holds the single field [ts], with a time to
    live of 90 s, and [Get] then returns a record with empty gateway and
    connection ids.  (The documentation of the package lists this as the
    race between heartbeat and disconnect.) *)
Lemma Refresh_absent_creates_record (r : server) (now : Time)
    (userID : string) :
  reachable r = true →
  get r (presenceKeyPrefix +:+ userID) = None →
  let key := presenceKeyPrefix +:+ userID in
  Get r userID = inl (ErrOffline userID)
  ∧ ∃ r', Refresh r now userID = (None, r')
      ∧ HGETALL r' key = {[ "ts" := FormatInt (Unix now) ]}
      ∧ PTTL r' key = Some 90000
      ∧ Get r' userID
        = inr (mkInfo userID EmptyString EmptyString
                 (default 0 (Sscanf_d (FormatInt (Unix now))))).
Proof.
  intros Hup Habs key. subst key. split.
  { unfold Get. rewrite Hup. unfold HGETALL. by rewrite Habs. }
  rewrite Refresh_unfold by done. set (key := presenceKeyPrefix +:+ userID) in *.
  eexists. split; [done|].
  assert (HGETALL (EXPIRE (HSET r key [("ts", FormatInt (Unix now))]) key 90) key
          = {[ "ts" := FormatInt (Unix now) ]}) as Hall.
  { unfold HGETALL at 1. rewrite get_HSET_EXPIRE by lia. simpl.
    unfold HGETALL. rewrite Habs. by rewrite insert_empty. }
  split; [done|]. split.
  { unfold PTTL. rewrite get_HSET_EXPIRE by lia. simpl.
    f_equal. rewrite clock_EXPIRE, clock_HSET. lia. }
  unfold Get. rewrite reachable_EXPIRE, reachable_HSET, Hup.
  fold key. rewrite Hall.
  rewrite bool_decide_eq_false_2 by (rewrite map_size_singleton; lia).
  rewrite lookup_singleton_eq.
  rewrite !lookup_singleton_ne by done. done.
Qed.

(** C5 (amended).  [Refresh] has no not-found outcome.  For a user with
    no stored record (absent or expired) it returns nil when the server
    is reachable; when it is not, it returns the transport error and the
    store is as it was. *)
Theorem Refresh_absent_outcome (r : server) (now : Time) (userID : string) :
  get r (presenceKeyPrefix +:+ userID) = None →
  (reachable r = true → fst (Refresh r now userID) = None)
  ∧ (reachable r = false →
     Refresh r now userID = (Some (ErrIO "refresh presence"), r)).
Proof.
  intros _. unfold Refresh. split; intros ->; done.
Qed.

Lemma Refresh_absent_outcome_witness :
  fst (Refresh (Server true 0 ∅ []) (1700000000 * Second) "alice") = None.
Proof.
  apply (Refresh_absent_outcome (Server true 0 ∅ []) (1700000000 * Second) "alice");
    reflexivity.
Defined.

End PresenceFacts.

(* ===================================================================== *)
(** * The connection registry *)
(* ===================================================================== *)

Module RegistryFacts.
Import Go gateway Properties.

Lemma Add_lookup_user cm c u :
  userToConn (Add cm c) !! u
  = if decide (UserID c = u) then Some c else userToConn cm !! u.
Proof. unfold Add. simpl. apply lookup_insert. Qed.

Lemma Add_lookup_conn cm c k :
  connToUser (Add cm c) !! k
  = if decide (ID c = k) then Some c else connToUser cm !! k.
Proof. unfold Add. simpl. apply lookup_insert. Qed.

Lemma Remove_lookup_user cm c u :
  userToConn (Remove cm c) !! u
  = if decide (UserID c = u) then None else userToConn cm !! u.
Proof. unfold Remove. simpl. apply lookup_delete. Qed.

Lemma Remove_lookup_conn cm c k :
  connToUser (Remove cm c) !! k
  = if decide (ID c = k) then None else connToUser cm !! k.
Proof. unfold Remove. simpl. apply lookup_delete. Qed.

(** [Add] writes the two entries of the new connection and touches no
    other entry. *)
Lemma Add_keeps_other_conn cm c k :
  ID c ≠ k → GetByConnID (Add cm c) k = GetByConnID cm k.
Proof.
  intros Hne. unfold GetByConnID. rewrite Add_lookup_conn.
  by destruct (decide (ID c = k)).
Qed.

(** C3.  Two connections of the same user added in turn: the entry of
    the first one is still in the index by connection id after the second
    [Add] has returned. *)
Theorem Add_leaves_superseded_connID :
  let c1 := mkConnection 0 "conn-001" "alice" 1%nat in
  let c2 := mkConnection 1 "conn-002" "alice" 2%nat in
  let cm := Add (Add NewConnectionManager c1) c2 in
  GetByUserID cm "alice" = Some c2
  ∧ GetByConnID cm "conn-002" = Some c2
  ∧ GetByConnID cm "conn-001" = Some c1.
Proof. vm_compute. auto. Qed.

(** The same for any registry: the earlier connection of the user stays
    indexed under its own connection id. *)
Lemma Add_superseded_stays cm c1 c2 :
  GetByConnID cm (ID c1) = Some c1 →
  UserID c1 = UserID c2 → ID c1 ≠ ID c2 →
  GetByUserID (Add cm c2) (UserID c1) = Some c2
  ∧ GetByConnID (Add cm c2) (ID c1) = Some c1.
Proof.
  intros H1 Hu Hne. split.
  - unfold GetByUserID. rewrite Add_lookup_user.
    by destruct (decide (UserID c2 = UserID c1)).
  - rewrite Add_keeps_other_conn by done. done.
Qed.

(** ** CheckHealth *)

Lemma remove_all_split victims socks cm n :
  remove_all victims (socks, cm, n)
  = (fold_left (λ s c, CloseSocket s (Conn c)) victims socks,
     fold_left Remove victims cm,
     n + Z.of_nat (length victims)).
Proof.
  unfold remove_all. revert socks cm n.
  induction victims as [|v vs IH]; intros socks cm n; simpl.
  - f_equal. lia.
  - rewrite IH. f_equal. lia.
Qed.

Lemma fold_Remove_user victims cm u :
  userToConn (fold_left Remove victims cm) !! u
  = if bool_decide (u ∈ UserID <$> victims) then None else userToConn cm !! u.
Proof.
  revert cm. induction victims as [|v vs IH]; intros cm; [done|].
  cbn [fold_left].
  - rewrite IH, Remove_lookup_user, fmap_cons.
    destruct (decide (UserID v = u)) as [Heq|Hne];
      repeat case_bool_decide; try done; exfalso;
      rewrite ?elem_of_cons in *; naive_solver.
Qed.

Lemma fold_Remove_conn victims cm k :
  connToUser (fold_left Remove victims cm) !! k
  = if bool_decide (k ∈ ID <$> victims) then None else connToUser cm !! k.
Proof.
  revert cm. induction victims as [|v vs IH]; intros cm; [done|].
  cbn [fold_left].
  - rewrite IH, Remove_lookup_conn, fmap_cons.
    destruct (decide (ID v = k)) as [Heq|Hne];
      repeat case_bool_decide; try done; exfalso;
      rewrite ?elem_of_cons in *; naive_solver.
Qed.

Lemma CloseSocket_lookup socks a k :
  CloseSocket socks a !! k
  = if decide (a = k) then close_state <$> socks !! k else socks !! k.
Proof.
  unfold CloseSocket. destruct (decide (a = k)) as [->|Hne].
  - destruct (socks !! k) as [s|] eqn:E; simpl; [by rewrite lookup_insert_eq|done].
  - destruct (socks !! a); [by rewrite lookup_insert_ne|done].
Qed.

Lemma fold_Close_lookup victims socks k :
  fold_left (λ s c, CloseSocket s (Conn c)) victims socks !! k
  = if bool_decide (k ∈ Conn <$> victims)
    then close_state <$> socks !! k else socks !! k.
Proof.
  revert socks. induction victims as [|v vs IH]; intros socks; [done|].
  cbn [fold_left]. rewrite IH, CloseSocket_lookup, fmap_cons.
  destruct (decide (Conn v = k)) as [Heq|Hne];
    repeat case_bool_decide; try done;
    try (by destruct (socks !! k));
    exfalso; rewrite ?elem_of_cons in *; naive_solver.
Qed.

Lemma elem_of_Range (m : gmap string Connection) c :
  c ∈ Range m ↔ ∃ u, m !! u = Some c.
Proof.
  unfold Range. rewrite list_elem_of_fmap. split.
  - intros ([u c'] & -> & Hin). exists u. by apply elem_of_map_to_list.
  - intros (u & Hu). exists (u, c). split; [done|]. by apply elem_of_map_to_list.
Qed.

Lemma elem_of_toRemove cm pings now T c :
  c ∈ toRemove cm pings now T
  ↔ (∃ u, userToConn cm !! u = Some c) ∧ timed_out pings now T c = true.
Proof.
  unfold toRemove. rewrite list_elem_of_In, filter_In, <- list_elem_of_In.
  by rewrite elem_of_Range.
Qed.

Lemma NoDup_Range (m : gmap string Connection) :
  (∀ u c, m !! u = Some c → UserID c = u) → NoDup (Range m).
Proof.
  intros Hkey. unfold Range. apply NoDup_fmap_2_strong; [|apply NoDup_map_to_list].
  intros [u1 c1] [u2 c2] H1 H2. simpl. intros <-.
  apply elem_of_map_to_list in H1, H2.
  f_equal. by rewrite <- (Hkey _ _ H1), <- (Hkey _ _ H2).
Qed.

Lemma NoDup_List_filter {A} (f : A → bool) (l : list A) :
  NoDup l → NoDup (List.filter f l).
Proof.
  induction 1 as [|x l Hx Hl IH]; simpl; [constructor|].
  destruct (f x); [|done]. constructor; [|done].
  rewrite list_elem_of_In, filter_In, <- list_elem_of_In. naive_solver.
Qed.

Lemma NoDup_toRemove cm pings now T :
  consistent cm → NoDup (toRemove cm pings now T).
Proof.
  intros [Hu _]. unfold toRemove. apply NoDup_List_filter, NoDup_Range.
  intros u c H. by apply Hu.
Qed.

(** The two indices after the second loop, on a consistent registry:
    the entries that are gone are those of the victims. *)
Lemma fold_Remove_exact cm pings now T :
  consistent cm →
  let victims := toRemove cm pings now T in
  let cm' := fold_left Remove victims cm in
  (∀ u c, userToConn cm' !! u = Some c ↔
          userToConn cm !! u = Some c ∧ c ∉ victims)
  ∧ (∀ k c, connToUser cm' !! k = Some c ↔
            connToUser cm !! k = Some c ∧ c ∉ victims).
Proof.
  intros [Hu Hk] victims cm'. subst cm'. split.
  - intros u c. rewrite fold_Remove_user. case_bool_decide as Hin.
    + split; [done|]. intros [Hl Hn]. exfalso. apply Hn.
      apply list_elem_of_fmap in Hin as (v & -> & Hv).
      apply elem_of_toRemove in Hv as Hv'. destruct Hv' as [[u' Hu'] _].
      destruct (Hu _ _ Hu') as [<- _]. by simplify_eq.
    + split; [|naive_solver]. intros Hl. split; [done|].
      intros Hv. apply Hin. apply list_elem_of_fmap. exists c. split; [|done].
      by destruct (Hu _ _ Hl) as [-> _].
  - intros k c. rewrite fold_Remove_conn. case_bool_decide as Hin.
    + split; [done|]. intros [Hl Hn]. exfalso. apply Hn.
      apply list_elem_of_fmap in Hin as (v & -> & Hv).
      apply elem_of_toRemove in Hv as Hv'. destruct Hv' as [[u' Hu'] _].
      destruct (Hu _ _ Hu') as [_ Hl']. by simplify_eq.
    + split; [|naive_solver]. intros Hl. split; [done|].
      intros Hv. apply Hin. apply list_elem_of_fmap. exists c. split; [|done].
      by rewrite (Hk _ _ Hl).
Qed.

(** The test "older than the timeout" in numbers: for a timeout below
    the largest duration, the saturation of [Sub] does not show. *)
Lemma timed_out_older (pings : gmap nat Time) (now : Time) (T : Duration)
    (c : Connection) :
  minDuration ≤ T < maxDuration →
  timed_out pings now T c = true ↔ T < now - GetLastPing pings c.
Proof.
  intros HT. unfold timed_out, Sub. rewrite Z.ltb_lt.
  unfold minDuration, maxDuration in *. lia.
Qed.

(** One client registers as alice and a minute later as bob, on the same
    socket; the sweep runs 100 s after the first frame.  The connection
    of bob was last seen 40 s ago, yet the sweep closes its socket and
    deletes its entry in the index by connection id. *)
Lemma CheckHealth_counterexample :
  let s := mkServer "gw1" 8080 (mkRouter "gw1") in
  let w0 := mkWorld (mkBrokers (Redis.Server true 0 ∅ []) (sarama.Cluster true []))
                    NewConnectionManager ∅ {[ 1%nat := mkSocket false [] ]} [] [] in
  let frames := [(0, text "{'type':'register','userId':'alice'}");
                 (60 * Second, text "{'type':'register','userId':'bob'}")] in
  let w := (readLoop s 1%nat "c1" frames (mkLocals EmptyString None) w0).2 in
  let bob := mkConnection 1 "c1" "bob" 1%nat in
  let out := CheckHealth (connMgr w) (pings w) (socks w) (100 * Second)
               heartbeatTimeout in
  GetByUserID (connMgr w) "bob" = Some bob
  ∧ GetByConnID (connMgr w) "c1" = Some bob
  ∧ 100 * Second - GetLastPing (pings w) bob = 40 * Second
  ∧ out.2 = 1
  ∧ closed <$> socks w !! 1%nat = Some false
  ∧ closed <$> out.1.1 !! 1%nat = Some true
  ∧ GetByConnID out.1.2 "c1" = None
  ∧ GetByUserID out.1.2 "bob" = Some bob.
Proof. vm_compute. repeat split. Qed.

(** C8 (amended).  For a timeout below the largest duration and every
    registry state: [CheckHealth] first collects, from the registry as it
    is at entry and without changing it, the victims, which are exactly
    the connections held in the index by user whose last ping is more
    than the timeout before the instant of entry; it then closes the
    socket of each victim and no other socket, deletes the entries under
    the user id and the connection id of each victim, and returns the
    number of victims.  On a registry whose indices are consistent no
    victim is counted twice, both indices lose exactly the entries of the
    victims and the registry stays consistent; when in addition no two
    connections indexed by user share a socket, the socket of every
    connection that stays is as it was. *)
Theorem CheckHealth_sweeps_timed_out (cm : ConnectionManager)
    (pings : gmap nat Time) (socks : gmap sock Socket) (now : Time) (T : Duration) :
  minDuration ≤ T < maxDuration →
  let victims := toRemove cm pings now T in
  ∃ socks' cm' removed,
    CheckHealth cm pings socks now T = (socks', cm', removed)
    ∧ (socks', cm', removed) = remove_all victims (socks, cm, 0)
    ∧ (∀ c, c ∈ victims ↔
            (∃ u, userToConn cm !! u = Some c)
            ∧ T < now - GetLastPing pings c)
    ∧ removed = Z.of_nat (length victims)
    ∧ (∀ k, socks' !! k =
            if bool_decide (k ∈ Conn <$> victims)
            then close_state <$> socks !! k else socks !! k)
    ∧ (∀ u, userToConn cm' !! u =
            if bool_decide (u ∈ UserID <$> victims)
            then None else userToConn cm !! u)
    ∧ (∀ k, connToUser cm' !! k =
            if bool_decide (k ∈ ID <$> victims)
            then None else connToUser cm !! k)
    ∧ (consistent cm →
         NoDup victims
         ∧ (∀ u c, userToConn cm' !! u = Some c ↔
                   userToConn cm !! u = Some c ∧ c ∉ victims)
         ∧ (∀ k c, connToUser cm' !! k = Some c ↔
                   connToUser cm !! k = Some c ∧ c ∉ victims)
         ∧ consistent cm'
         ∧ ((∀ u1 u2 c1 c2, userToConn cm !! u1 = Some c1 →
               userToConn cm !! u2 = Some c2 → Conn c1 = Conn c2 → c1 = c2) →
            ∀ u c, userToConn cm' !! u = Some c →
                   socks' !! Conn c = socks !! Conn c)).
Proof.
  intros HT victims. unfold CheckHealth. fold victims.
  rewrite remove_all_split. do 3 eexists. split; [done|]. split; [done|].
  split.
  { intros c. subst victims. rewrite elem_of_toRemove.
    by rewrite (timed_out_older pings now T c HT). }
  split; [lia|].
  split; [intros k; apply fold_Close_lookup|].
  split; [intros u; apply fold_Remove_user|].
  split; [intros k; apply fold_Remove_conn|].
  intros Hc. destruct (fold_Remove_exact cm pings now T Hc) as [HU HK].
  fold victims in HU, HK.
  split; [by apply NoDup_toRemove|]. split; [done|]. split; [done|].
  destruct Hc as [Hu Hk]. split; [split|].
  - intros u c Hl. apply HU in Hl as [Hl Hn]. destruct (Hu _ _ Hl) as [E Hl2].
    split; [done|]. apply HK. done.
  - intros k c Hl. apply HK in Hl as [Hl _]. by apply Hk.
  - intros Hdistinct u c Hl. apply HU in Hl as [Hl Hn].
    rewrite fold_Close_lookup. rewrite bool_decide_eq_false_2; [done|].
    intros (v & Hconn & Hv)%list_elem_of_fmap.
    pose proof Hv as Hv'. apply elem_of_toRemove in Hv' as [[uv Hlv] _].
    apply Hn. by rewrite (Hdistinct u uv c v Hl Hlv Hconn).
Qed.

Lemma consistent_empty : consistent NewConnectionManager.
Proof. split; intros ? ? H; simpl in H; by rewrite lookup_empty in H. Qed.

(** [Add] keeps the registry consistent when the connection id is new. *)
Lemma consistent_Add cm c :
  consistent cm → connToUser cm !! ID c = None → consistent (Add cm c).
Proof.
  intros [Hu Hk] Hfresh. split.
  - intros u c'. rewrite Add_lookup_user.
    destruct (decide (UserID c = u)) as [Heq|Hne].
    + intros [= <-]. split; [done|]. rewrite Add_lookup_conn.
      by destruct (decide (ID c = ID c)).
    + intros H. destruct (Hu _ _ H) as [E1 E2]. split; [done|].
      rewrite Add_lookup_conn. destruct (decide (ID c = ID c')) as [E|]; [|done].
      rewrite E in Hfresh. congruence.
  - intros k c'. rewrite Add_lookup_conn.
    destruct (decide (ID c = k)) as [Heq|Hne]; [by intros [= <-] | apply Hk].
Qed.

(** Two users, the first last seen 100 s before the sweep, the second
    10 s before it. *)
Lemma CheckHealth_sweeps_timed_out_witness :
  let c1 := mkConnection 0 "conn-001" "alice" 1%nat in
  let c2 := mkConnection 1 "conn-002" "bob" 2%nat in
  let cm := Add (Add NewConnectionManager c1) c2 in
  let pings : gmap nat Time := {[ 0%nat := 0; 1%nat := 90 * Second ]} in
  let socks : gmap sock Socket :=
    {[ 1%nat := mkSocket false []; 2%nat := mkSocket false [] ]} in
  ∃ socks' cm',
    CheckHealth cm pings socks (100 * Second) heartbeatTimeout = (socks', cm', 1)
    ∧ userToConn cm' !! "bob" = Some c2
    ∧ userToConn cm' !! "alice" = None.
Proof.
  intros c1 c2 cm pings socks.
  destruct (CheckHealth_sweeps_timed_out cm pings socks (100 * Second)
              heartbeatTimeout)
    as (socks' & cm' & removed & E & _ & _ & Hn & _ & _ & _ & Hcons).
  - unfold minDuration, maxDuration, heartbeatTimeout, Second. lia.
  - destruct Hcons as (_ & HU & _).
    + apply consistent_Add; [apply consistent_Add|];
        [apply consistent_empty | reflexivity | reflexivity].
    + exists socks', cm'. rewrite E, Hn. split; [reflexivity|]. split.
      * apply HU. split; [reflexivity|]. vm_compute.
        intros H. apply list_elem_of_In in H. simpl in H.
        destruct H as [H|[]]. discriminate H.
      * destruct (userToConn cm' !! "alice") as [c|] eqn:Hc; [|reflexivity].
        exfalso. apply HU in Hc as [Hl Hv]. vm_compute in Hl.
        injection Hl as <-. apply Hv. vm_compute. apply list_elem_of_here.
Defined.

End RegistryFacts.

(* ===================================================================== *)
(** * The connection handler *)
(* ===================================================================== *)

Module HandlerFacts.
Import Go gateway Properties RegistryFacts FrameFacts.

Lemma sendMessage_open conn msg w sk :
  socks w !! conn = Some sk → closed sk = false →
  sendMessage conn msg w
  = set_socks w (<[conn := mkSocket false
                     (written sk ++ [Marshal_ServerMessage msg])%list]> (socks w)).
Proof.
  intros Hs Hc. unfold sendMessage, WriteMessage. by rewrite Hs, Hc.
Qed.

Lemma eqb_empty_false (s : string) :
  s ≠ EmptyString → String.eqb s EmptyString = false.
Proof. intros H. by apply String.eqb_neq. Qed.

Section WithRouter.
Context {R : Type} `{!RouterInterface R}.
Implicit Types (s : Server R) (w : World) (l : locals).

(** A register frame whose [Register] call returns an error: the state
    in which the iteration ends. *)
Lemma register_error_step s (conn : sock) (connID : string) (now : Time)
    (message : string) l w (msg : ClientMessage) (sk : Socket)
    (e : error) (r' : Redis.server) :
  Unmarshal_ClientMessage message = Some msg →
  CType msg = msgTypeRegister →
  CUserID msg ≠ EmptyString →
  presence.Register (redis (brokers w)) now (CUserID msg) (gatewayID s) connID
    = (Some e, r') →
  socks w !! conn = Some sk → closed sk = false →
  let c := mkConnection (fresh (dom (pings w))) connID (CUserID msg) conn in
  handleFrame s conn connID now message l w
  = (mkLocals (CUserID msg) (Some c),
     mkWorld (with_redis (brokers w) r')
             (Add (connMgr w) c)
             (<[fresh (dom (pings w)) := now]> (pings w))
             (<[conn := mkSocket false
                  (written sk ++ [error_frame "Failed to register"])%list]> (socks w))
             (checkers w)
             (logs w ++ ["[Handler] Failed to register presence: " +:+ Error e])%list).
Proof.
  intros Hdec Hty Hu Hreg Hs Hopen c.
  unfold handleFrame. rewrite Hdec, Hty.
  change (String.eqb msgTypeRegister msgTypeRegister) with true. cbv iota.
  rewrite eqb_empty_false by done.
  unfold NewConnection. cbv zeta.
  change (redis (brokers (set_connMgr (set_pings w _) _))) with (redis (brokers w)).
  rewrite Hreg. unfold sendError.
  erewrite sendMessage_open; [| exact Hs | exact Hopen]. done.
Qed.

(** C4 (amended).  A register frame whose [Register] call is rejected as
    stale: the handler logs the rejection and writes the error frame
    "Failed to register" to the socket of the registering client; it
    starts no heartbeat checker and leaves the socket open. *)
Theorem stale_register_reports_error s (conn : sock) (connID : string)
    (now : Time) (message : string) l w (msg : ClientMessage) (sk : Socket)
    (r' : Redis.server) :
  Unmarshal_ClientMessage message = Some msg →
  CType msg = msgTypeRegister →
  CUserID msg ≠ EmptyString →
  presence.Register (redis (brokers w)) now (CUserID msg) (gatewayID s) connID
    = (Some (ErrStale (CUserID msg)), r') →
  socks w !! conn = Some sk → closed sk = false →
  ∃ l' w',
    handleFrame s conn connID now message l w = (l', w')
    ∧ logs w' = (logs w ++ ["[Handler] Failed to register presence: "
                            +:+ "stale update rejected for user "
                            +:+ CUserID msg])%list
    ∧ socks w' !! conn
      = Some (mkSocket false
                (written sk ++
                 [text "{'type':'error','error':'Failed to register'}"])%list)
    ∧ checkers w' = checkers w.
Proof.
  intros Hdec Hty Hu Hreg Hs Hopen.
  rewrite (register_error_step s conn connID now message l w msg sk _ r')
    by done.
  do 2 eexists. split; [done|]. simpl. rewrite lookup_insert_eq. done.
Qed.

(** C10.  A register frame with a user id whose [Register] call returns
    an error (whichever): the connection made for the frame has been
    added to the registry and stays there, so that [GetByUserID] finds it
    and a message delivered locally to that user is written to its
    socket, although the client was sent the error frame and no
    heartbeat checker was started.  The error frame is the text
    [{"type":"error","error":"Failed to register"}]; the frame of the
    delivery is read by the client as a message from the sender with the
    content. *)
Theorem failed_register_keeps_connection s (conn : sock) (connID : string)
    (now : Time) (message : string) l w (msg : ClientMessage) (sk : Socket)
    (e : error) (r' : Redis.server) :
  Unmarshal_ClientMessage message = Some msg →
  CType msg = msgTypeRegister →
  CUserID msg ≠ EmptyString →
  presence.Register (redis (brokers w)) now (CUserID msg) (gatewayID s) connID
    = (Some e, r') →
  socks w !! conn = Some sk → closed sk = false →
  let c := mkConnection (fresh (dom (pings w))) connID (CUserID msg) conn in
  let failed := text "{'type':'error','error':'Failed to register'}" in
  ∃ w',
    handleFrame s conn connID now message l w
      = (mkLocals (CUserID msg) (Some c), w')
    ∧ connMgr w' = Add (connMgr w) c
    ∧ GetByUserID (connMgr w') (CUserID msg) = Some c
    ∧ socks w' !! conn = Some (mkSocket false (written sk ++ [failed])%list)
    ∧ testclient.ReadJSON failed
      = Some (mkServerMessage "error" EmptyString EmptyString "Failed to register")
    ∧ checkers w' = checkers w
    ∧ (∀ m : Message, To m = CUserID msg →
         let delivered :=
           Marshal_ServerMessage
             (mkServerMessage msgTypeMessage (From m) (Content m) EmptyString) in
         socks (deliverMessage m w') !! conn
         = Some (mkSocket false (written sk ++ [failed; delivered])%list)
         ∧ (utf8.ValidString (From m) = true →
            utf8.ValidString (Content m) = true →
            testclient.ReadJSON delivered
            = Some (mkServerMessage "message" (From m) (Content m) EmptyString))).
Proof.
  intros Hdec Hty Hu Hreg Hs Hopen c failed.
  rewrite (register_error_step s conn connID now message l w msg sk e r')
    by done.
  fold c. change (error_frame "Failed to register") with failed.
  eexists. split; [done|]. cbn [connMgr socks checkers].
  assert (GetByUserID (Add (connMgr w) c) (CUserID msg) = Some c) as Hget.
  { unfold GetByUserID. rewrite Add_lookup_user. simpl.
    by destruct (decide (CUserID msg = CUserID msg)). }
  rewrite lookup_insert_eq.
  split; [done|]. split; [done|]. split; [done|].
  split; [by vm_compute|]. split; [done|].
  intros m Hm. split.
  - unfold deliverMessage. cbn [connMgr]. rewrite Hm, Hget.
    erewrite sendMessage_open; [| cbn [socks]; apply lookup_insert_eq | done].
    cbn [log socks set_socks Conn c written]. rewrite lookup_insert_eq.
    by rewrite <- app_assoc.
  - intros HF HC. by apply ReadJSON_Marshal.
Qed.

(** C6.  A message frame from a registered user whose recipient is
    reported offline by the presence lookup: the iteration ends with the
    locals as they were; nothing was sent to a broker (the Redis server
    and the Kafka cluster are as before, and so is the registry); the
    socket of the sender received one frame, the text
    [{"type":"error","error":"Failed to send message"}] (for an empty
    recipient, [{"type":"error","error":"Recipient is required"}]), which
    the client reads as an error message; the socket is still open, and
    no other socket was touched.  [routeMessage] returns the error of the
    lookup with the state as it was, whatever the router is: it does not
    reach its call of [RouteToGateway]. *)
Theorem message_to_offline_recipient s (conn : sock) (connID : string)
    (now : Time) (message : string) l w (msg : ClientMessage) (sk : Socket) :
  Unmarshal_ClientMessage message = Some msg →
  CType msg = msgTypeMessage →
  userID l ≠ EmptyString →
  presence.Get (redis (brokers w)) (CTo msg) = inl (ErrOffline (CTo msg)) →
  socks w !! conn = Some sk → closed sk = false →
  let errMsg := if String.eqb (CTo msg) EmptyString
                then "Recipient is required" else "Failed to send message" in
  let frame := text (if String.eqb (CTo msg) EmptyString
                     then "{'type':'error','error':'Recipient is required'}"
                     else "{'type':'error','error':'Failed to send message'}") in
  ∃ w',
    handleFrame s conn connID now message l w = (l, w')
    ∧ brokers w' = brokers w
    ∧ connMgr w' = connMgr w
    ∧ socks w' !! conn = Some (mkSocket false (written sk ++ [frame])%list)
    ∧ testclient.ReadJSON frame
      = Some (mkServerMessage "error" EmptyString EmptyString errMsg)
    ∧ (∀ k, k ≠ conn → socks w' !! k = socks w !! k)
    ∧ routeMessage s now (userID l) (CTo msg) (CContent msg) w
      = (Some (ErrOffline (CTo msg)), w).
Proof.
  intros Hdec Hty Hreg Hoff Hs Hopen errMsg frame.
  assert (routeMessage s now (userID l) (CTo msg) (CContent msg) w
          = (Some (ErrOffline (CTo msg)), w)) as Hroute
    by (unfold routeMessage; by rewrite Hoff).
  unfold handleFrame. rewrite Hdec, Hty.
  change (String.eqb msgTypeMessage msgTypeRegister) with false.
  change (String.eqb msgTypeMessage msgTypePing) with false.
  change (String.eqb msgTypeMessage msgTypeMessage) with true.
  cbv iota. rewrite eqb_empty_false by done.
  subst errMsg frame.
  destruct (String.eqb (CTo msg) EmptyString) eqn:Hto.
  - eexists. split; [done|]. unfold sendError.
    rewrite (sendMessage_open _ _ _ sk) by done.
    cbn [brokers connMgr socks set_socks]. rewrite lookup_insert_eq.
    split; [done|]. split; [done|]. split; [reflexivity|].
    split; [by vm_compute|]. split; [|done].
    intros k Hk. by rewrite lookup_insert_ne.
  - rewrite Hroute.
    eexists. split; [done|]. unfold sendError.
    rewrite (sendMessage_open _ _ _ sk) by done.
    cbn [brokers connMgr socks set_socks log]. rewrite lookup_insert_eq.
    split; [done|]. split; [done|]. split; [reflexivity|].
    split; [by vm_compute|]. split; [|done].
    intros k Hk. by rewrite lookup_insert_ne.
Qed.

(** The locals after one iteration. *)
Lemma handleFrame_locals s (conn : sock) (connID : string) (now : Time)
    (message : string) l w :
  (handleFrame s conn connID now message l w).1
  = if accepted_register message then
      match Unmarshal_ClientMessage message with
      | Some msg =>
          mkLocals (CUserID msg)
            (Some (mkConnection (fresh (dom (pings w))) connID (CUserID msg) conn))
      | None => l
      end
    else l.
Proof.
  unfold handleFrame, accepted_register.
  destruct (Unmarshal_ClientMessage message) as [msg|]; [|done].
  destruct (String.eqb (CType msg) msgTypeRegister) eqn:Hreg.
  - destruct (String.eqb (CUserID msg) EmptyString); [done|].
    unfold NewConnection. cbv zeta.
    destruct (presence.Register _ _ _ _ _) as [[e|] r]; done.
  - simpl. destruct (String.eqb (CType msg) msgTypePing); [done|].
    destruct (String.eqb (CType msg) msgTypeMessage); [|done].
    destruct (String.eqb (userID l) EmptyString); [done|].
    destruct (String.eqb (CTo msg) EmptyString); [done|].
    destruct (routeMessage _ _ _ _ _ _) as [[e|] w']; done.
Qed.

Lemma handleFrame_locals_ok s conn connID now message l w :
  locals_ok conn connID l →
  locals_ok conn connID (handleFrame s conn connID now message l w).1.
Proof.
  intros Hok. rewrite handleFrame_locals.
  destruct (accepted_register message); [|done].
  destruct (Unmarshal_ClientMessage message) as [msg|]; [|done].
  intros c [= <-]. done.
Qed.

Lemma handleFrame_wsConn_None s conn connID now message l w :
  wsConn (handleFrame s conn connID now message l w).1 = None
  ↔ wsConn l = None ∧ accepted_register message = false.
Proof.
  rewrite handleFrame_locals. unfold accepted_register.
  destruct (Unmarshal_ClientMessage message) as [msg|]; [|naive_solver].
  destruct (_ && _); naive_solver.
Qed.

Lemma readLoop_locals s conn connID frames l w :
  locals_ok conn connID l →
  locals_ok conn connID (readLoop s conn connID frames l w).1
  ∧ (wsConn (readLoop s conn connID frames l w).1 = None
     ↔ wsConn l = None ∧ Forall (λ f, accepted_register f.2 = false) frames).
Proof.
  unfold readLoop. revert l w.
  induction frames as [|[now message] frames IH]; intros l w Hok; simpl.
  - split; [done|]. split; [by intros ?|by intros [? _]].
  - destruct (handleFrame s conn connID now message l w) as [l1 w1] eqn:E.
    assert (l1 = (handleFrame s conn connID now message l w).1) as El
      by by rewrite E.
    destruct (IH l1 w1) as [IH1 IH2].
    { rewrite El. by apply handleFrame_locals_ok. }
    split; [done|]. rewrite IH2, El, handleFrame_wsConn_None, Forall_cons.
    simpl. naive_solver.
Qed.

End WithRouter.

(** A gateway "gw1" on the Redis router, one open socket, and a presence
    record of alice written by another gateway at second 200; alice
    registers here at second 100. *)
Lemma stale_register_counterexample :
  let r := Redis.Server true 0
             {[ "presence:alice" :=
                  Redis.Entry {[ "gwId" := "gw2"; "connId" := "c9"; "ts" := "200" ]}
                              None ]} [] in
  let w := mkWorld (mkBrokers r (sarama.Cluster true [])) NewConnectionManager
                   ∅ {[ 1%nat := mkSocket false [] ]} [] [] in
  let s := mkServer "gw1" 8080 (mkRouter "gw1") in
  let now := 100 * Second in
  let frame := text "{'type':'register','userId':'alice'}" in
  presence.Register r now "alice" "gw1" "c1" = (Some (ErrStale "alice"), r)
  ∧ socks (handleFrame s 1%nat "c1" now frame (mkLocals EmptyString None) w).2
      !! 1%nat
    = Some (mkSocket false
              [text "{'type':'error','error':'Failed to register'}"]).
Proof. vm_compute. auto. Qed.

Lemma stale_register_reports_error_witness :
  let r := Redis.Server true 0
             {[ "presence:alice" :=
                  Redis.Entry {[ "gwId" := "gw2"; "connId" := "c9"; "ts" := "200" ]}
                              None ]} [] in
  let w := mkWorld (mkBrokers r (sarama.Cluster true [])) NewConnectionManager
                   ∅ {[ 1%nat := mkSocket false [] ]} [] [] in
  let s := mkServer "gw1" 8080 (mkRouter "gw1") in
  let frame := text "{'type':'register','userId':'alice'}" in
  ∃ l' w',
    handleFrame s 1%nat "c1" (100 * Second) frame (mkLocals EmptyString None) w
      = (l', w')
    ∧ socks w' !! 1%nat
      = Some (mkSocket false
                [text "{'type':'error','error':'Failed to register'}"])
    ∧ checkers w' = [].
Proof.
  intros r w s frame.
  destruct (stale_register_reports_error s 1%nat "c1" (100 * Second) frame
              (mkLocals EmptyString None) w
              (mkClientMessage "register" EmptyString EmptyString "alice")
              (mkSocket false []) r)
    as (l' & w' & E & _ & Hs & Hc).
  - reflexivity.
  - reflexivity.
  - discriminate.
  - vm_compute. reflexivity.
  - reflexivity.
  - reflexivity.
  - exists l', w'. split; [exact E|]. split; [exact Hs | exact Hc].
Defined.

(** The same frame while the Redis server cannot be reached, and a
    message of bob for alice delivered afterwards. *)
Lemma failed_register_keeps_connection_witness :
  let r := Redis.Server false 0 ∅ [] in
  let w := mkWorld (mkBrokers r (sarama.Cluster true [])) NewConnectionManager
                   ∅ {[ 1%nat := mkSocket false [] ]} [] [] in
  let s := mkServer "gw1" 8080 (mkRouter "gw1") in
  let frame := text "{'type':'register','userId':'alice'}" in
  ∃ w',
    handleFrame s 1%nat "c1" (100 * Second) frame (mkLocals EmptyString None) w
      = (mkLocals "alice" (Some (mkConnection 0 "c1" "alice" 1%nat)), w')
    ∧ GetByUserID (connMgr w') "alice" = Some (mkConnection 0 "c1" "alice" 1%nat)
    ∧ socks w' !! 1%nat
      = Some (mkSocket false [text "{'type':'error','error':'Failed to register'}"])
    ∧ checkers w' = []
    ∧ socks (deliverMessage (mkMessage "bob" "alice" "hi" "direct") w') !! 1%nat
      = Some (mkSocket false
                [text "{'type':'error','error':'Failed to register'}";
                 text "{'type':'message','from':'bob','content':'hi'}"]).
Proof.
  intros r w s frame.
  destruct (failed_register_keeps_connection s 1%nat "c1" (100 * Second) frame
              (mkLocals EmptyString None) w
              (mkClientMessage "register" EmptyString EmptyString "alice")
              (mkSocket false []) (ErrIO "register presence") r)
    as (w' & E & _ & Hg & Hs & _ & Hc & Hd).
  - reflexivity.
  - reflexivity.
  - discriminate.
  - reflexivity.
  - reflexivity.
  - reflexivity.
  - exists w'. split; [exact E|]. split; [exact Hg|]. split; [exact Hs|].
    split; [exact Hc|].
    destruct (Hd (mkMessage "bob" "alice" "hi" "direct")) as [H _];
      [reflexivity | exact H].
Defined.

(** alice, registered, writes to bob, who has no presence record. *)
Lemma message_to_offline_recipient_witness :
  let r := Redis.Server true 0 ∅ [] in
  let c := mkConnection 0 "c1" "alice" 1%nat in
  let w := mkWorld (mkBrokers r (sarama.Cluster true []))
                   (Add NewConnectionManager c)
                   {[ 0%nat := 0 ]} {[ 1%nat := mkSocket false [] ]} [c] [] in
  let s := mkServer "gw1" 8080 (mkRouter "gw1") in
  let frame := text "{'type':'message','to':'bob','content':'hi'}" in
  ∃ w',
    handleFrame s 1%nat "c1" (100 * Second) frame (mkLocals "alice" (Some c)) w
      = (mkLocals "alice" (Some c), w')
    ∧ brokers w' = brokers w
    ∧ socks w' !! 1%nat
      = Some (mkSocket false
                [text "{'type':'error','error':'Failed to send message'}"]).
Proof.
  intros r c w s frame.
  destruct (message_to_offline_recipient s 1%nat "c1" (100 * Second) frame
              (mkLocals "alice" (Some c)) w
              (mkClientMessage "message" "bob" "hi" EmptyString)
              (mkSocket false []))
    as (w' & E & Hb & _ & Hs & _ & _ & _).
  - reflexivity.
  - reflexivity.
  - discriminate.
  - reflexivity.
  - reflexivity.
  - reflexivity.
  - exists w'. split; [exact E|]. split; [exact Hb | exact Hs].
Defined.

End HandlerFacts.

(* ===================================================================== *)
(** * The inter-gateway router *)
(* ===================================================================== *)

Module RouterFacts.
Import Go router Properties.

(** Whatever the headers of a message are, the handler is called on its
    decoded payload: the test on the headers only adds marks. *)
Lemma consume_calls_handler {S : Type} (h : kafkaConsumerHandler S)
    (msg : sarama.ConsumerMessage) (ss : session) (st : S)
    (m : Message) (f : MessageHandler S) :
  Unmarshal (sarama.Value msg) = Some m →
  handler h = Some f →
  (consume h msg (ss, st)).2 = f m st.
Proof. intros Hm Hf. unfold consume. by rewrite Hm, Hf. Qed.

(** C2.  The router of gateway "gw1" consumes, from its own topic, a
    message whose [from_gateway] header is "gw1" (it is what
    [RouteToGateway] of that gateway produces for a recipient attached to
    the same gateway): the message is marked twice, once in the loop over
    the headers and once at the end of the iteration, and the delivery
    handler is called on it. *)
Theorem ConsumeClaim_delivers_own_message :
  let r := mkKafkaRouter "gw1" ["localhost:9092"] in
  let m := mkMessage "alice" "bob" "hi" "direct" in
  let b := mkBrokers (Redis.Server true 0 ∅ []) (sarama.Cluster true []) in
  let record := sarama.mkProducerMessage "gateway-gw1" "bob" (Marshal m)
                  [sarama.mkHeader "from_gateway" "gw1";
                   sarama.mkHeader "timestamp" "1700000000"] in
  let msg := sarama.mkConsumerMessage (sarama.PHeaders record) (sarama.PKey record)
               (sarama.PValue record) (sarama.PTopic record) 0 7 in
  let h := mkConsumerHandler
             (Some (λ (m : Message) (delivered : list Message),
                      (delivered ++ [m])%list)) r in
  sarama.records (kafka (KafkaRouter_RouteToGateway r b (1700000000 * Second)
                           "gw1" m).2) = [record]
  ∧ ConsumeClaim h [msg] ([], []) = ([msg; msg], [m]).
Proof. vm_compute. auto. Qed.

End RouterFacts.

(* ===================================================================== *)
(** * Scanning the decimal text of an integer *)
(* ===================================================================== *)

Module GoFacts.
Import Go.

Lemma scan_digits_acc (d : Decimal.uint) (acc : positive) :
  scan_digits (NilEmpty.string_of_uint d) (Z.pos acc) true
  = Some (Z.pos (Pos.of_uint_acc d acc)).
Proof.
  revert acc.
  induction d; intros acc;
    cbn [NilEmpty.string_of_uint scan_digits Pos.of_uint_acc];
    [done | change (is_digit _) with true; cbv iota; unfold digit_val..].
  all: rewrite <- IHd; f_equal; vm_compute (Z.of_nat (nat_of_ascii _)); lia.
Qed.

Lemma scan_digits_zero (d : Decimal.uint) :
  scan_digits (NilEmpty.string_of_uint d) 0 true = Some (Z.of_N (Pos.of_uint d)).
Proof.
  induction d; cbn [NilEmpty.string_of_uint scan_digits Pos.of_uint];
    [done | change (is_digit _) with true; cbv iota; unfold digit_val..].
  - exact IHd.
  - apply (scan_digits_acc d 1).
  - apply (scan_digits_acc d 2).
  - apply (scan_digits_acc d 3).
  - apply (scan_digits_acc d 4).
  - apply (scan_digits_acc d 5).
  - apply (scan_digits_acc d 6).
  - apply (scan_digits_acc d 7).
  - apply (scan_digits_acc d 8).
  - apply (scan_digits_acc d 9).
Qed.

(** The decimal text of a positive number: it starts with a digit, and
    scanning it gives the number back. *)
Lemma scan_positive (p : positive) :
  ∃ c t, NilEmpty.string_of_uint (Pos.to_uint p) = String c t
         ∧ is_digit c = true
         ∧ scan_digits (String c t) 0 false = Some (Z.pos p).
Proof.
  assert (scan_digits (NilEmpty.string_of_uint (Pos.to_uint p)) 0 true
          = Some (Z.pos p)) as Hscan.
  { rewrite scan_digits_zero, DecimalPos.Unsigned.of_to. done. }
  pose proof (DecimalPos.Unsigned.to_uint_nonnil p) as Hnil.
  destruct (Pos.to_uint p) eqn:E; [done | ..];
    cbn [NilEmpty.string_of_uint] in *; eexists _, _; (split; [done|]);
    (split; [done|]); exact Hscan.
Qed.

Lemma digit_not_sign (c : ascii) :
  is_digit c = true →
  Ascii.eqb c " " = false ∧ Ascii.eqb c "009" = false
  ∧ c ≠ "-"%char ∧ c ≠ "+"%char.
Proof.
  destruct c as [[] [] [] [] [] [] [] []]; intros H;
    (discriminate H || (repeat split; done)).
Qed.

(** [Sscanf] with [%d] reads back what [FormatInt] prints, for every
    number that fits in 64 bits. *)
Lemma Sscanf_FormatInt (z : Z) :
  - 2 ^ 63 ≤ z ≤ 2 ^ 63 - 1 → Sscanf_d (FormatInt z) = Some z.
Proof.
  intros Hrange. unfold FormatInt.
  assert (∀ v, v = z →
            (if (- 2 ^ 63 <=? v) && (v <=? 2 ^ 63 - 1) then Some v else None)
            = Some z) as Hfit.
  { intros v ->.
    rewrite (proj2 (Z.leb_le _ _)), (proj2 (Z.leb_le _ _)) by lia. done. }
  destruct z as [|p|p].
  - done.
  - destruct (scan_positive p) as (c & t & Htext & Hdigit & Hscan).
    destruct (digit_not_sign c Hdigit) as (Hsp & Htab & Hminus & Hplus).
    unfold Z.to_int, NilZero.string_of_int, NilZero.string_of_uint.
    pose proof (DecimalPos.Unsigned.to_uint_nonnil p) as Hnil.
    destruct (Pos.to_uint p) eqn:E; [done | ..]; rewrite Htext;
      unfold Sscanf_d; cbn [skip_blanks]; rewrite Hsp, Htab; cbn [orb];
      (destruct c as [[] [] [] [] [] [] [] []]; try done;
       rewrite Hscan; by apply Hfit).
  - destruct (scan_positive p) as (c & t & Htext & Hdigit & Hscan).
    unfold Z.to_int, NilZero.string_of_int, NilZero.string_of_uint.
    pose proof (DecimalPos.Unsigned.to_uint_nonnil p) as Hnil.
    destruct (Pos.to_uint p) eqn:E; [done | ..]; rewrite Htext;
      unfold Sscanf_d; cbn [skip_blanks Ascii.eqb Bool.eqb orb];
      rewrite Hscan; by apply Hfit.
Qed.

End GoFacts.

(* ===================================================================== *)
(** * The presence directory: what its operations compose to *)
(* ===================================================================== *)

Module PresenceLifecycle.
Import Go Redis presence Properties Notions RedisFacts PresenceFacts GoFacts.

Lemma key_ne u u' :
  u' ≠ u → presenceKeyPrefix +:+ u' ≠ presenceKeyPrefix +:+ u.
Proof. intros Hne E. apply Hne. by apply (inj (String.app presenceKeyPrefix)). Qed.

Lemma get_db r key e : get r key = Some e → db r !! key = Some e.
Proof.
  unfold get. destruct (db r !! key) as [e'|]; [|done].
  destruct (live r e'); [|done]. congruence.
Qed.

(** [Get] reads the entry under the key of the user, the clock and the
    reachability only. *)
Lemma Get_ext r r' u :
  reachable r' = reachable r → clock r' = clock r →
  db r' !! (presenceKeyPrefix +:+ u) = db r !! (presenceKeyPrefix +:+ u) →
  Get r' u = Get r u.
Proof.
  intros Hup Hclock Hdb. unfold Get, HGETALL, get, live.
  by rewrite Hup, Hdb, Hclock.
Qed.

Lemma IsOnline_ext r r' u :
  reachable r' = reachable r → clock r' = clock r →
  db r' !! (presenceKeyPrefix +:+ u) = db r !! (presenceKeyPrefix +:+ u) →
  IsOnline r' u = IsOnline r u.
Proof.
  intros Hup Hclock Hdb. unfold IsOnline, EXISTS, get, live.
  by rewrite Hup, Hdb, Hclock.
Qed.

Lemma Register_success r now u gw conn r' :
  Register r now u gw conn = (None, r') →
  reachable r = true ∧ r' = registered r now u gw conn
  ∧ ∀ s, HGET r (presenceKeyPrefix +:+ u) "ts" = Some s →
         ∃ cur, tonumber s = Some cur ∧ cur ≤ Unix now.
Proof.
  intros Hreg. destruct (reachable r) eqn:Hup.
  - rewrite Register_unfold in Hreg by done. cbv zeta in Hreg.
    destruct (HGET r (presenceKeyPrefix +:+ u) "ts") as [s|].
    + destruct (tonumber s) as [cur|] eqn:Hnum; [|done].
      destruct (Z.ltb_spec (Unix now) cur); [done|].
      injection Hreg as <-. split; [done|]. split; [done|].
      intros ? [= <-]. exists cur. split; [done | lia].
    + injection Hreg as <-. by repeat split.
  - unfold Register, Eval in Hreg. by rewrite Hup in Hreg.
Qed.

Lemma Register_state r now u gw conn :
  (Register r now u gw conn).2 = r
  ∨ (Register r now u gw conn).2 = registered r now u gw conn.
Proof.
  destruct (reachable r) eqn:Hup.
  - rewrite Register_unfold by done. cbv zeta.
    destruct (HGET r (presenceKeyPrefix +:+ u) "ts") as [s|]; [|by right].
    destruct (tonumber s) as [cur|]; [|by left].
    destruct (Unix now <? cur); [by left | by right].
  - unfold Register, Eval. rewrite Hup. by left.
Qed.

Lemma registered_frame r now u gw conn :
  reachable (registered r now u gw conn) = reachable r
  ∧ clock (registered r now u gw conn) = clock r
  ∧ ∀ key', key' ≠ presenceKeyPrefix +:+ u →
      db (registered r now u gw conn) !! key' = db r !! key'.
Proof.
  unfold registered. rewrite reachable_EXPIRE, reachable_HSET, clock_EXPIRE, clock_HSET.
  repeat split. intros key' Hne. by rewrite db_EXPIRE_ne, db_HSET_ne.
Qed.

Lemma get_registered r now u gw conn :
  get (registered r now u gw conn) (presenceKeyPrefix +:+ u)
  = Some (Entry (<["ts" := FormatInt (Unix now)]>
                   (<["connId" := conn]>
                      (<["gwId" := gw]> (HGETALL r (presenceKeyPrefix +:+ u)))))
                (Some (clock r + 90000))).
Proof. unfold registered. by rewrite get_HSET_EXPIRE. Qed.

Lemma size_insert_ne0 (k v : string) (h : gmap string string) :
  size (<[k := v]> h) ≠ 0%nat.
Proof.
  intros E. apply map_size_empty_inv in E.
  by apply insert_non_empty in E.
Qed.

Lemma Get_registered r now u gw conn :
  reachable r = true → - 2 ^ 63 ≤ Unix now ≤ 2 ^ 63 - 1 →
  Get (registered r now u gw conn) u = inr (mkInfo u gw conn (Unix now)).
Proof.
  intros Hup Hrange. unfold Get, HGETALL.
  destruct (registered_frame r now u gw conn) as (-> & _ & _). rewrite Hup.
  rewrite get_registered. cbn [fields].
  rewrite bool_decide_eq_false_2 by apply size_insert_ne0.
  rewrite lookup_insert_eq, Sscanf_FormatInt by done.
  rewrite lookup_insert_ne, lookup_insert_ne, lookup_insert_eq by done.
  rewrite lookup_insert_ne, lookup_insert_eq by done. done.
Qed.

(** X1.  A registration that succeeds can be read back: [Get] returns
    the user, the gateway and the connection that were registered with
    the second of the registration as timestamp, [IsOnline] answers true,
    and the record has 90 seconds to live. *)
Theorem Register_then_Get (r r' : server) (now : Time) (u gw conn : string) :
  - 2 ^ 63 ≤ Unix now ≤ 2 ^ 63 - 1 →
  Register r now u gw conn = (None, r') →
  Get r' u = inr (mkInfo u gw conn (Unix now))
  ∧ IsOnline r' u = inr true
  ∧ PTTL r' (presenceKeyPrefix +:+ u) = Some 90000.
Proof.
  intros Hrange Hreg.
  destruct (Register_success _ _ _ _ _ _ Hreg) as (Hup & -> & _).
  split; [by apply Get_registered|].
  destruct (registered_frame r now u gw conn) as (Hup' & Hclock & _).
  unfold IsOnline, EXISTS, PTTL. rewrite Hup', Hup, get_registered, Hclock. cbn.
  split; [done|]. f_equal. lia.
Qed.

Lemma Register_then_Get_witness :
  let r := Server true 5000 ∅ [] in
  let r' := (Register r (1700000000 * Second) "alice" "gw-1" "conn-001").2 in
  Get r' "alice" = inr (mkInfo "alice" "gw-1" "conn-001" 1700000000)
  ∧ IsOnline r' "alice" = inr true
  ∧ PTTL r' "presence:alice" = Some 90000.
Proof.
  intros r r'.
  apply (Register_then_Get r r' (1700000000 * Second) "alice" "gw-1" "conn-001");
    [vm_compute; split; discriminate | reflexivity].
Defined.


Lemma advance_frame r ms :
  reachable (advance r ms) = reachable r ∧ db (advance r ms) = db r
  ∧ clock (advance r ms) = clock r + ms.
Proof. done. Qed.

(** The record of a registered user, [ms] milliseconds later. *)
Lemma get_advance_registered r now u gw conn ms :
  get (advance (registered r now u gw conn) ms) (presenceKeyPrefix +:+ u)
  = if bool_decide (ms < 90000)
    then get (registered r now u gw conn) (presenceKeyPrefix +:+ u)
    else None.
Proof.
  pose proof (get_registered r now u gw conn) as Hget.
  destruct (registered_frame r now u gw conn) as (_ & Hclock & _).
  unfold get at 1. cbn [advance db].
  rewrite (get_db _ _ _ Hget), Hget. unfold live. cbn [expireAt clock].
  change (clock (advance ?x ms)) with (clock x + ms).
  rewrite Hclock. repeat case_bool_decide; (done || lia).
Qed.

(** X2.  A record that is neither refreshed nor written again is
    found for less than 90 seconds of the server's clock: until then [Get]
    returns it and [IsOnline] is true; from then on [Get] reports the
    user offline and [IsOnline] is false. *)
Theorem presence_expires_after_ttl (r r' : server) (now : Time)
    (u gw conn : string) (ms : Z) :
  - 2 ^ 63 ≤ Unix now ≤ 2 ^ 63 - 1 →
  Register r now u gw conn = (None, r') →
  (ms < 90000 →
     Get (advance r' ms) u = inr (mkInfo u gw conn (Unix now))
     ∧ IsOnline (advance r' ms) u = inr true)
  ∧ (90000 ≤ ms →
     Get (advance r' ms) u = inl (ErrOffline u)
     ∧ IsOnline (advance r' ms) u = inr false).
Proof.
  intros Hrange Hreg.
  destruct (Register_success _ _ _ _ _ _ Hreg) as (Hup & -> & _).
  pose proof (Get_registered r now u gw conn Hup Hrange) as HGet.
  destruct (registered_frame r now u gw conn) as (Hup' & _ & _).
  pose proof (get_advance_registered r now u gw conn ms) as Hadv.
  unfold Get, IsOnline, HGETALL, EXISTS in *. cbn [advance reachable].
  rewrite Hup', Hup in *. rewrite Hadv.
  split; intros Hms.
  - rewrite (bool_decide_eq_true_2 (ms < 90000)) by done. split; [done|].
    by rewrite get_registered.
  - rewrite (bool_decide_eq_false_2 (ms < 90000)) by lia. done.
Qed.

Lemma presence_expires_after_ttl_witness :
  let r := Server true 5000 ∅ [] in
  let r' := (Register r (1700000000 * Second) "alice" "gw-1" "conn-001").2 in
  Get (advance r' 89999) "alice" = inr (mkInfo "alice" "gw-1" "conn-001" 1700000000)
  ∧ Get (advance r' 90000) "alice" = inl (ErrOffline "alice").
Proof.
  intros r r'.
  assert (- 2 ^ 63 ≤ Unix (1700000000 * Second) ≤ 2 ^ 63 - 1) as Hrange
    by (vm_compute; split; discriminate).
  assert (Register r (1700000000 * Second) "alice" "gw-1" "conn-001" = (None, r'))
    as Hreg by reflexivity.
  split.
  - apply (presence_expires_after_ttl r r' _ _ _ _ 89999 Hrange Hreg). lia.
  - apply (presence_expires_after_ttl r r' _ _ _ _ 90000 Hrange Hreg). lia.
Defined.

(** X3.  After a successful registration, a later call of [Register]
    for the same user is decided by its timestamp as long as the record
    lives: a call with an older second is rejected as stale and changes
    nothing; a call with the same or a later second is accepted and
    writes its record.  Once the record has expired, a call is accepted
    whatever its timestamp. *)
Theorem Register_after_Register (r r1 : server) (now now' : Time)
    (u gw conn gw' conn' : string) (ms : Z) :
  Register r now u gw conn = (None, r1) →
  let r1' := advance r1 ms in
  (ms < 90000 → Unix now' < Unix now →
     Register r1' now' u gw' conn' = (Some (ErrStale u), r1'))
  ∧ (ms < 90000 → Unix now ≤ Unix now' →
     Register r1' now' u gw' conn' = (None, registered r1' now' u gw' conn'))
  ∧ (90000 ≤ ms →
     Register r1' now' u gw' conn' = (None, registered r1' now' u gw' conn')).
Proof.
  intros Hreg r1'.
  destruct (Register_success _ _ _ _ _ _ Hreg) as (Hup & -> & _).
  destruct (registered_frame r now u gw conn) as (Hup' & _ & _).
  assert (reachable r1' = true) as Hup1 by (subst r1'; cbn; congruence).
  rewrite Register_unfold by done. cbv zeta.
  fold (registered r1' now' u gw' conn').
  subst r1'. unfold HGET. rewrite get_advance_registered, get_registered.
  repeat split; intros Hms.
  - intros Hlt. rewrite (bool_decide_eq_true_2 (ms < 90000)) by done. cbn [fields].
    rewrite lookup_insert_eq, tonumber_FormatInt.
    by rewrite (proj2 (Z.ltb_lt _ _)) by lia.
  - intros Hle. rewrite (bool_decide_eq_true_2 (ms < 90000)) by done. cbn [fields].
    rewrite lookup_insert_eq, tonumber_FormatInt.
    by rewrite (proj2 (Z.ltb_ge _ _)) by lia.
  - by rewrite (bool_decide_eq_false_2 (ms < 90000)) by lia.
Qed.

Lemma Register_after_Register_witness :
  let r := Server true 5000 ∅ [] in
  let r1 := (Register r (200 * Second) "alice" "gw-2" "conn-002").2 in
  Register (advance r1 1000) (100 * Second) "alice" "gw-1" "conn-001"
  = (Some (ErrStale "alice"), advance r1 1000).
Proof.
  intros r r1.
  apply (Register_after_Register r r1 (200 * Second) (100 * Second)
           "alice" "gw-2" "conn-002" "gw-1" "conn-001" 1000);
    [reflexivity | lia | vm_compute; reflexivity].
Defined.

(** X4.  On a reachable server [Remove] returns nil whether or not
    the user has a record; afterwards [Get] reports the user offline and
    [IsOnline] is false, and removing again changes nothing. *)
Theorem Remove_then_offline (r : server) (u : string) :
  reachable r = true →
  ∃ r', Remove r u = (None, r')
    ∧ Get r' u = inl (ErrOffline u)
    ∧ IsOnline r' u = inr false
    ∧ Remove r' u = (None, r').
Proof.
  intros Hup. exists (DEL r (presenceKeyPrefix +:+ u)).
  unfold Remove, Get, IsOnline, HGETALL, EXISTS. cbn [DEL with_db reachable].
  rewrite Hup, get_DEL_eq. repeat split.
  f_equal. unfold DEL, with_db. cbn. by rewrite delete_delete_eq.
Qed.

Lemma Remove_then_offline_witness :
  let r := (Register (Server true 5000 ∅ []) (200 * Second) "alice" "gw-2" "conn-002").2 in
  ∃ r', Remove r "alice" = (None, r')
    ∧ Get r' "alice" = inl (ErrOffline "alice")
    ∧ IsOnline r' "alice" = inr false
    ∧ Remove r' "alice" = (None, r').
Proof. intros r. apply (Remove_then_offline r "alice"). reflexivity. Defined.

Lemma HGETALL_written r key fvs :
  HGETALL (EXPIRE (HSET r key fvs) key 90) key = set_fields fvs (HGETALL r key).
Proof. unfold HGETALL at 1. by rewrite get_HSET_EXPIRE. Qed.

(** [Refresh] on a record that exists. *)
Lemma Refresh_existing (r : server) (now : Time) (u : string) (i : Info) :
  - 2 ^ 63 ≤ Unix now ≤ 2 ^ 63 - 1 →
  Get r u = inr i →
  ∃ r', Refresh r now u = (None, r')
    ∧ Get r' u = inr (mkInfo u (GatewayID i) (ConnID i) (Unix now))
    ∧ PTTL r' (presenceKeyPrefix +:+ u) = Some 90000.
Proof.
  intros Hrange HGet.
  assert (reachable r = true) as Hup.
  { unfold Get in HGet. by destruct (reachable r). }
  rewrite Refresh_unfold by done. eexists. split; [done|].
  unfold Get in *. rewrite reachable_EXPIRE, reachable_HSET, Hup in *.
  unfold PTTL. rewrite HGETALL_written, get_HSET_EXPIRE by done.
  rewrite clock_EXPIRE, clock_HSET. cbn [fields expireAt set_fields fmap option_fmap option_map].
  case_bool_decide as Hsize; [done|]. injection HGet as <-.
  rewrite bool_decide_eq_false_2 by apply size_insert_ne0.
  rewrite lookup_insert_eq, Sscanf_FormatInt by done.
  rewrite !lookup_insert_ne by done. cbn [GatewayID ConnID].
  split; [done|]. f_equal. lia.
Qed.

(** X5.  [Refresh] for a user who has a record keeps the gateway and
    the connection of the record, sets its timestamp to the second of
    the call and its time to live to 90 seconds. *)
Theorem Refresh_keeps_owner (r : server) (now : Time) (u : string) (i : Info) :
  - 2 ^ 63 ≤ Unix now ≤ 2 ^ 63 - 1 →
  Get r u = inr i →
  ∃ r', Refresh r now u = (None, r')
    ∧ Get r' u = inr (mkInfo u (GatewayID i) (ConnID i) (Unix now))
    ∧ PTTL r' (presenceKeyPrefix +:+ u) = Some 90000.
Proof. apply Refresh_existing. Qed.

Lemma Refresh_keeps_owner_witness :
  let r := (Register (Server true 5000 ∅ []) (200 * Second) "alice" "gw-2" "conn-002").2 in
  ∃ r', Refresh r (230 * Second) "alice" = (None, r')
    ∧ Get r' "alice" = inr (mkInfo "alice" "gw-2" "conn-002" 230)
    ∧ PTTL r' "presence:alice" = Some 90000.
Proof.
  intros r.
  apply (Refresh_keeps_owner r (230 * Second) "alice"
           (mkInfo "alice" "gw-2" "conn-002" 200));
    [vm_compute; split; discriminate | reflexivity].
Defined.

(** X6.  [Register], [Refresh] and [Remove] for one user leave what
    [Get] returns for every other user as it was, whether they succeed or
    fail. *)
Theorem presence_writes_touch_one_user (r : server) (now : Time)
    (u gw conn u' : string) :
  u' ≠ u →
  Get (Register r now u gw conn).2 u' = Get r u'
  ∧ Get (Refresh r now u).2 u' = Get r u'
  ∧ Get (Remove r u).2 u' = Get r u'.
Proof.
  intros Hne. apply key_ne in Hne. repeat split.
  - destruct (Register_state r now u gw conn) as [-> | ->]; [done|].
    destruct (registered_frame r now u gw conn) as (Hup & Hclock & Hdb).
    apply Get_ext; auto.
  - unfold Refresh. destruct (reachable r) eqn:Hup; [|done]. cbn [snd].
    apply Get_ext.
    + by rewrite reachable_EXPIRE, reachable_HSET.
    + by rewrite clock_EXPIRE, clock_HSET.
    + by rewrite db_EXPIRE_ne, db_HSET_ne.
  - unfold Remove. destruct (reachable r) eqn:Hup; [|done]. cbn [snd].
    apply Get_ext; [done | done |]. unfold DEL, with_db. cbn [db].
    by rewrite lookup_delete_ne.
Qed.

Lemma presence_writes_touch_one_user_witness :
  let r := (Register (Server true 5000 ∅ []) (200 * Second) "bob" "gw-2" "conn-002").2 in
  Get (Register r (300 * Second) "alice" "gw-1" "conn-001").2 "bob" = Get r "bob"
  ∧ Get (Refresh r (300 * Second) "alice").2 "bob" = Get r "bob"
  ∧ Get (Remove r "alice").2 "bob" = Get r "bob".
Proof.
  intros r.
  apply (presence_writes_touch_one_user r (300 * Second) "alice" "gw-1" "conn-001" "bob").
  done.
Defined.

End PresenceLifecycle.

(* ===================================================================== *)
(** * The connection registry: lookups, count, invariant *)
(* ===================================================================== *)

Module RegistryLaws.
Import Go gateway Properties RegistryFacts.

(** X7.  A connection that is added is found under its user id and
    under its connection id; removing it again leaves neither entry,
    gives back every other entry of the registry as it was before the
    two calls, and removing twice is the same as removing once. *)
Theorem Add_Remove_lookup (cm : ConnectionManager) (c : Connection) :
  GetByUserID (Add cm c) (UserID c) = Some c
  ∧ GetByConnID (Add cm c) (ID c) = Some c
  ∧ GetByUserID (Remove (Add cm c) c) (UserID c) = None
  ∧ GetByConnID (Remove (Add cm c) c) (ID c) = None
  ∧ (∀ u, u ≠ UserID c → GetByUserID (Remove (Add cm c) c) u = GetByUserID cm u)
  ∧ (∀ k, k ≠ ID c → GetByConnID (Remove (Add cm c) c) k = GetByConnID cm k)
  ∧ Remove (Remove cm c) c = Remove cm c.
Proof.
  unfold GetByUserID, GetByConnID.
  rewrite !Remove_lookup_user, !Remove_lookup_conn, !Add_lookup_user, !Add_lookup_conn.
  rewrite !decide_True by done. repeat split.
  - intros u Hu. rewrite Remove_lookup_user, Add_lookup_user.
    by rewrite !decide_False by done.
  - intros k Hk. rewrite Remove_lookup_conn, Add_lookup_conn.
    by rewrite !decide_False by done.
  - unfold Remove. cbn. by rewrite !delete_delete_eq.
Qed.

Lemma fold_count {A} (l : list A) (n : Z) :
  fold_left (λ count _, count + 1) l n = n + Z.of_nat (length l).
Proof.
  revert n. induction l as [|x l IH]; intros n; cbn [fold_left length].
  - lia.
  - rewrite IH. lia.
Qed.

Lemma Count_size cm : Count cm = Z.of_nat (size (userToConn cm)).
Proof.
  unfold Count, Range. rewrite fold_count, length_fmap, length_map_to_list. lia.
Qed.

(** X8.  [Count] is the number of users in the index by user, zero
    for a new manager: adding a connection raises it by one only when the
    user had no entry, and removing a connection lowers it by one only
    when its user has an entry. *)
Theorem Count_counts_users (cm : ConnectionManager) (c : Connection) :
  Count NewConnectionManager = 0
  ∧ Count cm = Z.of_nat (size (userToConn cm))
  ∧ Count (Add cm c)
    = match GetByUserID cm (UserID c) with
      | Some _ => Count cm
      | None => Count cm + 1
      end
  ∧ Count (Remove cm c)
    = match GetByUserID cm (UserID c) with
      | Some _ => Count cm - 1
      | None => Count cm
      end.
Proof.
  rewrite !Count_size. unfold GetByUserID, Add, Remove. cbn [userToConn].
  repeat split.
  - rewrite map_size_insert.
    destruct (userToConn cm !! UserID c); unfold id; lia.
  - rewrite map_size_delete.
    destruct (userToConn cm !! UserID c) eqn:E; unfold id; [|lia].
    assert (size (userToConn cm) ≠ 0%nat); [|lia].
    apply (map_size_ne_0_lookup_2 _ (UserID c)). by rewrite E.
Qed.

Lemma consistent_Remove cm c :
  consistent cm →
  (∀ c', connToUser cm !! ID c = Some c' → c' = c) →
  consistent (Remove cm c).
Proof.
  intros [Huser Hconn] Hown. split.
  - intros u c'. rewrite Remove_lookup_user, Remove_lookup_conn.
    destruct (decide (UserID c = u)); [done|]. intros Hu.
    destruct (Huser _ _ Hu) as [Hkey Hid]. split; [done|].
    destruct (decide (ID c = ID c')) as [E|]; [|done].
    rewrite <- E in Hid. apply Hown in Hid. congruence.
  - intros k c'. rewrite Remove_lookup_conn.
    destruct (decide (ID c = k)); [done|]. apply Hconn.
Qed.

Lemma consistent_sweep cm pings now T :
  consistent cm → consistent (fold_left Remove (toRemove cm pings now T) cm).
Proof.
  intros Hcm. destruct (fold_Remove_exact cm pings now T Hcm) as [Huser Hconn].
  destruct Hcm as [Hu Hc]. split.
  - intros u c [Hin Hnot]%Huser. destruct (Hu _ _ Hin) as [? ?].
    split; [done|]. by apply Hconn.
  - intros k c [Hin _]%Hconn. by apply Hc.
Qed.

(** X9.  The registry invariant (every entry is stored under the ids
    of its connection, and a connection indexed by user is indexed by
    connection id) is kept by [Add] of a connection whose id is not in
    use, by [Remove] of a connection whose id is not held by another
    connection, and by [CheckHealth]. *)
Theorem registry_invariant_preserved (cm : ConnectionManager) (c : Connection) :
  consistent cm →
  (connToUser cm !! ID c = None → consistent (Add cm c))
  ∧ ((∀ c', connToUser cm !! ID c = Some c' → c' = c) → consistent (Remove cm c))
  ∧ (∀ pings socks now T, consistent (CheckHealth cm pings socks now T).1.2).
Proof.
  intros Hcm. split; [|split].
  - by apply consistent_Add.
  - by apply consistent_Remove.
  - intros. unfold CheckHealth. rewrite remove_all_split. cbn [fst snd].
    by apply consistent_sweep.
Qed.

Lemma registry_invariant_preserved_witness :
  let c1 := mkConnection 0 "conn-001" "alice" 1%nat in
  let c2 := mkConnection 1 "conn-002" "alice" 2%nat in
  let cm := Add NewConnectionManager c1 in
  consistent (Add cm c2) ∧ consistent (Remove cm c1).
Proof.
  intros c1 c2 cm.
  assert (consistent cm) as Hcm by (apply consistent_Add; [apply consistent_empty | done]).
  split.
  - apply (registry_invariant_preserved cm c2 Hcm). reflexivity.
  - apply (registry_invariant_preserved cm c1 Hcm).
    intros c'. vm_compute. congruence.
Defined.

(** X10.  When a user is registered again through a second
    connection and the first connection is then removed (as the handler
    of the first connection does when it exits), the user has no entry
    left in the index by user, while the second connection stays indexed
    by its connection id. *)
Theorem Remove_superseded_drops_successor (cm : ConnectionManager)
    (c1 c2 : Connection) :
  UserID c1 = UserID c2 → ID c1 ≠ ID c2 →
  let cm' := Remove (Add (Add cm c1) c2) c1 in
  GetByUserID cm' (UserID c2) = None
  ∧ GetByConnID cm' (ID c2) = Some c2
  ∧ GetByConnID cm' (ID c1) = None.
Proof.
  intros Hu Hid cm'. subst cm'. unfold GetByUserID, GetByConnID.
  rewrite Remove_lookup_user, !Remove_lookup_conn, !Add_lookup_conn.
  rewrite decide_True by done. rewrite decide_False by done.
  by rewrite !decide_True by done.
Qed.

Lemma Remove_superseded_drops_successor_witness :
  let c1 := mkConnection 0 "conn-001" "alice" 1%nat in
  let c2 := mkConnection 1 "conn-002" "alice" 2%nat in
  let cm' := Remove (Add (Add NewConnectionManager c1) c2) c1 in
  GetByUserID cm' "alice" = None
  ∧ GetByConnID cm' "conn-002" = Some c2
  ∧ GetByConnID cm' "conn-001" = None.
Proof.
  intros c1 c2.
  apply (Remove_superseded_drops_successor NewConnectionManager c1 c2);
    [reflexivity | done].
Defined.

Lemma filter_none {A} (f : A → bool) (l : list A) :
  (∀ x, x ∈ l → f x = false) → List.filter f l = [].
Proof.
  induction l as [|x l IH]; intros H; [done|]. cbn [List.filter].
  rewrite (H x) by apply list_elem_of_here.
  apply IH. intros y Hy. apply H. by apply list_elem_of_further.
Qed.

(** X11.  On a registry that satisfies the invariant, a second sweep
    at the same instant removes nothing: it returns 0 and leaves the
    registry and the sockets as the first sweep left them. *)
Theorem CheckHealth_idempotent (cm cm1 : ConnectionManager)
    (pings : gmap nat Time) (socks s1 : gmap sock Socket) (now : Time)
    (T : Duration) (removed : Z) :
  consistent cm →
  CheckHealth cm pings socks now T = (s1, cm1, removed) →
  CheckHealth cm1 pings s1 now T = (s1, cm1, 0).
Proof.
  intros Hcm Hsweep. unfold CheckHealth in *.
  rewrite remove_all_split in Hsweep. injection Hsweep as <- <- <-.
  destruct (fold_Remove_exact cm pings now T Hcm) as [Huser _].
  cbv zeta in Huser.
  set (cm1 := fold_left Remove _ cm) in *.
  assert (toRemove cm1 pings now T = []) as ->; [|done].
  apply filter_none. intros c [u Hc]%elem_of_Range.
  apply Huser in Hc as [Hin Hnot].
  destruct (timed_out pings now T c) eqn:E; [|done].
  exfalso. apply Hnot. apply elem_of_toRemove. eauto.
Qed.

Lemma CheckHealth_idempotent_witness :
  let c1 := mkConnection 0 "conn-001" "alice" 1%nat in
  let c2 := mkConnection 1 "conn-002" "bob" 2%nat in
  let cm := Add (Add NewConnectionManager c1) c2 in
  let pings : gmap nat Time := {[ 0%nat := 0; 1%nat := 90 * Second ]} in
  let socks : gmap sock Socket :=
    {[ 1%nat := mkSocket false []; 2%nat := mkSocket false [] ]} in
  let '(s1, cm1, _) := CheckHealth cm pings socks (100 * Second) heartbeatTimeout in
  CheckHealth cm1 pings s1 (100 * Second) heartbeatTimeout = (s1, cm1, 0).
Proof.
  intros c1 c2 cm pings socks.
  destruct (CheckHealth cm pings socks (100 * Second) heartbeatTimeout)
    as [[s1 cm1] n] eqn:E.
  apply (CheckHealth_idempotent cm cm1 pings socks s1 (100 * Second)
           heartbeatTimeout n); [|exact E].
  apply consistent_Add; [apply consistent_Add; [apply consistent_empty | done] | done].
Defined.

End RegistryLaws.

(* ===================================================================== *)
(** * The handler, frame by frame *)
(* ===================================================================== *)

Module SessionFacts.
Import Go gateway Properties RegistryFacts HandlerFacts.
Import Notions GoFacts PresenceLifecycle RegistryLaws.

(** What [sendMessage] does to the sockets: nothing when the write
    fails, else one frame more on the socket it is given. *)
Lemma sendMessage_socks conn msg w :
  socks (sendMessage conn msg w) = socks w
  ∨ ∃ sk, socks w !! conn = Some sk ∧ closed sk = false
      ∧ socks (sendMessage conn msg w)
        = <[conn := mkSocket false
              (written sk ++ [Marshal_ServerMessage msg])%list]> (socks w).
Proof.
  unfold sendMessage, WriteMessage.
  destruct (socks w !! conn) as [sk|] eqn:Hs; [|by left].
  destruct (closed sk) eqn:Hc; [by left|]. right. by exists sk.
Qed.

Lemma brokers_sendMessage conn msg w :
  brokers (sendMessage conn msg w) = brokers w.
Proof. unfold sendMessage. by destruct (WriteMessage _ _ _). Qed.

Lemma connMgr_sendMessage conn msg w :
  connMgr (sendMessage conn msg w) = connMgr w.
Proof. unfold sendMessage. by destruct (WriteMessage _ _ _). Qed.

Lemma pings_sendMessage conn msg w :
  pings (sendMessage conn msg w) = pings w.
Proof. unfold sendMessage. by destruct (WriteMessage _ _ _). Qed.

Lemma checkers_sendMessage conn msg w :
  checkers (sendMessage conn msg w) = checkers w.
Proof. unfold sendMessage. by destruct (WriteMessage _ _ _). Qed.

Section WithRouter.
Context {R : Type} `{!RouterInterface R}.
Implicit Types (s : Server R) (w : World) (l : locals).

Lemma routeMessage_rest s now from to content w :
  let w' := (routeMessage s now from to content w).2 in
  connMgr w' = connMgr w ∧ pings w' = pings w ∧ socks w' = socks w
  ∧ checkers w' = checkers w ∧ logs w' = logs w.
Proof.
  unfold routeMessage. destruct (presence.Get _ _); [done|].
  by destruct (RouteToGateway _ _ _ _ _).
Qed.

(** X14.  Whatever the frame, the state and the router, handling a
    frame leaves the sockets as they were or appends one frame to the
    socket of the client, which was open; it closes no socket and writes
    to no other socket. *)
Theorem handleFrame_socket_discipline s (conn : sock) (connID : string)
    (now : Time) (message : string) l w :
  let w' := (handleFrame s conn connID now message l w).2 in
  socks w' = socks w
  ∨ ∃ sk frame, socks w !! conn = Some sk ∧ closed sk = false
      ∧ socks w' = <[conn := mkSocket false (written sk ++ [frame])%list]> (socks w).
Proof.
  assert (∀ msg w0, socks w0 = socks w →
            socks (sendMessage conn msg w0) = socks w
            ∨ ∃ sk frame, socks w !! conn = Some sk ∧ closed sk = false
                ∧ socks (sendMessage conn msg w0)
                  = <[conn := mkSocket false (written sk ++ [frame])%list]> (socks w))
    as Hsend.
  { intros msg w0 Hw0. destruct (sendMessage_socks conn msg w0) as [->|(sk & ? & ? & ->)].
    - by left.
    - right. rewrite Hw0 in *. eauto. }
  unfold handleFrame, sendError.
  destruct (Unmarshal_ClientMessage message) as [msg|]; [|by apply Hsend].
  destruct (String.eqb (CType msg) msgTypeRegister).
  { destruct (String.eqb (CUserID msg) EmptyString); [by apply Hsend|].
    unfold NewConnection. cbv zeta.
    destruct (presence.Register _ _ _ _ _) as [[e|] r']; by apply Hsend. }
  destruct (String.eqb (CType msg) msgTypePing).
  { cbn [snd]. apply Hsend. destruct (wsConn l) as [c|]; [|done].
    destruct (presence.Refresh _ _ _) as [[e|] r']; done. }
  destruct (String.eqb (CType msg) msgTypeMessage); [|by apply Hsend].
  destruct (String.eqb (userID l) EmptyString); [by apply Hsend|].
  destruct (String.eqb (CTo msg) EmptyString); [by apply Hsend|].
  pose proof (routeMessage_rest s now (userID l) (CTo msg) (CContent msg) w)
    as (_ & _ & Hsocks & _).
  destruct (routeMessage s now (userID l) (CTo msg) (CContent msg) w) as [[e|] w1];
    cbn [snd] in *.
  - by apply Hsend.
  - by left.
Qed.

(** A frame that is not an accepted register frame. *)
Lemma handleFrame_unaccepted s (conn : sock) (connID : string)
    (now : Time) (message : string) l w :
  accepted_register message = false →
  let lw := handleFrame s conn connID now message l w in
  lw.1 = l ∧ connMgr lw.2 = connMgr w ∧ checkers lw.2 = checkers w.
Proof.
  unfold accepted_register, handleFrame, sendError.
  destruct (Unmarshal_ClientMessage message) as [msg|].
  2:{ intros _. cbn [fst snd].
      by rewrite connMgr_sendMessage, checkers_sendMessage. }
  destruct (String.eqb (CType msg) msgTypeRegister).
  { destruct (String.eqb (CUserID msg) EmptyString); [|done].
    intros _. cbn [fst snd].
    by rewrite connMgr_sendMessage, checkers_sendMessage. }
  intros _.
  destruct (String.eqb (CType msg) msgTypePing).
  { cbn [fst snd]. rewrite connMgr_sendMessage, checkers_sendMessage.
    destruct (wsConn l) as [c|]; [|done]. cbv zeta.
    by destruct (presence.Refresh _ _ _) as [[e|] r']. }
  destruct (String.eqb (CType msg) msgTypeMessage).
  2:{ cbn [fst snd]. by rewrite connMgr_sendMessage, checkers_sendMessage. }
  destruct (String.eqb (userID l) EmptyString).
  { cbn [fst snd]. by rewrite connMgr_sendMessage, checkers_sendMessage. }
  destruct (String.eqb (CTo msg) EmptyString).
  { cbn [fst snd]. by rewrite connMgr_sendMessage, checkers_sendMessage. }
  pose proof (routeMessage_rest s now (userID l) (CTo msg) (CContent msg) w)
    as (Hcm & _ & _ & Hch & _).
  destruct (routeMessage s now (userID l) (CTo msg) (CContent msg) w) as [[e|] w1];
    cbn [fst snd] in *; [|done].
  by rewrite connMgr_sendMessage, checkers_sendMessage.
Qed.

(** X15.  A frame that is not an accepted register frame (a register
    frame with a user id) changes neither the variables of the handler,
    nor the registry, nor the set of heartbeat checkers. *)
Theorem only_register_changes_registry s (conn : sock) (connID : string)
    (now : Time) (message : string) l w :
  accepted_register message = false →
  let lw := handleFrame s conn connID now message l w in
  lw.1 = l ∧ connMgr lw.2 = connMgr w ∧ checkers lw.2 = checkers w.
Proof. apply handleFrame_unaccepted. Qed.

(** A register frame whose [Register] call succeeds: the state in which
    the iteration ends. *)
Lemma register_ok_step s (conn : sock) (connID : string) (now : Time)
    (message : string) l w (msg : ClientMessage) (sk : Socket)
    (r' : Redis.server) :
  Unmarshal_ClientMessage message = Some msg →
  CType msg = msgTypeRegister →
  CUserID msg ≠ EmptyString →
  presence.Register (redis (brokers w)) now (CUserID msg) (gatewayID s) connID
    = (None, r') →
  socks w !! conn = Some sk → closed sk = false →
  let c := mkConnection (fresh (dom (pings w))) connID (CUserID msg) conn in
  handleFrame s conn connID now message l w
  = (mkLocals (CUserID msg) (Some c),
     mkWorld (with_redis (brokers w) r')
             (Add (connMgr w) c)
             (<[fresh (dom (pings w)) := now]> (pings w))
             (<[conn := mkSocket false
                  (written sk ++
                   [Marshal_ServerMessage
                      (mkServerMessage "registered" EmptyString
                         "Successfully registered" EmptyString)])%list]> (socks w))
             (checkers w ++ [c])%list
             (logs w ++ ["[Handler] User " +:+ CUserID msg
                         +:+ " registered on gateway " +:+ gatewayID s
                         +:+ " (connID: " +:+ connID +:+ ")"])%list).
Proof.
  intros Hdec Hty Hu Hreg Hs Hopen c.
  unfold handleFrame. rewrite Hdec, Hty.
  change (String.eqb msgTypeRegister msgTypeRegister) with true. cbv iota.
  rewrite eqb_empty_false by done.
  unfold NewConnection. cbv zeta.
  change (redis (brokers (set_connMgr (set_pings w _) _))) with (redis (brokers w)).
  rewrite Hreg.
  erewrite sendMessage_open; [| exact Hs | exact Hopen]. done.
Qed.

(** X16.  A register frame whose [Register] call succeeds: the
    handler keeps the new connection, the registry finds it under the
    user id and the connection id, its last ping is the instant of the
    frame, the presence directory returns the user on this gateway with
    this connection, the client is sent the frame "registered" and no
    other socket is written, and one heartbeat checker is started for
    the connection. *)
Theorem register_success s (conn : sock) (connID : string) (now : Time)
    (message : string) l w (msg : ClientMessage) (sk : Socket)
    (r' : Redis.server) :
  Unmarshal_ClientMessage message = Some msg →
  CType msg = msgTypeRegister →
  CUserID msg ≠ EmptyString →
  - 2 ^ 63 ≤ Unix now ≤ 2 ^ 63 - 1 →
  presence.Register (redis (brokers w)) now (CUserID msg) (gatewayID s) connID
    = (None, r') →
  socks w !! conn = Some sk → closed sk = false →
  let c := mkConnection (fresh (dom (pings w))) connID (CUserID msg) conn in
  ∃ w',
    handleFrame s conn connID now message l w
      = (mkLocals (CUserID msg) (Some c), w')
    ∧ GetByUserID (connMgr w') (CUserID msg) = Some c
    ∧ GetByConnID (connMgr w') connID = Some c
    ∧ GetLastPing (pings w') c = now
    ∧ presence.Get (redis (brokers w')) (CUserID msg)
      = inr (presence.mkInfo (CUserID msg) (gatewayID s) connID (Unix now))
    ∧ socks w' !! conn
      = Some (mkSocket false
                (written sk ++
                 [text "{'type':'registered','content':'Successfully registered'}"])%list)
    ∧ (∀ k, k ≠ conn → socks w' !! k = socks w !! k)
    ∧ checkers w' = (checkers w ++ [c])%list.
Proof.
  intros Hdec Hty Hu Hrange Hreg Hs Hopen c.
  eexists. split; [by apply register_ok_step|].
  cbn [connMgr pings socks checkers brokers redis with_redis].
  unfold GetByUserID, GetByConnID, GetLastPing.
  rewrite Add_lookup_user, Add_lookup_conn. cbn [UserID ID addr c].
  rewrite !decide_True by done.
  rewrite lookup_total_insert_eq, lookup_insert_eq.
  destruct (Register_success _ _ _ _ _ _ Hreg) as (Hup & -> & _).
  rewrite Get_registered by done.
  repeat split. intros k Hk. by rewrite lookup_insert_ne.
Qed.

(** A ping frame on a registered connection, the server reachable. *)
Lemma ping_step s (conn : sock) (connID : string) (now : Time)
    (message : string) l w (msg : ClientMessage) (sk : Socket) (c : Connection) :
  Unmarshal_ClientMessage message = Some msg →
  CType msg = msgTypePing →
  wsConn l = Some c →
  Redis.reachable (redis (brokers w)) = true →
  socks w !! conn = Some sk → closed sk = false →
  handleFrame s conn connID now message l w
  = (l,
     mkWorld (with_redis (brokers w)
                (presence.Refresh (redis (brokers w)) now (userID l)).2)
             (connMgr w)
             (<[addr c := now]> (pings w))
             (<[conn := mkSocket false
                  (written sk ++
                   [Marshal_ServerMessage
                      (mkServerMessage msgTypePong EmptyString EmptyString
                         EmptyString)])%list]> (socks w))
             (checkers w) (logs w)).
Proof.
  intros Hdec Hty Hc Hup Hs Hopen.
  unfold handleFrame. rewrite Hdec, Hty, Hc.
  change (String.eqb msgTypePing msgTypeRegister) with false.
  change (String.eqb msgTypePing msgTypePing) with true. cbv iota zeta.
  change (redis (brokers (set_pings w _))) with (redis (brokers w)).
  rewrite PresenceFacts.Refresh_unfold by done. cbn [snd].
  erewrite sendMessage_open; [| exact Hs | exact Hopen]. done.
Qed.

(** X17.  A ping frame on a registered connection whose user has a
    presence record: the last ping of the connection becomes the instant
    of the frame and no other connection's changes, the presence record
    keeps its gateway and connection with the timestamp and the time to
    live renewed, the registry is unchanged and the client is sent the
    frame "pong". *)
Theorem ping_refreshes s (conn : sock) (connID : string) (now : Time)
    (message : string) l w (msg : ClientMessage) (sk : Socket)
    (c : Connection) (i : presence.Info) :
  Unmarshal_ClientMessage message = Some msg →
  CType msg = msgTypePing →
  wsConn l = Some c →
  - 2 ^ 63 ≤ Unix now ≤ 2 ^ 63 - 1 →
  presence.Get (redis (brokers w)) (userID l) = inr i →
  socks w !! conn = Some sk → closed sk = false →
  ∃ w',
    handleFrame s conn connID now message l w = (l, w')
    ∧ GetLastPing (pings w') c = now
    ∧ (∀ c', addr c' ≠ addr c → GetLastPing (pings w') c' = GetLastPing (pings w) c')
    ∧ presence.Get (redis (brokers w')) (userID l)
      = inr (presence.mkInfo (userID l) (presence.GatewayID i)
               (presence.ConnID i) (Unix now))
    ∧ Redis.PTTL (redis (brokers w'))
        (presence.presenceKeyPrefix +:+ userID l) = Some 90000
    ∧ connMgr w' = connMgr w
    ∧ socks w' !! conn
      = Some (mkSocket false (written sk ++ [text "{'type':'pong'}"])%list).
Proof.
  intros Hdec Hty Hc Hrange HGet Hs Hopen.
  assert (Redis.reachable (redis (brokers w)) = true) as Hup.
  { unfold presence.Get in HGet. by destruct (Redis.reachable _). }
  destruct (Refresh_existing _ now _ _ Hrange HGet) as (r' & Href & HGet' & Httl).
  eexists. split; [by eapply ping_step|].
  cbn [connMgr pings socks checkers brokers redis with_redis].
  rewrite Href. cbn [snd]. unfold GetLastPing.
  rewrite lookup_total_insert_eq, lookup_insert_eq.
  repeat split; try done.
  intros c' Hne. by rewrite lookup_total_insert_ne.
Qed.

(** X18.  A connection that has pinged is not swept: after a ping
    frame handled at [now], a health check run no more than 90 seconds
    later keeps the connection registered (on a registry that satisfies
    the invariant), and a tick of its heartbeat checker does not close
    it. *)
Theorem ping_prevents_sweep s (conn : sock) (connID : string) (now now' : Time)
    (message : string) l w (msg : ClientMessage) (c : Connection) :
  Unmarshal_ClientMessage message = Some msg →
  CType msg = msgTypePing →
  wsConn l = Some c →
  consistent (connMgr w) →
  GetByUserID (connMgr w) (UserID c) = Some c →
  now' - now ≤ heartbeatTimeout →
  let w1 := (handleFrame s conn connID now message l w).2 in
  GetByUserID (connMgr (healthCheck now' w1)) (UserID c) = Some c
  ∧ heartbeatTick now' c w1 = (false, w1).
Proof.
  intros Hdec Hty Hc Hcm Hreg Hle w1.
  assert (connMgr w1 = connMgr w) as Hcm1.
  { subst w1. apply (handleFrame_unaccepted s conn connID now message l w).
    unfold accepted_register. rewrite Hdec, Hty. done. }
  assert (pings w1 = <[addr c := now]> (pings w)) as Hp1.
  { subst w1. unfold handleFrame. rewrite Hdec, Hty, Hc.
    change (String.eqb msgTypePing msgTypeRegister) with false.
    change (String.eqb msgTypePing msgTypePing) with true. cbv iota zeta.
    cbn [snd]. rewrite pings_sendMessage.
    by destruct (presence.Refresh _ _ _) as [[e|] r']. }
  assert (timed_out (pings w1) now' heartbeatTimeout c = false) as Hfresh.
  { unfold timed_out, GetLastPing. rewrite Hp1, lookup_total_insert_eq.
    apply Z.ltb_ge. unfold Sub, heartbeatTimeout, minDuration, maxDuration, Second in *.
    lia. }
  split.
  - unfold healthCheck, CheckHealth. rewrite remove_all_split.
    assert (∀ W : World,
              connMgr (if 0 <? 0 + Z.of_nat (length (toRemove (connMgr w1) (pings w1) now' heartbeatTimeout))
                       then log W ("[Server] Health check: removed "
                                   +:+ FormatInt (0 + Z.of_nat (length (toRemove (connMgr w1) (pings w1) now' heartbeatTimeout)))
                                   +:+ " stale connections")
                       else W) = connMgr W) as -> by (intros W; by case_match).
    cbn [connMgr set_connMgr]. unfold GetByUserID. rewrite fold_Remove_user.
    rewrite bool_decide_eq_false_2; [by rewrite Hcm1|].
    intros (c' & Hu & Hin)%list_elem_of_fmap.
    apply elem_of_toRemove in Hin as [[u Hlook] Hto].
    rewrite Hcm1 in Hlook. destruct Hcm as [Hkeys _].
    destruct (Hkeys _ _ Hlook) as [Hu' _].
    assert (c' = c) as -> by (unfold GetByUserID in Hreg; congruence).
    congruence.
  - unfold heartbeatTick. unfold timed_out in Hfresh. by rewrite Hfresh.
Qed.

End WithRouter.

Lemma only_register_changes_registry_witness :
  let s := mkServer "gateway-01" 8080 (mkRouter "gateway-01") in
  let w := mkWorld (mkBrokers (Redis.Server true 0 ∅ []) (sarama.Cluster true []))
                   NewConnectionManager ∅ {[ 1%nat := mkSocket false [] ]} [] [] in
  let lw := handleFrame s 1%nat "conn-001" 0 (text "{'type':'ping'}")
              (mkLocals EmptyString None) w in
  lw.1 = mkLocals EmptyString None ∧ connMgr lw.2 = connMgr w
  ∧ checkers lw.2 = checkers w.
Proof.
  intros s w.
  apply (only_register_changes_registry s 1%nat "conn-001" 0
           (text "{'type':'ping'}") (mkLocals EmptyString None) w).
  reflexivity.
Defined.

(** alice registers on a fresh gateway. *)
Lemma register_success_witness :
  let r := Redis.Server true 5000 ∅ [] in
  let w := mkWorld (mkBrokers r (sarama.Cluster true [])) NewConnectionManager
                   ∅ {[ 1%nat := mkSocket false [] ]} [] [] in
  let s := mkServer "gw1" 8080 (mkRouter "gw1") in
  let frame := text "{'type':'register','userId':'alice'}" in
  let c := mkConnection 0 "c1" "alice" 1%nat in
  ∃ w',
    handleFrame s 1%nat "c1" (100 * Second) frame (mkLocals EmptyString None) w
      = (mkLocals "alice" (Some c), w')
    ∧ GetByUserID (connMgr w') "alice" = Some c
    ∧ presence.Get (redis (brokers w')) "alice"
      = inr (presence.mkInfo "alice" "gw1" "c1" 100)
    ∧ checkers w' = [c].
Proof.
  intros r w s frame c.
  destruct (register_success s 1%nat "c1" (100 * Second) frame
              (mkLocals EmptyString None) w
              (mkClientMessage "register" EmptyString EmptyString "alice")
              (mkSocket false [])
              (presence.Register r (100 * Second) "alice" "gw1" "c1").2)
    as (w' & E & HU & _ & _ & HG & _ & _ & Hc).
  - reflexivity.
  - reflexivity.
  - discriminate.
  - vm_compute. split; discriminate.
  - reflexivity.
  - reflexivity.
  - reflexivity.
  - exists w'. split; [exact E|]. split; [exact HU|]. split; [exact HG | exact Hc].
Defined.

(** alice, registered at second 100, pings at second 130. *)
Lemma ping_refreshes_witness :
  let c := mkConnection 0 "c1" "alice" 1%nat in
  let r := (presence.Register (Redis.Server true 5000 ∅ []) (100 * Second)
              "alice" "gw1" "c1").2 in
  let w := mkWorld (mkBrokers r (sarama.Cluster true []))
                   (Add NewConnectionManager c)
                   {[ 0%nat := 100 * Second ]} {[ 1%nat := mkSocket false [] ]}
                   [c] [] in
  let s := mkServer "gw1" 8080 (mkRouter "gw1") in
  let frame := text "{'type':'ping'}" in
  ∃ w',
    handleFrame s 1%nat "c1" (130 * Second) frame (mkLocals "alice" (Some c)) w
      = (mkLocals "alice" (Some c), w')
    ∧ GetLastPing (pings w') c = 130 * Second
    ∧ presence.Get (redis (brokers w')) "alice"
      = inr (presence.mkInfo "alice" "gw1" "c1" 130).
Proof.
  intros c r w s frame.
  destruct (ping_refreshes s 1%nat "c1" (130 * Second) frame
              (mkLocals "alice" (Some c)) w
              (mkClientMessage "ping" EmptyString EmptyString EmptyString)
              (mkSocket false []) c
              (presence.mkInfo "alice" "gw1" "c1" 100))
    as (w' & E & HP & _ & HG & _).
  - reflexivity.
  - reflexivity.
  - reflexivity.
  - vm_compute. split; discriminate.
  - reflexivity.
  - reflexivity.
  - reflexivity.
  - exists w'. split; [exact E|]. split; [exact HP | exact HG].
Defined.

(** The same ping, and a sweep 90 seconds later. *)
Lemma ping_prevents_sweep_witness :
  let c := mkConnection 0 "c1" "alice" 1%nat in
  let r := Redis.Server true 5000 ∅ [] in
  let w := mkWorld (mkBrokers r (sarama.Cluster true []))
                   (Add NewConnectionManager c)
                   {[ 0%nat := 0 ]} {[ 1%nat := mkSocket false [] ]} [c] [] in
  let s := mkServer "gw1" 8080 (mkRouter "gw1") in
  let w1 := (handleFrame s 1%nat "c1" (130 * Second) (text "{'type':'ping'}")
               (mkLocals "alice" (Some c)) w).2 in
  GetByUserID (connMgr (healthCheck (220 * Second) w1)) "alice" = Some c
  ∧ heartbeatTick (220 * Second) c w1 = (false, w1).
Proof.
  intros c r w s.
  apply (ping_prevents_sweep s 1%nat "c1" (130 * Second) (220 * Second)
           (text "{'type':'ping'}") (mkLocals "alice" (Some c)) w
           (mkClientMessage "ping" EmptyString EmptyString EmptyString) c).
  - reflexivity.
  - reflexivity.
  - reflexivity.
  - apply consistent_Add; [apply consistent_empty | reflexivity].
  - reflexivity.
  - vm_compute. discriminate.
Defined.

End SessionFacts.

(* ===================================================================== *)
(** * The exit of the read loop *)
(* ===================================================================== *)

Module TeardownFacts.
Import Go gateway Properties Notions RegistryFacts HandlerFacts SessionFacts.

Lemma last_registering_snoc (frames : list (Time * string)) (f : Time * string) :
  last_registering (frames ++ [f])
  = match registering f.2 with
    | Some u => Some u
    | None => last_registering frames
    end.
Proof. unfold last_registering. by rewrite fold_left_app. Qed.

Lemma registering_None (message : string) :
  registering message = None → accepted_register message = false.
Proof.
  unfold registering, accepted_register.
  destruct (Unmarshal_ClientMessage message) as [msg|]; [|done].
  by destruct (_ && _).
Qed.

Section WithRouter.
Context {R : Type} `{!RouterInterface R}.
Implicit Types (s : Server R) (w : World) (l : locals).

Lemma readLoop_snoc s conn connID frames now message l w :
  readLoop s conn connID (frames ++ [(now, message)]) l w
  = handleFrame s conn connID now message
      (readLoop s conn connID frames l w).1 (readLoop s conn connID frames l w).2.
Proof.
  unfold readLoop. rewrite fold_left_app. cbn [fold_left].
  by destruct (fold_left _ frames (l, w)).
Qed.

(** A frame that takes the register branch with a user id: the locals
    and the registry after the iteration, whatever [Register] answers. *)
Lemma handleFrame_registering s conn connID now message l w u :
  registering message = Some u →
  let c := mkConnection (fresh (dom (pings w))) connID u conn in
  (handleFrame s conn connID now message l w).1 = mkLocals u (Some c)
  ∧ connMgr (handleFrame s conn connID now message l w).2 = Add (connMgr w) c.
Proof.
  unfold registering, handleFrame.
  destruct (Unmarshal_ClientMessage message) as [msg|]; [|done].
  destruct (String.eqb (CType msg) msgTypeRegister); [|done].
  destruct (String.eqb (CUserID msg) EmptyString); [done|].
  intros [= <-]. unfold NewConnection. cbv zeta.
  destruct (presence.Register _ _ _ _ _) as [[e|] r']; cbn [fst snd].
  - unfold sendError. by rewrite connMgr_sendMessage.
  - cbn [spawn_checker connMgr]. by rewrite connMgr_sendMessage.
Qed.

(** Before any registration, a frame that does not register leaves the
    brokers as they were. *)
Lemma handleFrame_unauth s conn connID now message w :
  registering message = None →
  brokers (handleFrame s conn connID now message (mkLocals EmptyString None) w).2
  = brokers w.
Proof.
  unfold registering, handleFrame, sendError.
  destruct (Unmarshal_ClientMessage message) as [msg|];
    [|intros _; cbn [snd]; by rewrite brokers_sendMessage].
  destruct (String.eqb (CType msg) msgTypeRegister).
  { destruct (String.eqb (CUserID msg) EmptyString); [|done].
    intros _. cbn [snd]. by rewrite brokers_sendMessage. }
  intros _. cbn [wsConn userID]. change (String.eqb EmptyString EmptyString) with true.
  destruct (String.eqb (CType msg) msgTypePing);
    [cbn [snd]; by rewrite brokers_sendMessage|].
  destruct (String.eqb (CType msg) msgTypeMessage);
    cbn [snd]; by rewrite brokers_sendMessage.
Qed.

(** The state in which the read loop exits. *)
Lemma readLoop_exit s conn connID frames w :
  let lw := readLoop s conn connID frames (mkLocals EmptyString None) w in
  match last_registering frames with
  | None =>
      lw.1 = mkLocals EmptyString None
      ∧ connMgr lw.2 = connMgr w ∧ brokers lw.2 = brokers w
  | Some u =>
      ∃ c, lw.1 = mkLocals u (Some c)
        ∧ UserID c = u ∧ ID c = connID ∧ Conn c = conn
        ∧ GetByUserID (connMgr lw.2) u = Some c
        ∧ GetByConnID (connMgr lw.2) connID = Some c
  end.
Proof.
  induction frames as [|[now message] frames IH] using rev_ind; [done|].
  cbv zeta in *. rewrite readLoop_snoc, last_registering_snoc. cbn [snd].
  set (lw := readLoop s conn connID frames (mkLocals EmptyString None) w) in *.
  destruct (registering message) as [u|] eqn:Hreg.
  - destruct (handleFrame_registering s conn connID now message lw.1 lw.2 u Hreg)
      as [Hl Hcm].
    eexists. split; [exact Hl|]. rewrite Hcm.
    unfold GetByUserID, GetByConnID. rewrite Add_lookup_user, Add_lookup_conn.
    cbn [UserID ID Conn]. by rewrite !decide_True.
  - destruct (handleFrame_unaccepted s conn connID now message lw.1 lw.2
                (registering_None _ Hreg)) as (Hl & Hcm & _).
    rewrite Hl, Hcm.
    destruct (last_registering frames) as [u|].
    + exact IH.
    + destruct IH as (Hl0 & Hcm0 & Hb0). split; [done|]. split; [done|].
      rewrite <- Hb0. rewrite (surjective_pairing lw) in *. cbn [fst snd] in *.
      rewrite Hl0. by apply handleFrame_unauth.
Qed.

Lemma socks_cleanup connID l w : socks (cleanup connID l w) = socks w.
Proof.
  unfold cleanup. destruct (wsConn l); [|done].
  by destruct (presence.Remove _ _) as [[e|] r].
Qed.

(** C7 (amended).  [handleConnection] ends with the cleanup and the
    deferred close of the socket, applied to the state in which the read
    loop exits.  When the frames read hold no register frame with a user
    id, the registry and the brokers (the presence directory among them)
    are as they were when the handler started, and teardown changes
    neither.  Otherwise, with [u] the user id of the last such frame,
    whether or not [Register] succeeded for it: at the exit of the loop
    the registry finds one connection of this socket under [u] and under
    the connection id; teardown is [Remove] of that connection on the
    registry, after which neither lookup finds it, and [Remove] of [u] on
    the presence directory, after which (the server being reachable) the
    lookup of [u] reports offline. *)
Theorem teardown_on_exit s (conn : sock) (connID : string)
    (frames : list (Time * string)) w :
  let lw := readLoop s conn connID frames (mkLocals EmptyString None) w in
  let w' := handleConnection s conn connID frames w in
  socks w' = CloseSocket (socks lw.2) conn
  ∧ (last_registering frames = None →
       connMgr w' = connMgr lw.2 ∧ brokers w' = brokers lw.2
       ∧ connMgr w' = connMgr w ∧ brokers w' = brokers w)
  ∧ (∀ u, last_registering frames = Some u →
       ∃ c, UserID c = u ∧ ID c = connID ∧ Conn c = conn
         ∧ GetByUserID (connMgr lw.2) u = Some c
         ∧ GetByConnID (connMgr lw.2) connID = Some c
         ∧ connMgr w' = Remove (connMgr lw.2) c
         ∧ GetByUserID (connMgr w') u = None
         ∧ GetByConnID (connMgr w') connID = None
         ∧ brokers w'
           = with_redis (brokers lw.2)
               (presence.Remove (redis (brokers lw.2)) u).2
         ∧ (Redis.reachable (redis (brokers lw.2)) = true →
            presence.Get (redis (brokers w')) u = inl (ErrOffline u))).
Proof.
  intros lw w'.
  assert (w' = set_socks (cleanup connID lw.1 lw.2)
                 (CloseSocket (socks (cleanup connID lw.1 lw.2)) conn)) as Hw'.
  { subst w' lw. unfold handleConnection. by destruct (readLoop _ _ _ _ _ _). }
  pose proof (readLoop_exit s conn connID frames w) as Hexit.
  cbv zeta in Hexit. fold lw in Hexit.
  split; [by rewrite Hw', socks_cleanup|]. split.
  - intros Hnone. rewrite Hnone in Hexit. destruct Hexit as (Hl & Hcm & Hb).
    rewrite Hw'. unfold cleanup. rewrite Hl. cbn [wsConn connMgr brokers set_socks].
    done.
  - intros u Hu. rewrite Hu in Hexit.
    destruct Hexit as (c & Hl & HU & HI & HC & HgU & HgC).
    exists c. do 5 (split; [done|]).
    rewrite Hw'. unfold cleanup. rewrite Hl. cbn [wsConn userID].
    change (redis (brokers (set_connMgr lw.2 _))) with (redis (brokers lw.2)).
    assert (GetByUserID (Remove (connMgr lw.2) c) u = None) as HrU.
    { unfold GetByUserID. rewrite Remove_lookup_user. by rewrite decide_True. }
    assert (GetByConnID (Remove (connMgr lw.2) c) connID = None) as HrC.
    { unfold GetByConnID. rewrite Remove_lookup_conn. by rewrite decide_True. }
    unfold presence.Remove.
    destruct (Redis.reachable (redis (brokers lw.2))) eqn:Hup;
      cbn [connMgr brokers set_socks set_redis set_brokers set_connMgr log snd redis with_redis].
    + do 4 (split; [done|]).
      intros _. unfold presence.Get. cbn [Redis.reachable Redis.DEL Redis.with_db].
      rewrite Hup. unfold Redis.HGETALL. by rewrite RedisFacts.get_DEL_eq.
    + by do 4 (split; [done|]).
Qed.

End WithRouter.

(** Two runs of a handler on socket 1.  In the first the client
    registers as alice and then as bob: after the handler has returned,
    alice is still in the registry and in the presence directory.  In the
    second the only register frame is rejected as stale, alice being
    recorded on another gateway with a newer timestamp: no registration
    has succeeded, yet after the handler has returned the record of the
    other gateway is gone. *)
Lemma teardown_counterexample :
  let s := mkServer "gw1" 8080 (mkRouter "gw1") in
  let socks0 : gmap sock Socket := {[ 1%nat := mkSocket false [] ]} in
  let w0 := mkWorld (mkBrokers (Redis.Server true 5000 ∅ []) (sarama.Cluster true []))
                    NewConnectionManager ∅ socks0 [] [] in
  let twice := [(100 * Second, text "{'type':'register','userId':'alice'}");
                (101 * Second, text "{'type':'register','userId':'bob'}")] in
  let w1 := handleConnection s 1%nat "c1" twice w0 in
  let r2 := Redis.Server true 5000
              {[ "presence:alice" :=
                   Redis.Entry {[ "gwId" := "gw2"; "connId" := "c9"; "ts" := "200" ]}
                               None ]} [] in
  let w2 := mkWorld (mkBrokers r2 (sarama.Cluster true []))
                    NewConnectionManager ∅ socks0 [] [] in
  let stale := [(100 * Second, text "{'type':'register','userId':'alice'}")] in
  let w3 := handleConnection s 1%nat "c1" stale w2 in
  (GetByUserID (connMgr w1) "alice" = Some (mkConnection 0 "c1" "alice" 1%nat)
   ∧ presence.Get (redis (brokers w1)) "alice"
     = inr (presence.mkInfo "alice" "gw1" "c1" 100))
  ∧ (presence.Register r2 (100 * Second) "alice" "gw1" "c1"
     = (Some (ErrStale "alice"), r2)
     ∧ presence.Get r2 "alice" = inr (presence.mkInfo "alice" "gw2" "c9" 200)
     ∧ presence.Get (redis (brokers w3)) "alice" = inl (ErrOffline "alice")).
Proof. vm_compute. repeat split. Qed.

(** alice registers and pings, then the read fails. *)
Lemma teardown_on_exit_witness :
  let s := mkServer "gw1" 8080 (mkRouter "gw1") in
  let w := mkWorld (mkBrokers (Redis.Server true 5000 ∅ []) (sarama.Cluster true []))
                   NewConnectionManager ∅ {[ 1%nat := mkSocket false [] ]} [] [] in
  let frames := [(100 * Second, text "{'type':'register','userId':'alice'}");
                 (130 * Second, text "{'type':'ping'}")] in
  let w' := handleConnection s 1%nat "c1" frames w in
  GetByUserID (connMgr w') "alice" = None
  ∧ GetByConnID (connMgr w') "c1" = None
  ∧ presence.Get (redis (brokers w')) "alice" = inl (ErrOffline "alice").
Proof.
  intros s w frames w'.
  destruct (teardown_on_exit s 1%nat "c1" frames w) as (_ & _ & H).
  destruct (H "alice") as (c & _ & _ & _ & _ & _ & _ & HU & HC & _ & HG);
    [reflexivity|].
  split; [exact HU|]. split; [exact HC|]. apply HG. reflexivity.
Defined.

End TeardownFacts.

(* ===================================================================== *)
(** * Routing between gateways *)
(* ===================================================================== *)

Module RoutingFacts.
Import Go gateway Properties RegistryFacts HandlerFacts lifecycle.
Import utf8 FrameFacts SessionFacts.

(** ** Sending *)

Lemma routeMessage_Redis (s : Server Router) now from to content w i :
  presence.Get (redis (brokers w)) to = inr i →
  routeMessage s now from to content w
  = (None,
     set_redis w (Redis.PUBLISH (redis (brokers w))
                    (getGatewayChannel (presence.GatewayID i))
                    (Marshal (mkMessage from to content "direct")))).
Proof.
  intros HGet. unfold routeMessage. rewrite HGet.
  assert (Redis.reachable (redis (brokers w)) = true) as Hup.
  { unfold presence.Get in HGet. by destruct (Redis.reachable _). }
  cbn [RouteToGateway Router_is_RouterInterface].
  unfold Router_RouteToGateway, Publish. by rewrite Hup.
Qed.

(** A message frame on a gateway of the Redis router, the recipient
    having a presence record: the state in which the iteration ends. *)
Lemma message_step_Redis (s : Server Router) (conn : sock)
    (connID : string) (now : Time) (message : string) l w
    (msg : ClientMessage) (i : presence.Info) :
  Unmarshal_ClientMessage message = Some msg →
  CType msg = msgTypeMessage →
  userID l ≠ EmptyString → CTo msg ≠ EmptyString →
  presence.Get (redis (brokers w)) (CTo msg) = inr i →
  handleFrame s conn connID now message l w
  = (l, log (set_redis w
               (Redis.PUBLISH (redis (brokers w))
                  (getGatewayChannel (presence.GatewayID i))
                  (Marshal (mkMessage (userID l) (CTo msg) (CContent msg) "direct"))))
            ("[Handler] Message routed: " +:+ userID l +:+ " -> " +:+ CTo msg)).
Proof.
  intros Hdec Hty Hu Hto HGet.
  unfold handleFrame. rewrite Hdec, Hty.
  change (String.eqb msgTypeMessage msgTypeRegister) with false.
  change (String.eqb msgTypeMessage msgTypePing) with false.
  change (String.eqb msgTypeMessage msgTypeMessage) with true. cbv iota.
  rewrite !eqb_empty_false by done.
  by rewrite (routeMessage_Redis s now _ _ _ w i HGet).
Qed.

(** X19.  On a gateway of the Redis router, a message frame from a
    registered user to a recipient who has a presence record publishes
    one message, on the channel of the gateway named in the record, that
    holds the routed message (sender, recipient, content, type "direct");
    the keys of the Redis server, the Kafka cluster, the sockets and the
    registry are unchanged: the sender is sent no frame. *)
Theorem message_routed_redis (s : Server Router) (conn : sock)
    (connID : string) (now : Time) (message : string) l w
    (msg : ClientMessage) (i : presence.Info) :
  Unmarshal_ClientMessage message = Some msg →
  CType msg = msgTypeMessage →
  userID l ≠ EmptyString → CTo msg ≠ EmptyString →
  presence.Get (redis (brokers w)) (CTo msg) = inr i →
  ∃ w',
    handleFrame s conn connID now message l w = (l, w')
    ∧ Redis.published (redis (brokers w'))
      = (Redis.published (redis (brokers w)) ++
         [(getGatewayChannel (presence.GatewayID i),
           Marshal (mkMessage (userID l) (CTo msg) (CContent msg) "direct"))])%list
    ∧ Redis.db (redis (brokers w')) = Redis.db (redis (brokers w))
    ∧ kafka (brokers w') = kafka (brokers w)
    ∧ socks w' = socks w
    ∧ connMgr w' = connMgr w.
Proof.
  intros Hdec Hty Hu Hto HGet.
  rewrite (message_step_Redis s conn connID now message l w msg i) by done.
  eexists. split; [reflexivity|]. done.
Qed.

Lemma routeMessage_Kafka (s : Server KafkaRouter) now from to content w i :
  presence.Get (redis (brokers w)) to = inr i →
  routeMessage s now from to content w
  = let record :=
      sarama.mkProducerMessage (getGatewayTopic (presence.GatewayID i)) to
        (Marshal (mkMessage from to content "direct"))
        [sarama.mkHeader "from_gateway" (kgatewayID (router s));
         sarama.mkHeader "timestamp" (FormatInt (Unix now))] in
    if sarama.up (kafka (brokers w))
    then (None,
          set_brokers w
            (mkBrokers (redis (brokers w))
               (sarama.Cluster true (sarama.records (kafka (brokers w)) ++ [record]))))
    else (Some (ErrIO "send message to Kafka"), w).
Proof.
  intros HGet. unfold routeMessage. rewrite HGet.
  cbn [RouteToGateway KafkaRouter_is_RouterInterface].
  unfold KafkaRouter_RouteToGateway, produce, sarama.SendMessage.
  cbn [To]. destruct (sarama.up (kafka (brokers w))) eqn:Hup; [|by destruct w].
  done.
Qed.

(** X20.  On a gateway of the Kafka router, a message frame from a
    registered user to a recipient who has a presence record leaves the
    Redis server and the registry unchanged.  When the cluster accepts
    the record, one record is produced on the topic of the gateway named
    in the presence record, keyed by the recipient, with the headers
    [from_gateway] and [timestamp], and no frame is sent; when the send
    fails nothing is produced and the sender is sent the error frame
    "Failed to send message". *)
Theorem message_routed_kafka (s : Server KafkaRouter) (conn : sock)
    (connID : string) (now : Time) (message : string) l w
    (msg : ClientMessage) (i : presence.Info) (sk : Socket) :
  Unmarshal_ClientMessage message = Some msg →
  CType msg = msgTypeMessage →
  userID l ≠ EmptyString → CTo msg ≠ EmptyString →
  presence.Get (redis (brokers w)) (CTo msg) = inr i →
  socks w !! conn = Some sk → closed sk = false →
  let record :=
    sarama.mkProducerMessage (getGatewayTopic (presence.GatewayID i)) (CTo msg)
      (Marshal (mkMessage (userID l) (CTo msg) (CContent msg) "direct"))
      [sarama.mkHeader "from_gateway" (kgatewayID (router s));
       sarama.mkHeader "timestamp" (FormatInt (Unix now))] in
  ∃ w',
    handleFrame s conn connID now message l w = (l, w')
    ∧ redis (brokers w') = redis (brokers w)
    ∧ connMgr w' = connMgr w
    ∧ (sarama.up (kafka (brokers w)) = true →
         sarama.records (kafka (brokers w'))
         = (sarama.records (kafka (brokers w)) ++ [record])%list
         ∧ socks w' = socks w)
    ∧ (sarama.up (kafka (brokers w)) = false →
         kafka (brokers w') = kafka (brokers w)
         ∧ socks w' !! conn
           = Some (mkSocket false
                     (written sk ++
                      [text "{'type':'error','error':'Failed to send message'}"])%list)).
Proof.
  intros Hdec Hty Hu Hto HGet Hs Hopen record.
  unfold handleFrame. rewrite Hdec, Hty.
  change (String.eqb msgTypeMessage msgTypeRegister) with false.
  change (String.eqb msgTypeMessage msgTypePing) with false.
  change (String.eqb msgTypeMessage msgTypeMessage) with true. cbv iota.
  rewrite !eqb_empty_false by done.
  rewrite (routeMessage_Kafka s now _ _ _ w i HGet). cbv zeta.
  destruct (sarama.up (kafka (brokers w))) eqn:Hup.
  - eexists. split; [reflexivity|]. repeat split; done.
  - unfold sendError. erewrite sendMessage_open; [| exact Hs | exact Hopen].
    eexists. split; [reflexivity|]. repeat split; try done.
    cbn. by rewrite lookup_insert_eq.
Qed.

(** alice, on gateway gw1, writes to bob, whose record names gw2. *)
Lemma message_routed_redis_witness :
  let r := (presence.Register (Redis.Server true 5000 ∅ []) (100 * Second)
              "bob" "gw2" "c2").2 in
  let c := mkConnection 0 "c1" "alice" 1%nat in
  let w := mkWorld (mkBrokers r (sarama.Cluster true []))
                   (Add NewConnectionManager c)
                   {[ 0%nat := 0 ]} {[ 1%nat := mkSocket false [] ]} [c] [] in
  let frame := text "{'type':'message','to':'bob','content':'hi'}" in
  ∃ w',
    handleFrame (NewServer "gw1" 8080) 1%nat "c1" (130 * Second) frame
      (mkLocals "alice" (Some c)) w = (mkLocals "alice" (Some c), w')
    ∧ Redis.published (redis (brokers w'))
      = [("gateway:gw2", text "{'from':'alice','to':'bob','content':'hi','type':'direct'}")]
    ∧ socks w' = socks w.
Proof.
  intros r c w frame.
  destruct (message_routed_redis (NewServer "gw1" 8080) 1%nat "c1" (130 * Second)
              frame (mkLocals "alice" (Some c)) w
              (mkClientMessage "message" "bob" "hi" EmptyString)
              (presence.mkInfo "bob" "gw2" "c2" 100))
    as (w' & E & HP & _ & _ & Hs & _).
  - reflexivity.
  - reflexivity.
  - discriminate.
  - discriminate.
  - reflexivity.
  - exists w'. split; [exact E|]. split; [exact HP | exact Hs].
Defined.

(** The same frame on a gateway that routes through Kafka. *)
Lemma message_routed_kafka_witness :
  let r := (presence.Register (Redis.Server true 5000 ∅ []) (100 * Second)
              "bob" "gw2" "c2").2 in
  let c := mkConnection 0 "c1" "alice" 1%nat in
  let w := mkWorld (mkBrokers r (sarama.Cluster true []))
                   (Add NewConnectionManager c)
                   {[ 0%nat := 0 ]} {[ 1%nat := mkSocket false [] ]} [c] [] in
  let frame := text "{'type':'message','to':'bob','content':'hi'}" in
  ∃ w',
    handleFrame (mkServer "gw1" 8080 (mkKafkaRouter "gw1" ["localhost:9092"]))
      1%nat "c1" (130 * Second) frame (mkLocals "alice" (Some c)) w
    = (mkLocals "alice" (Some c), w')
    ∧ sarama.records (kafka (brokers w'))
      = [sarama.mkProducerMessage "gateway-gw2" "bob"
           (text "{'from':'alice','to':'bob','content':'hi','type':'direct'}")
           [sarama.mkHeader "from_gateway" "gw1";
            sarama.mkHeader "timestamp" "130"]].
Proof.
  intros r c w frame.
  destruct (message_routed_kafka
              (mkServer "gw1" 8080 (mkKafkaRouter "gw1" ["localhost:9092"]))
              1%nat "c1" (130 * Second)
              frame (mkLocals "alice" (Some c)) w
              (mkClientMessage "message" "bob" "hi" EmptyString)
              (presence.mkInfo "bob" "gw2" "c2" 100) (mkSocket false []))
    as (w' & E & _ & _ & Hup & _).
  - reflexivity.
  - reflexivity.
  - discriminate.
  - discriminate.
  - reflexivity.
  - reflexivity.
  - reflexivity.
  - exists w'. split; [exact E|]. by destruct Hup as [-> _].
Defined.

(** ** Receiving *)

Lemma processMessage_Marshal {S : Type} (f : MessageHandler S) (m : Message) (st : S) :
  ValidString (From m) = true → ValidString (To m) = true →
  ValidString (Content m) = true → ValidString (Type_ m) = true →
  processMessage (Some f) (Marshal m) st = f m st.
Proof.
  intros. unfold processMessage. by rewrite Unmarshal_Marshal_Message.
Qed.

(** [deliverMessage] to a recipient attached here through an open socket. *)
Lemma deliverMessage_open (m : Message) w c sk :
  GetByUserID (connMgr w) (To m) = Some c →
  socks w !! Conn c = Some sk → closed sk = false →
  deliverMessage m w
  = mkWorld (brokers w) (connMgr w) (pings w)
      (<[Conn c := mkSocket false
           (written sk ++
            [Marshal_ServerMessage
               (mkServerMessage msgTypeMessage (From m) (Content m) EmptyString)])%list]>
         (socks w))
      (checkers w)
      (logs w ++ ["[Handler] Message delivered to " +:+ To m])%list.
Proof.
  intros Hc Hs Hopen. unfold deliverMessage. rewrite Hc.
  erewrite sendMessage_open; [| exact Hs | exact Hopen]. done.
Qed.



(** ** Who receives what *)








(** ** The consumer loops *)

(** X24.  [processMessages] calls the handler once for each payload
    that decodes, in arrival order, with the decoded message; payloads
    that do not decode are skipped, and without a handler the state is
    unchanged. *)
Theorem processMessages_in_order {S : Type} (f : MessageHandler S)
    (payloads : list string) (st : S) :
  processMessages (Some f) payloads st
  = fold_left (λ st m, f m st) (omap Unmarshal payloads) st
  ∧ processMessages None payloads st = st.
Proof.
  unfold processMessages. split.
  - revert st. induction payloads as [|p ps IH]; intros st; [done|].
    cbn [fold_left omap list_omap]. rewrite IH. unfold processMessage.
    by destruct (Unmarshal p).
  - revert st. induction payloads as [|p ps IH]; intros st; [done|].
    cbn [fold_left].
    assert (processMessage (S := S) None p st = st) as ->
      by (unfold processMessage; by destruct (Unmarshal p)).
    apply IH.
Qed.

Lemma ConsumeClaim_cons {S : Type} (h : kafkaConsumerHandler S) msg msgs st :
  ConsumeClaim h (msg :: msgs) st = ConsumeClaim h msgs (consume h msg st).
Proof. reflexivity. Qed.

Lemma check_headers_marks gw msg headers ss :
  ∃ k, check_headers gw msg headers ss = (ss ++ replicate k msg)%list.
Proof.
  revert ss. induction headers as [|h hs IH]; intros ss.
  - exists 0%nat. by rewrite app_nil_r.
  - cbn [check_headers]. destruct (_ && _).
    + destruct (IH (MarkMessage ss msg)) as [k ->]. exists (S k).
      unfold MarkMessage. by rewrite <- app_assoc.
    + apply IH.
Qed.

(** X25.  [ConsumeClaim] calls the handler once for each message of
    the claim whose value decodes, in order, whatever its headers; the
    marks it adds to the session are messages of the claim, every message
    of the claim is marked, and a claim of messages that do not decode is
    marked message by message, once each. *)
Theorem ConsumeClaim_marks_and_delivers {S : Type} (f : MessageHandler S)
    (r : KafkaRouter) (msgs : list sarama.ConsumerMessage) (ss : session) (st : S) :
  let out := ConsumeClaim (mkConsumerHandler (Some f) r) msgs (ss, st) in
  out.2 = fold_left (λ st m, f m st) (omap (Unmarshal ∘ sarama.Value) msgs) st
  ∧ ∃ marks, out.1 = (ss ++ marks)%list
      ∧ (∀ msg, msg ∈ marks ↔ msg ∈ msgs)
      ∧ (Forall (λ msg, Unmarshal (sarama.Value msg) = None) msgs → marks = msgs).
Proof.
  revert ss st. induction msgs as [|msg msgs IH]; intros ss st.
  - cbn. split; [done|]. exists []. rewrite app_nil_r. repeat split; done.
  - cbv zeta in *. rewrite ConsumeClaim_cons.
    cbn [omap list_omap compose]. unfold consume. cbn [handler krouter].
    destruct (Unmarshal (sarama.Value msg)) as [m|] eqn:Hm.
    + destruct (check_headers_marks (kgatewayID r) msg (sarama.Headers msg) ss)
        as [k ->].
      destruct (IH (MarkMessage (ss ++ replicate k msg)%list msg) (f m st))
        as (Hst & marks & Hmarks & Hin & _).
      split; [exact Hst|].
      exists (replicate k msg ++ msg :: marks)%list.
      split; [|split].
      * rewrite Hmarks. unfold MarkMessage. by rewrite <- !app_assoc.
      * intros x. rewrite elem_of_app, !elem_of_cons, <- Hin.
        rewrite elem_of_replicate. naive_solver.
      * intros Hall. apply Forall_cons in Hall as [Hnone _]. congruence.
    + destruct (IH (MarkMessage ss msg) st) as (Hst & marks & Hmarks & Hin & Hall).
      split; [exact Hst|].
      exists (msg :: marks). split; [|split].
      * rewrite Hmarks. unfold MarkMessage. by rewrite <- app_assoc.
      * intros x. rewrite !elem_of_cons, <- Hin. done.
      * intros Hnone. apply Forall_cons in Hnone as [_ Hnone].
        by rewrite (Hall Hnone).
Qed.

(** ** Shutdown *)

(** X26.  The loop of [Stop] closes the socket of every connection
    in the index by user and leaves every other socket as it was; the
    registry and the brokers (the presence records among them) are
    unchanged. *)
Theorem Stop_closes_registered_sockets (w : World) :
  let w' := Stop_connections w in
  (∀ u c, GetByUserID (connMgr w) u = Some c →
          socks w' !! Conn c = close_state <$> socks w !! Conn c)
  ∧ (∀ k, (∀ u c, GetByUserID (connMgr w) u = Some c → Conn c ≠ k) →
          socks w' !! k = socks w !! k)
  ∧ connMgr w' = connMgr w
  ∧ brokers w' = brokers w.
Proof.
  cbv zeta. unfold Stop_connections, ForEach. cbn [socks connMgr brokers set_socks].
  split; [|split; [|done]].
  - intros u c Hc. rewrite fold_Close_lookup.
    rewrite bool_decide_eq_true_2; [done|].
    apply list_elem_of_fmap. exists c. split; [done|].
    apply elem_of_Range. by exists u.
  - intros k Hk. rewrite fold_Close_lookup.
    rewrite bool_decide_eq_false_2; [done|].
    intros (c & -> & [u Hu]%elem_of_Range)%list_elem_of_fmap.
    by apply (Hk u c).
Qed.

End RoutingFacts.

(* ===================================================================== *)
(** * Two gateways, two clients *)
(* ===================================================================== *)

Module ScenarioFacts.
Import Go gateway testclient Properties RegistryFacts HandlerFacts lifecycle.
Import utf8 Notions RedisFacts PresenceFacts PresenceLifecycle FrameFacts SessionFacts RoutingFacts.

Lemma published_registered r now u gw conn :
  Redis.published (registered r now u gw conn) = Redis.published r.
Proof.
  unfold registered, Redis.EXPIRE, Redis.HSET.
  repeat (case_match; cbn [Redis.published Redis.with_db]); done.
Qed.

(** [Register] for a user that has no live record. *)
Lemma Register_absent r now u gw conn :
  Redis.reachable r = true →
  Redis.get r (presence.presenceKeyPrefix +:+ u) = None →
  presence.Register r now u gw conn = (None, registered r now u gw conn).
Proof.
  intros Hup Hget. rewrite Register_unfold by done. cbv zeta.
  unfold Redis.HGET. by rewrite Hget.
Qed.

Lemma get_registered_other r now u gw conn u' :
  u' ≠ u →
  Redis.get (registered r now u gw conn) (presence.presenceKeyPrefix +:+ u')
  = Redis.get r (presence.presenceKeyPrefix +:+ u').
Proof.
  intros Hne. apply key_ne in Hne.
  destruct (registered_frame r now u gw conn) as (_ & Hclock & Hdb).
  unfold Redis.get, Redis.live. by rewrite Hdb, Hclock.
Qed.

(** The gateway a registered user is found on. *)
Lemma Get_registered_gateway r now u gw conn :
  Redis.reachable r = true →
  ∃ ts, presence.Get (registered r now u gw conn) u
        = inr (presence.mkInfo u gw conn ts).
Proof.
  intros Hup. unfold presence.Get, Redis.HGETALL.
  destruct (registered_frame r now u gw conn) as (-> & _ & _). rewrite Hup.
  rewrite get_registered. cbn [Redis.fields].
  rewrite bool_decide_eq_false_2 by apply size_insert_ne0.
  rewrite lookup_insert_eq.
  rewrite lookup_insert_ne, lookup_insert_ne, lookup_insert_eq by done.
  rewrite lookup_insert_ne, lookup_insert_eq by done. eauto.
Qed.

(** X27.  The run of the messaging test.  On a reachable Redis server
    where neither user has a record, alice registers on one gateway, bob
    on another (both on the Redis router, sharing the server), and alice
    sends bob a message, all in frames written by the client.  Then one
    payload is published on the channel of bob's gateway and pushed to
    it; processing it there appends to bob's socket, after the frame
    "registered", a frame that the client reads as a message from alice
    with the content; alice's socket holds the frame "registered"
    only. *)
Theorem cross_gateway_delivery (alice bob content gwA gwB idA idB : string)
    (connA connB : sock) (t1 t2 t3 : Time) (wA wB : World) (skA skB : Socket) :
  ValidString alice = true → ValidString bob = true →
  ValidString content = true →
  alice ≠ EmptyString → bob ≠ EmptyString → alice ≠ bob →
  Redis.reachable (redis (brokers wA)) = true →
  Redis.get (redis (brokers wA)) (presence.presenceKeyPrefix +:+ alice) = None →
  Redis.get (redis (brokers wA)) (presence.presenceKeyPrefix +:+ bob) = None →
  socks wA !! connA = Some skA → closed skA = false →
  socks wB !! connB = Some skB → closed skB = false →
  let sA := NewServer gwA 8080 in
  let sB := NewServer gwB 8081 in
  let l0 := mkLocals EmptyString None in
  let registerMsg u := mkClientMessage "register" EmptyString EmptyString u in
  let msg := mkClientMessage "message" bob content EmptyString in
  ∃ lA wA1 lB wB1 wA2 payload f1 f2,
    handleFrame sA connA idA t1 (WriteJSON (registerMsg alice)) l0 wA = (lA, wA1)
    ∧ handleFrame sB connB idB t2 (WriteJSON (registerMsg bob)) l0
        (set_redis wB (redis (brokers wA1))) = (lB, wB1)
    ∧ handleFrame sA connA idA t3 (WriteJSON msg) lA
        (set_redis wA1 (redis (brokers wB1))) = (lA, wA2)
    ∧ Redis.published (redis (brokers wA2))
      = (Redis.published (redis (brokers wA)) ++
         [(getGatewayChannel gwB, payload)])%list
    ∧ pushed (Router_Start (router sB)) [(getGatewayChannel gwB, payload)]
      = [payload]
    ∧ socks (processMessages (Some deliverMessage) [payload] wB1) !! connB
      = Some (mkSocket false (written skB ++ [f1; f2])%list)
    ∧ socks wA2 !! connA = Some (mkSocket false (written skA ++ [f1])%list)
    ∧ ReadJSON f1
      = Some (mkServerMessage "registered" EmptyString
                "Successfully registered" EmptyString)
    ∧ ReadJSON f2 = Some (mkServerMessage "message" alice content EmptyString).
Proof.
  intros Ha Hb Hc HaE HbE Hab Hup HgetA HgetB HsA HoA HsB HoB sA sB l0 registerMsg msg.
  set (r0 := redis (brokers wA)) in *.
  set (rA := registered r0 t1 alice gwA idA).
  set (rB := registered rA t2 bob gwB idB).
  assert (Redis.reachable rA = true) as HupA.
  { subst rA. destruct (registered_frame r0 t1 alice gwA idA) as (-> & _). done. }
  assert (Redis.reachable rB = true) as HupB.
  { subst rB. destruct (registered_frame rA t2 bob gwB idB) as (-> & _). done. }
  (* alice registers on A *)
  pose proof (register_ok_step sA connA idA t1 (WriteJSON (registerMsg alice)) l0 wA
                (registerMsg alice) skA rA
                (Unmarshal_WriteJSON (registerMsg alice) eq_refl eq_refl eq_refl Ha)
                eq_refl HaE (Register_absent r0 t1 alice gwA idA Hup HgetA) HsA HoA)
    as Hstep1.
  cbv zeta in Hstep1. cbn [CUserID registerMsg] in Hstep1.
  set (cA := mkConnection (fresh (dom (pings wA))) idA alice connA) in *.
  set (f1 := Marshal_ServerMessage
               (mkServerMessage "registered" EmptyString
                  "Successfully registered" EmptyString)) in *.
  match type of Hstep1 with _ = (?l, ?w) => set (lA := l) in *; set (wA1 := w) in * end.
  (* bob registers on B *)
  assert (presence.Register rA t2 bob gwB idB = (None, rB)) as HregB.
  { apply Register_absent; [done|]. subst rA.
    by rewrite get_registered_other by done. }
  pose proof (register_ok_step sB connB idB t2 (WriteJSON (registerMsg bob)) l0
                (set_redis wB (redis (brokers wA1)))
                (registerMsg bob) skB rB
                (Unmarshal_WriteJSON (registerMsg bob) eq_refl eq_refl eq_refl Hb)
                eq_refl HbE HregB HsB HoB)
    as Hstep2.
  cbv zeta in Hstep2. cbn [CUserID registerMsg] in Hstep2.
  change (pings (set_redis wB (redis (brokers wA1)))) with (pings wB) in Hstep2.
  set (cB := mkConnection (fresh (dom (pings wB))) idB bob connB) in *.
  match type of Hstep2 with _ = (?l, ?w) => set (lB := l) in *; set (wB1 := w) in * end.
  (* alice writes to bob *)
  destruct (Get_registered_gateway rA t2 bob gwB idB HupA) as [ts HGet].
  fold rB in HGet.
  pose proof (message_step_Redis sA connA idA t3 (WriteJSON msg) lA
                (set_redis wA1 (redis (brokers wB1))) msg
                (presence.mkInfo bob gwB idB ts)
                (Unmarshal_WriteJSON msg eq_refl Hb Hc eq_refl)
                eq_refl HaE HbE HGet)
    as Hstep3.
  cbn [presence.GatewayID CTo CContent msg userID lA] in Hstep3.
  match type of Hstep3 with _ = (_, ?w) => set (wA2 := w) in * end.
  set (m := mkMessage alice bob content "direct") in *.
  exists lA, wA1, lB, wB1, wA2, (Marshal m), f1.
  exists (Marshal_ServerMessage (mkServerMessage msgTypeMessage alice content EmptyString)).
  split; [exact Hstep1|]. split; [exact Hstep2|]. split; [exact Hstep3|].
  split; [|split; [|split; [|split; [|split]]]].
  - subst wA2 wB1 rB rA. cbn. by rewrite !published_registered.
  - unfold pushed, Router_Start. rewrite filter_cons, filter_nil. cbn [fst].
    by rewrite decide_True.
  - unfold processMessages, processMessage. cbn [fold_left].
    rewrite Unmarshal_Marshal_Message by done.
    rewrite (deliverMessage_open m wB1 cB (mkSocket false (written skB ++ [f1])%list)).
    + cbn [socks Conn cB]. rewrite lookup_insert_eq. cbn [written].
      by rewrite <- app_assoc.
    + subst wB1. cbn [connMgr To m]. unfold GetByUserID.
      rewrite Add_lookup_user. by rewrite decide_True.
    + subst wB1. cbn [socks Conn cB]. by rewrite lookup_insert_eq.
    + done.
  - subst wA2 wA1. cbn. by rewrite lookup_insert_eq.
  - by apply ReadJSON_Marshal.
  - by apply ReadJSON_Marshal.
Qed.

(** The run of test-messaging.go: alice on gateway-01, bob on gateway-02. *)
Lemma cross_gateway_delivery_witness :
  let w := mkWorld (mkBrokers (Redis.Server true 5000 ∅ []) (sarama.Cluster true []))
                   NewConnectionManager ∅ {[ 1%nat := mkSocket false [] ]} [] [] in
  let sA := NewServer "gateway-01" 8080 in
  let sB := NewServer "gateway-02" 8081 in
  let l0 := mkLocals EmptyString None in
  let registerMsg u := mkClientMessage "register" EmptyString EmptyString u in
  let msg := mkClientMessage "message" "bob" "Hello from Gateway-01!" EmptyString in
  ∃ lA wA1 lB wB1 wA2 payload f1 f2,
    handleFrame sA 1%nat "conn-a" (100 * Second) (WriteJSON (registerMsg "alice")) l0 w
      = (lA, wA1)
    ∧ handleFrame sB 1%nat "conn-b" (101 * Second) (WriteJSON (registerMsg "bob")) l0
        (set_redis w (redis (brokers wA1))) = (lB, wB1)
    ∧ handleFrame sA 1%nat "conn-a" (102 * Second) (WriteJSON msg) lA
        (set_redis wA1 (redis (brokers wB1))) = (lA, wA2)
    ∧ socks (processMessages (Some deliverMessage) [payload] wB1) !! 1%nat
      = Some (mkSocket false [f1; f2])
    ∧ ReadJSON f2
      = Some (mkServerMessage "message" "alice" "Hello from Gateway-01!" EmptyString).
Proof.
  intros w sA sB l0 registerMsg msg.
  destruct (cross_gateway_delivery "alice" "bob" "Hello from Gateway-01!"
              "gateway-01" "gateway-02" "conn-a" "conn-b" 1%nat 1%nat
              (100 * Second) (101 * Second) (102 * Second) w w
              (mkSocket false []) (mkSocket false []))
    as (lA & wA1 & lB & wB1 & wA2 & payload & f1 & f2
        & H1 & H2 & H3 & _ & _ & H6 & _ & _ & H9).
  - reflexivity.
  - reflexivity.
  - reflexivity.
  - discriminate.
  - discriminate.
  - discriminate.
  - reflexivity.
  - reflexivity.
  - reflexivity.
  - reflexivity.
  - reflexivity.
  - reflexivity.
  - reflexivity.
  - exists lA, wA1, lB, wB1, wA2, payload, f1, f2. auto.
Defined.

End ScenarioFacts.

(* ===================================================================== *)
(** * The handler while Redis is unreachable *)
(* ===================================================================== *)

Module OutageFacts.
Import Go gateway Properties RegistryFacts HandlerFacts SessionFacts.

Section WithRouter.
Context {R : Type} `{!RouterInterface R}.
Implicit Types (s : Server R) (w : World) (l : locals).

(** X28.  While the Redis server cannot be reached no frame changes the
    brokers, whatever the router.  A ping on a registered connection
    still moves its last ping and is answered with "pong", the failed
    refresh being logged; a message frame from a registered user is
    answered with the error frame "Failed to send message". *)
Theorem redis_outage_degrades s (conn : sock) (connID : string) (now : Time)
    (message : string) l w :
  Redis.reachable (redis (brokers w)) = false →
  let w' := (handleFrame s conn connID now message l w).2 in
  brokers w' = brokers w
  ∧ (∀ msg c sk,
       Unmarshal_ClientMessage message = Some msg → CType msg = msgTypePing →
       wsConn l = Some c → socks w !! conn = Some sk → closed sk = false →
       GetLastPing (pings w') c = now
       ∧ socks w' !! conn
         = Some (mkSocket false (written sk ++ [text "{'type':'pong'}"])%list)
       ∧ logs w' = (logs w ++ ["[Handler] Failed to refresh presence: "
                               +:+ "failed to refresh presence"])%list)
  ∧ (∀ msg sk,
       Unmarshal_ClientMessage message = Some msg → CType msg = msgTypeMessage →
       userID l ≠ EmptyString → CTo msg ≠ EmptyString →
       socks w !! conn = Some sk → closed sk = false →
       socks w' !! conn
       = Some (mkSocket false
                 (written sk ++
                  [text "{'type':'error','error':'Failed to send message'}"])%list)).
Proof.
  intros Hdown w'. subst w'.
  assert (with_redis (brokers w) (redis (brokers w)) = brokers w) as Hsame
    by (by destruct (brokers w)).
  split; [|split].
  - unfold handleFrame, sendError.
    destruct (Unmarshal_ClientMessage message) as [msg|];
      [|cbn [snd]; by rewrite brokers_sendMessage].
    destruct (String.eqb (CType msg) msgTypeRegister).
    { destruct (String.eqb (CUserID msg) EmptyString);
        [cbn [snd]; by rewrite brokers_sendMessage|].
      unfold NewConnection. cbv zeta.
      change (redis (brokers (set_connMgr (set_pings w _) _))) with (redis (brokers w)).
      unfold presence.Register, presence.Eval. rewrite Hdown.
      cbn [snd]. rewrite brokers_sendMessage. cbn. exact Hsame. }
    destruct (String.eqb (CType msg) msgTypePing).
    { cbn [snd]. rewrite brokers_sendMessage.
      destruct (wsConn l) as [c|]; [|done]. cbv zeta.
      change (redis (brokers (set_pings w _))) with (redis (brokers w)).
      unfold presence.Refresh. rewrite Hdown. cbn. exact Hsame. }
    destruct (String.eqb (CType msg) msgTypeMessage);
      [|cbn [snd]; by rewrite brokers_sendMessage].
    destruct (String.eqb (userID l) EmptyString);
      [cbn [snd]; by rewrite brokers_sendMessage|].
    destruct (String.eqb (CTo msg) EmptyString);
      [cbn [snd]; by rewrite brokers_sendMessage|].
    unfold routeMessage, presence.Get. rewrite Hdown.
    cbn [snd]. by rewrite brokers_sendMessage.
  - intros msg c sk Hdec Hty Hc Hs Hopen.
    unfold handleFrame. rewrite Hdec, Hty, Hc.
    change (String.eqb msgTypePing msgTypeRegister) with false.
    change (String.eqb msgTypePing msgTypePing) with true. cbv iota zeta.
    change (redis (brokers (set_pings w _))) with (redis (brokers w)).
    unfold presence.Refresh. rewrite Hdown. cbn [snd].
    erewrite sendMessage_open; [| exact Hs | exact Hopen].
    cbn [pings socks logs set_socks log set_redis set_brokers set_pings].
    unfold GetLastPing, UpdatePing.
    by rewrite lookup_total_insert_eq, lookup_insert_eq.
  - intros msg sk Hdec Hty Hu Hto Hs Hopen.
    unfold handleFrame. rewrite Hdec, Hty.
    change (String.eqb msgTypeMessage msgTypeRegister) with false.
    change (String.eqb msgTypeMessage msgTypePing) with false.
    change (String.eqb msgTypeMessage msgTypeMessage) with true. cbv iota.
    rewrite !eqb_empty_false by done.
    unfold routeMessage, presence.Get. rewrite Hdown. cbn [snd].
    unfold sendError. erewrite sendMessage_open; [| exact Hs | exact Hopen].
    cbn. by rewrite lookup_insert_eq.
Qed.

End WithRouter.

(** alice, registered, pings while the Redis server cannot be reached. *)
Lemma redis_outage_degrades_witness :
  let c := mkConnection 0 "c1" "alice" 1%nat in
  let w := mkWorld (mkBrokers (Redis.Server false 5000 ∅ []) (sarama.Cluster true []))
                   (Add NewConnectionManager c)
                   {[ 0%nat := 0 ]} {[ 1%nat := mkSocket false [] ]} [c] [] in
  let s := mkServer "gw1" 8080 (mkRouter "gw1") in
  let w' := (handleFrame s 1%nat "c1" (130 * Second) (text "{'type':'ping'}")
               (mkLocals "alice" (Some c)) w).2 in
  brokers w' = brokers w
  ∧ GetLastPing (pings w') c = 130 * Second
  ∧ socks w' !! 1%nat = Some (mkSocket false [text "{'type':'pong'}"]).
Proof.
  intros c w s w'.
  destruct (redis_outage_degrades s 1%nat "c1" (130 * Second)
              (text "{'type':'ping'}") (mkLocals "alice" (Some c)) w)
    as (Hb & Hping & _); [reflexivity|].
  split; [exact Hb|].
  destruct (Hping (mkClientMessage "ping" EmptyString EmptyString EmptyString)
              c (mkSocket false []))
    as (HP & Hs & _); [reflexivity..|].
  split; [exact HP | exact Hs].
Defined.

End OutageFacts.
